(** * SSH tunnel subsystem of pgcli ([pgcli/ssh_tunnel.py])

    A shallow embedding of [SSHTunnelManager], [_NativeSSHTunnel] and
    [_ForwardHandler], and the properties of the tunnel specification that
    can be stated over it.

    Conventions of the embedding.
    - A Python [str] is a [string]; the development is about ASCII text.
    - [Optional[T]] is [option T]; Python truthiness is written out
      ([truthy], [present]): [None] and the empty string are both falsy.
    - A [dict] that is iterated ([items()]) is an association list in
      insertion order.
    - Objects that are mutated and shared (the tunnel object referenced by
      the manager) live in a store ([gmap]) and are addressed by location.
    - Effects on the outside world are recorded, in order, in a trace of
      events; what the outside world answers is read from an [Env].
    - The functions of the Python standard library that the module calls
      ([re.fullmatch], [urllib.parse.urlparse], [int]) are an interface
      ([PyLib]); the theorems hold for every implementation of it, and a
      concrete implementation ([Re], [Url]) is given to evaluate examples.
    - [logging] calls change neither state nor control flow and are left
      out. *)

From Stdlib Require Import ZArith Ascii String.
From stdpp Require Import base tactics option list strings gmap.

Local Open Scope Z_scope.

(** ** Python strings *)

Module Str.

(** [bool(s)] for a [str]. *)
Definition truthy (s : string) : bool := bool_decide (s ≠ "").

(** [sub in s]. *)
Fixpoint contains (sub s : string) : bool :=
  String.prefix sub s
  || match s with
     | "" => false
     | String _ s' => contains sub s'
     end.

Definition is_upper (c : ascii) : bool :=
  (65 <=? Z.of_nat (nat_of_ascii c)) && (Z.of_nat (nat_of_ascii c) <=? 90).
Definition is_lower (c : ascii) : bool :=
  (97 <=? Z.of_nat (nat_of_ascii c)) && (Z.of_nat (nat_of_ascii c) <=? 122).
Definition is_digit (c : ascii) : bool :=
  (48 <=? Z.of_nat (nat_of_ascii c)) && (Z.of_nat (nat_of_ascii c) <=? 57).
Definition is_alnum (c : ascii) : bool := is_upper c || is_lower c || is_digit c.
Definition is_ascii (c : ascii) : bool := Z.of_nat (nat_of_ascii c) <? 128.

Definition lower_char (c : ascii) : ascii :=
  if is_upper c then ascii_of_nat (nat_of_ascii c + 32) else c.

(** [s.lower()] on ASCII text. *)
Fixpoint lower (s : string) : string :=
  match s with
  | "" => ""
  | String c s' => String (lower_char c) (lower s')
  end.

Fixpoint forallb (f : ascii → bool) (s : string) : bool :=
  match s with
  | "" => true
  | String c s' => f c && forallb f s'
  end.

(** [s.partition(c)]: text before the first [c], whether [c] occurs, text
    after it. *)
Fixpoint partition (c : ascii) (s : string) : string * bool * string :=
  match s with
  | "" => ("", false, "")
  | String a s' =>
      if decide (a = c) then ("", true, s')
      else let '(h, found, t) := partition c s' in (String a h, found, t)
  end.

(** [s.rpartition(c)]: split at the last [c]; without one, everything is in
    the third component. *)
Fixpoint rpartition (c : ascii) (s : string) : string * bool * string :=
  match s with
  | "" => ("", false, "")
  | String a s' =>
      let '(h, found, t) := rpartition c s' in
      if found then (String a h, true, t)
      else if decide (a = c) then ("", true, s')
      else ("", false, String a t)
  end.

End Str.

(** [x if x else None] on optional strings: the value when it is truthy. *)
Definition present (o : option string) : option string :=
  match o with
  | Some s => if Str.truthy s then Some s else None
  | None => None
  end.

(** ** Exceptions and results *)

(** An exception of class [Exception]: its class name and [str(e)]. *)
Record exn := Exn { exn_class : string; exn_msg : string }.

(** The result of a call that returns or raises. *)
Inductive result (A : Type) : Type :=
| Ok (a : A)
| Err (e : exn).
Arguments Ok {A} a.
Arguments Err {A} e.

(** ** A model of [re.fullmatch]

    The fragment of Python's regular-expression syntax that tunnel rules use:
    literal characters, [.], escaped punctuation, the postfix operators
    [*], [+] and [?], alternation and capturing groups, over ASCII. *)

Module Re.

Inductive regex : Type :=
| Void
| Eps
| Chr (c : ascii)
| Dot
| Cat (r1 r2 : regex)
| Alt (r1 r2 : regex)
| Star (r : regex).

Definition newline : ascii := "010"%char.


(** Matching by derivatives. *)
Fixpoint nullable (r : regex) : bool :=
  match r with
  | Void | Chr _ | Dot => false
  | Eps | Star _ => true
  | Cat r1 r2 => nullable r1 && nullable r2
  | Alt r1 r2 => nullable r1 || nullable r2
  end.

Fixpoint deriv (a : ascii) (r : regex) : regex :=
  match r with
  | Void | Eps => Void
  | Chr c => if decide (a = c) then Eps else Void
  | Dot => if decide (a = newline) then Void else Eps
  | Cat r1 r2 =>
      if nullable r1 then Alt (Cat (deriv a r1) r2) (deriv a r2)
      else Cat (deriv a r1) r2
  | Alt r1 r2 => Alt (deriv a r1) (deriv a r2)
  | Star r1 => Cat (deriv a r1) (Star r1)
  end.

Fixpoint matches (r : regex) (s : string) : bool :=
  match s with
  | "" => nullable r
  | String a s' => matches (deriv a r) s'
  end.

(** *** Reading a pattern *)

(** One nesting level of the pattern being read: the alternatives already
    closed by [|], the atoms of the alternative being read (both most
    recent first), and whether the last atom already carries a repeat. *)
Record frame := Frame {
  f_alts : list regex;
  f_seq : list regex;
  f_rep : bool;
}.

Definition empty_frame : frame := Frame [] [] false.

Definition close_seq (seq : list regex) : regex :=
  fold_left (λ acc a, Cat a acc) seq Eps.

Definition close (f : frame) : regex :=
  fold_left (λ acc b, Alt b acc) (f_alts f) (close_seq (f_seq f)).

Definition push (a : regex) (f : frame) : frame :=
  Frame (f_alts f) (a :: f_seq f) false.

Definition next_alt (f : frame) : frame :=
  Frame (close_seq (f_seq f) :: f_alts f) [] false.

Definition repeat (q : regex → regex) (f : frame) : option frame :=
  match f_seq f with
  | [] => None                                (* nothing to repeat *)
  | a :: rest =>
      if f_rep f then None                    (* multiple repeat, or lazy/possessive *)
      else Some (Frame (f_alts f) (q a :: rest) true)
  end.

Definition is_special (c : ascii) : bool :=
  bool_decide (c ∈ ["\"; "."; "^"; "$"; "*"; "+"; "?"; "{"; "}"; "["; "]"; "|"; "("; ")"]%char).

(** A character that can stand for itself in a pattern. *)
Definition plain (c : ascii) : bool := Str.is_ascii c && negb (is_special c).

(** [\c] is the literal [c] when [c] is ASCII punctuation. *)
Definition escapable (c : ascii) : bool :=
  (32 <=? Z.of_nat (nat_of_ascii c)) && (Z.of_nat (nat_of_ascii c) <=? 126)
  && negb (Str.is_alnum c).

Fixpoint parse (p : string) (cur : frame) (stack : list frame) : option regex :=
  match p with
  | "" =>
      match stack with
      | [] => Some (close cur)
      | _ :: _ => None                        (* missing ) *)
      end
  | String c p' =>
      if decide (c = "("%char) then
        match p' with
        | String "?"%char _ => None           (* extension notation *)
        | _ => parse p' empty_frame (cur :: stack)
        end
      else if decide (c = ")"%char) then
        match stack with
        | [] => None                          (* unbalanced parenthesis *)
        | f :: stack' => parse p' (push (close cur) f) stack'
        end
      else if decide (c = "|"%char) then parse p' (next_alt cur) stack
      else if decide (c = "*"%char) then
        match repeat Star cur with
        | Some cur' => parse p' cur' stack
        | None => None
        end
      else if decide (c = "+"%char) then
        match repeat (λ a, Cat a (Star a)) cur with
        | Some cur' => parse p' cur' stack
        | None => None
        end
      else if decide (c = "?"%char) then
        match repeat (λ a, Alt a Eps) cur with
        | Some cur' => parse p' cur' stack
        | None => None
        end
      else if decide (c = "."%char) then parse p' (push Dot cur) stack
      else if decide (c = "\"%char) then
        match p' with
        | "" => None                          (* bad escape (end of pattern) *)
        | String e p'' =>
            if escapable e then parse p'' (push (Chr e) cur) stack else None
        end
      else if plain c then parse p' (push (Chr c) cur) stack
      else None
  end.

(** [re.compile]: [None] when Python raises [re.error], and also when the
    pattern leaves the fragment. *)
Definition compile (p : string) : option regex := parse p empty_frame [].

(** [re.fullmatch(p, s)], as the truth value of its result. *)
Definition fullmatch (p s : string) : result bool :=
  match compile p with
  | Some r => Ok (matches r s)
  | None => Err (Exn "re.error" p)
  end.

(** *** Patterns without operators *)



End Re.

(** ** The Python library interface *)

(** What [start_tunnel] reads from the value of [urlparse(url)]. Reading
    [.port] raises [ValueError] when the port is not a number in range. *)
Record ParseResult := {
  pr_hostname : option string;
  pr_port : result (option Z);
  pr_username : option string;
  pr_password : option string;
}.

Class PyLib := {
  (** [re.fullmatch(pattern, string)], as the truth value of the match;
      [Err] is [re.error]. *)
  re_fullmatch : string → string → result bool;
  (** [urllib.parse.urlparse(url)]. *)
  urlparse : string → result ParseResult;
  (** [int(s)] for a [str]. *)
  py_int : string → result Z;
}.

(** ** Data model *)

(** A [dict] with string keys, in insertion order. *)
Definition dict (V : Type) : Type := list (string * V).

Fixpoint dict_get {V} (k : string) (d : dict V) : option V :=
  match d with
  | [] => None
  | (k', v) :: d' => if decide (k' = k) then Some v else dict_get k d'
  end.

Definition loc := nat.

Inductive HostKeyPolicy := AutoAddPolicy | WarningPolicy | RejectPolicy.

(** A [paramiko.ProxyCommand] object. *)
Record ProxyCommand := { proxy_command_line : string }.

(** The keyword arguments of [SSHClient.connect]; an optional key that is
    not passed is [None]. *)
Record ConnectKwargs := {
  kw_hostname : option string;
  kw_port : Z;
  kw_username : option string;
  kw_allow_agent : bool;
  kw_look_for_keys : bool;
  kw_compress : bool;
  kw_timeout : Z;
  kw_key_filename : option (list string);
  kw_password : option string;
  kw_sock : option ProxyCommand;
}.

(** The transport of a connected client, known by the connection it carries. *)
Record Transport := { transport_of : ConnectKwargs }.

Record SSHClient := {
  missing_host_key_policy : option HostKeyPolicy;
  transport : option Transport;
}.

(** The class built by [type("BoundForwardHandler", (_ForwardHandler,), ...)]. *)
Record ForwardHandler := {
  handler_ssh_transport : option Transport;
  handler_remote_host : string;
  handler_remote_port : Z;
}.

Record ThreadingTCPServer := {
  server_address : string * Z;
  RequestHandlerClass : ForwardHandler;
  daemon_threads : bool;
}.

Record Thread := { daemon : bool }.

Record NativeSSHTunnel := {
  ssh_hostname : option string;
  ssh_port : Z;
  remote_host : string;
  remote_port : Z;
  ssh_username : option string;
  ssh_password : option string;
  ssh_proxy : option ProxyCommand;
  tunnel_allow_agent : bool;
  key_filenames : option (list string);
  tunnel_host_key_policy : string;
  _ssh_client : option SSHClient;
  _server : option ThreadingTCPServer;
  _server_thread : option Thread;
  _is_active : bool;
}.

Definition set_ssh_client (c : option SSHClient) (t : NativeSSHTunnel) : NativeSSHTunnel :=
  {| ssh_hostname := ssh_hostname t; ssh_port := ssh_port t;
     remote_host := remote_host t; remote_port := remote_port t;
     ssh_username := ssh_username t; ssh_password := ssh_password t;
     ssh_proxy := ssh_proxy t; tunnel_allow_agent := tunnel_allow_agent t;
     key_filenames := key_filenames t;
     tunnel_host_key_policy := tunnel_host_key_policy t;
     _ssh_client := c; _server := _server t;
     _server_thread := _server_thread t; _is_active := _is_active t |}.

Definition set_server (srv : option ThreadingTCPServer) (t : NativeSSHTunnel) : NativeSSHTunnel :=
  {| ssh_hostname := ssh_hostname t; ssh_port := ssh_port t;
     remote_host := remote_host t; remote_port := remote_port t;
     ssh_username := ssh_username t; ssh_password := ssh_password t;
     ssh_proxy := ssh_proxy t; tunnel_allow_agent := tunnel_allow_agent t;
     key_filenames := key_filenames t;
     tunnel_host_key_policy := tunnel_host_key_policy t;
     _ssh_client := _ssh_client t; _server := srv;
     _server_thread := _server_thread t; _is_active := _is_active t |}.

Definition set_server_thread (th : option Thread) (t : NativeSSHTunnel) : NativeSSHTunnel :=
  {| ssh_hostname := ssh_hostname t; ssh_port := ssh_port t;
     remote_host := remote_host t; remote_port := remote_port t;
     ssh_username := ssh_username t; ssh_password := ssh_password t;
     ssh_proxy := ssh_proxy t; tunnel_allow_agent := tunnel_allow_agent t;
     key_filenames := key_filenames t;
     tunnel_host_key_policy := tunnel_host_key_policy t;
     _ssh_client := _ssh_client t; _server := _server t;
     _server_thread := th; _is_active := _is_active t |}.

Definition set_is_active (b : bool) (t : NativeSSHTunnel) : NativeSSHTunnel :=
  {| ssh_hostname := ssh_hostname t; ssh_port := ssh_port t;
     remote_host := remote_host t; remote_port := remote_port t;
     ssh_username := ssh_username t; ssh_password := ssh_password t;
     ssh_proxy := ssh_proxy t; tunnel_allow_agent := tunnel_allow_agent t;
     key_filenames := key_filenames t;
     tunnel_host_key_policy := tunnel_host_key_policy t;
     _ssh_client := _ssh_client t; _server := _server t;
     _server_thread := _server_thread t; _is_active := b |}.

(** [_NativeSSHTunnel.__init__]. *)
Definition NativeSSHTunnel_init
    (ssh_hostname : option string) (ssh_port : Z)
    (remote_host : string) (remote_port : Z)
    (ssh_username ssh_password : option string)
    (ssh_proxy : option ProxyCommand) (allow_agent : bool)
    (key_filenames : option (list string)) (host_key_policy : string)
    : NativeSSHTunnel :=
  {| ssh_hostname := ssh_hostname; ssh_port := ssh_port;
     remote_host := remote_host; remote_port := remote_port;
     ssh_username := ssh_username; ssh_password := ssh_password;
     ssh_proxy := ssh_proxy; tunnel_allow_agent := allow_agent;
     key_filenames := key_filenames;
     tunnel_host_key_policy := host_key_policy;
     _ssh_client := None; _server := None;
     _server_thread := None; _is_active := false |}.

Global Instance NativeSSHTunnel_inhabited : Inhabited NativeSSHTunnel :=
  populate (NativeSSHTunnel_init None 0 "" 0 None None None true None "").

(** [_NativeSSHTunnel.is_active]. *)
Definition is_active (t : NativeSSHTunnel) : bool := _is_active t.

(** [_NativeSSHTunnel.local_bind_port]. *)
Definition local_bind_port (t : NativeSSHTunnel) : option Z :=
  match _server t with
  | Some srv => Some (snd (server_address srv))
  | None => None
  end.

Record SSHTunnelManager := {
  ssh_tunnel_url : option string;
  ssh_tunnel_config : dict string;
  dsn_ssh_tunnel_config : dict string;
  tunnel : option loc;
  allow_agent : bool;
  host_key_policy : string;
}.

(** [SSHTunnelManager.__init__]. *)
Definition SSHTunnelManager_init
    (ssh_tunnel_url : option string)
    (ssh_tunnel_config dsn_ssh_tunnel_config : option (dict string))
    (allow_agent : bool) (host_key_policy : string) : SSHTunnelManager :=
  {| ssh_tunnel_url := ssh_tunnel_url;
     ssh_tunnel_config := default [] ssh_tunnel_config;
     dsn_ssh_tunnel_config := default [] dsn_ssh_tunnel_config;
     tunnel := None;
     allow_agent := allow_agent;
     host_key_policy := host_key_policy |}.

Definition set_tunnel (l : option loc) (m : SSHTunnelManager) : SSHTunnelManager :=
  {| ssh_tunnel_url := ssh_tunnel_url m;
     ssh_tunnel_config := ssh_tunnel_config m;
     dsn_ssh_tunnel_config := dsn_ssh_tunnel_config m;
     tunnel := l;
     allow_agent := allow_agent m;
     host_key_policy := host_key_policy m |}.

(** [get_tunnel_manager_from_config]; [config] maps a section name to the
    section, a [dict] of strings. *)
Definition get_tunnel_manager_from_config
    (config : gmap string (dict string)) (ssh_tunnel_url : option string)
    : SSHTunnelManager :=
  let ssh_tunnels_config := default [] (config !! "ssh tunnels") in
  let allow_agent :=
    bool_decide
      (Str.lower (default "True" (dict_get "allow_agent" ssh_tunnels_config)) = "true") in
  let host_key_policy :=
    Str.lower (default "auto-add" (dict_get "host_key_policy" ssh_tunnels_config)) in
  SSHTunnelManager_init ssh_tunnel_url (Some ssh_tunnels_config)
    (config !! "dsn ssh tunnels") allow_agent host_key_policy.

(** ** Rule matching *)

Section Matching.
Context `{PyLib}.

(** The loop [for regex, tunnel_url in rules.items(): if re.fullmatch(regex,
    candidate): return tunnel_url]; [Ok None] when the loop runs to its
    end. *)
Fixpoint match_rules (rules : dict string) (candidate : string)
    : result (option string) :=
  match rules with
  | [] => Ok None
  | (regex, tunnel_url) :: rules' =>
      match re_fullmatch regex candidate with
      | Err e => Err e
      | Ok true => Ok (Some tunnel_url)
      | Ok false => match_rules rules' candidate
      end
  end.

(** [SSHTunnelManager.find_tunnel_url]. *)
Definition find_tunnel_url (self : SSHTunnelManager)
    (host dsn_alias : option string) : result (option string) :=
  match present (ssh_tunnel_url self) with
  | Some url => Ok (Some url)
  | None =>
      let by_dsn :=
        match present dsn_alias, dsn_ssh_tunnel_config self with
        | Some alias, _ :: _ => match_rules (dsn_ssh_tunnel_config self) alias
        | _, _ => Ok None
        end in
      match by_dsn with
      | Err e => Err e
      | Ok (Some url) => Ok (Some url)
      | Ok None =>
          match present host, ssh_tunnel_config self with
          | Some h, _ :: _ => match_rules (ssh_tunnel_config self) h
          | _, _ => Ok None
          end
      end
  end.

End Matching.

(** ** The outside world *)

(** The value of [SSHConfig.lookup(hostname)], for the keys that are read. *)
Record HostConfig := {
  hc_hostname : option string;
  hc_user : option string;
  hc_port : option string;
  hc_proxycommand : option string;
  hc_identityfile : option (list string);
}.

(** What [transport.open_channel] does: raise, return [None], or return a
    channel. *)
Inductive channel_result :=
| ChannelRaises (e : exn)
| ChannelRejected
| ChannelOpened.

(** The answers of the operating system, the file system and the network. *)
Record Env := {
  expanduser : string → string;
  isfile : string → bool;
  (** [open(path)], [SSHConfig.parse] and [lookup(hostname)] together *)
  ssh_config_lookup : string → string → result HostConfig;
  (** [paramiko.ProxyCommand(command_line)] *)
  new_proxy_command : string → result ProxyCommand;
  getuser : result string;
  load_system_host_keys : result unit;
  connect : ConnectKwargs → result unit;
  (** [ThreadingTCPServer(address, handler)]: the port that was bound *)
  bind_server : string * Z → result Z;
  thread_start : result unit;
  open_channel : Transport → string → string * Z → string * Z → channel_result;
}.

Inductive event :=
| EvLoadSystemHostKeys
| EvSetMissingHostKeyPolicy (p : HostKeyPolicy)
| EvConnect (kw : ConnectKwargs)
| EvBind (address : string * Z) (handler : ForwardHandler)
| EvThreadStart
| EvServerShutdown (srv : ThreadingTCPServer)
| EvClientClose (c : SSHClient)
| EvSecho (message : string) (err : bool) (fg : string)
| EvAtexitRegister
| EvOpenChannel (on : Transport) (kind : string)
    (dest_addr src_addr : string * Z)
| EvChannelSendall (data : string)
| EvRequestSendall (data : string)
| EvChannelClose.

(** ** State and control *)

Record state := State {
  mgr : SSHTunnelManager;
  heap : gmap loc NativeSSHTunnel;
  trace : list event;
}.

(** How a call ends: it returns, an [Exception] propagates, or
    [SystemExit(code)] propagates. *)
Inductive outcome (A : Type) : Type :=
| Return (a : A)
| Raised (e : exn)
| SystemExit (code : Z).
Arguments Return {A} a.
Arguments Raised {A} e.
Arguments SystemExit {A} code.

Definition M (A : Type) : Type := state → outcome A * state.

Definition ret {A} (a : A) : M A := λ s, (Return a, s).

Definition bind {A B} (m : M A) (k : A → M B) : M B :=
  λ s, match m s with
       | (Return a, s') => k a s'
       | (Raised e, s') => (Raised e, s')
       | (SystemExit c, s') => (SystemExit c, s')
       end.

Declare Scope M_scope.
Delimit Scope M_scope with M.
Notation "x <- c ;; k" := (bind c (λ x, k))
  (at level 100, c at next level, right associativity) : M_scope.
Notation "c ;; k" := (bind c (λ _, k))
  (at level 100, right associativity) : M_scope.
Local Open Scope M_scope.

Definition raise {A} (e : exn) : M A := λ s, (Raised e, s).

(** [sys.exit(code)]. *)
Definition sys_exit {A} (code : Z) : M A := λ s, (SystemExit code, s).

(** A call that returns or raises, made from the program. *)
Definition call {A} (r : result A) : M A :=
  match r with
  | Ok a => ret a
  | Err e => raise e
  end.

(** [try: body except Exception as e: handler(e)]. [SystemExit] is not an
    [Exception] and passes through. *)
Definition try_except {A} (body : M A) (handler : exn → M A) : M A :=
  λ s, match body s with
       | (Raised e, s') => handler e s'
       | other => other
       end.

Definition emit (e : event) : M unit :=
  λ s, (Return (), State (mgr s) (heap s) (trace s ++ [e])).

Definition read (l : loc) : M NativeSSHTunnel :=
  λ s, (Return (heap s !!! l), s).

Definition update (l : loc) (f : NativeSSHTunnel → NativeSSHTunnel) : M unit :=
  λ s, (Return (), State (mgr s) (<[l := f (heap s !!! l)]> (heap s)) (trace s)).

(** A new object in the store. *)
Definition alloc (t : NativeSSHTunnel) : M loc :=
  λ s, let l := fresh (dom (heap s)) in
       (Return l, State (mgr s) (<[l := t]> (heap s)) (trace s)).

Definition get_mgr : M SSHTunnelManager := λ s, (Return (mgr s), s).

Definition set_mgr_tunnel (l : option loc) : M unit :=
  λ s, (Return (), State (set_tunnel l (mgr s)) (heap s) (trace s)).

(** ** [_NativeSSHTunnel] *)

(** [HOST_KEY_POLICIES.get(name, paramiko.AutoAddPolicy)]. *)
Definition HOST_KEY_POLICIES_get (name : string) : HostKeyPolicy :=
  if decide (name = "auto-add") then AutoAddPolicy
  else if decide (name = "warn") then WarningPolicy
  else if decide (name = "reject") then RejectPolicy
  else AutoAddPolicy.

(** The [connect_kwargs] that [start] builds. *)
Definition connect_kwargs (self : NativeSSHTunnel) : ConnectKwargs :=
  {| kw_hostname := ssh_hostname self;
     kw_port := ssh_port self;
     kw_username := ssh_username self;
     kw_allow_agent := tunnel_allow_agent self;
     kw_look_for_keys := false;
     kw_compress := false;
     kw_timeout := 10;
     kw_key_filename :=
       match key_filenames self with
       | Some (f :: fs) => Some (f :: fs)
       | _ => None
       end;
     kw_password := present (ssh_password self);
     kw_sock := ssh_proxy self |}.

Section Tunnel.
Variable env : Env.

(** [_NativeSSHTunnel.start]. *)
Definition tunnel_start (self : loc) : M unit :=
  update self (set_ssh_client (Some (Build_SSHClient None None)));;
  emit EvLoadSystemHostKeys;;
  call (load_system_host_keys env);;
  t <- read self;;
  let policy := HOST_KEY_POLICIES_get (tunnel_host_key_policy t) in
  emit (EvSetMissingHostKeyPolicy policy);;
  update self (set_ssh_client (Some (Build_SSHClient (Some policy) None)));;
  t <- read self;;
  let kwargs := connect_kwargs t in
  emit (EvConnect kwargs);;
  call (connect env kwargs);;
  let tr := Build_Transport kwargs in
  update self (set_ssh_client (Some (Build_SSHClient (Some policy) (Some tr))));;
  t <- read self;;
  let handler_class :=
    {| handler_ssh_transport := from_option transport None (_ssh_client t);
       handler_remote_host := remote_host t;
       handler_remote_port := remote_port t |} in
  emit (EvBind ("127.0.0.1"%string, 0) handler_class);;
  port <- call (bind_server env ("127.0.0.1"%string, 0));;
  update self
    (set_server
       (Some (Build_ThreadingTCPServer ("127.0.0.1"%string, port) handler_class false)));;
  update self
    (set_server
       (Some (Build_ThreadingTCPServer ("127.0.0.1"%string, port) handler_class true)));;
  update self (set_server_thread (Some (Build_Thread true)));;
  emit EvThreadStart;;
  call (thread_start env);;
  update self (set_is_active true).

(** [_NativeSSHTunnel.stop]. *)
Definition tunnel_stop (self : loc) : M unit :=
  update self (set_is_active false);;
  t <- read self;;
  match _server t with
  | Some srv => emit (EvServerShutdown srv);; update self (set_server None)
  | None => ret ()
  end;;
  t <- read self;;
  match _ssh_client t with
  | Some c => emit (EvClientClose c);; update self (set_ssh_client None)
  | None => ret ()
  end;;
  update self (set_server_thread None).

End Tunnel.

(** ** [SSHTunnelManager] *)

(** The local variables of [start_tunnel] that the SSH configuration can
    change. *)
Record locals := Locals {
  l_ssh_hostname : option string;
  l_ssh_port : Z;
  l_ssh_username : option string;
  l_ssh_proxy : option ProxyCommand;
  l_key_filenames : list string;
}.

(** Python truthiness of an [int] or [None]. *)
Definition truthy_port (p : option Z) : bool :=
  match p with
  | Some n => bool_decide (n ≠ 0)
  | None => false
  end.

Section Manager.
Context `{PyLib}.
Variable env : Env.

(** The body of the [try] that reads [~/.ssh/config] in [start_tunnel],
    with its [except Exception] clause: an exception ends the block and
    keeps the assignments made before it. [info_port] is
    [tunnel_info.port]. *)
Definition read_ssh_config (ssh_config_path host : string)
    (info_port : option Z) (v : locals) : locals :=
  match ssh_config_lookup env ssh_config_path host with
  | Err _ => v
  | Ok host_config =>
      let v :=
        Locals (Some (default host (hc_hostname host_config)))
          (l_ssh_port v) (l_ssh_username v) (l_ssh_proxy v) (l_key_filenames v) in
      let v :=
        match present (l_ssh_username v) with
        | Some _ => v
        | None =>
            Locals (l_ssh_hostname v) (l_ssh_port v) (hc_user host_config)
              (l_ssh_proxy v) (l_key_filenames v)
        end in
      let port :=
        match hc_port host_config with
        | Some p => if truthy_port info_port then Ok (l_ssh_port v) else py_int p
        | None => Ok (l_ssh_port v)
        end in
      match port with
      | Err _ => v
      | Ok port =>
          let v :=
            Locals (l_ssh_hostname v) port (l_ssh_username v)
              (l_ssh_proxy v) (l_key_filenames v) in
          let proxy :=
            match present (hc_proxycommand host_config) with
            | Some proxycommand =>
                match new_proxy_command env proxycommand with
                | Ok p => Ok (Some p)
                | Err e => Err e
                end
            | None => Ok (l_ssh_proxy v)
            end in
          match proxy with
          | Err _ => v
          | Ok proxy =>
              let identity_files := default [] (hc_identityfile host_config) in
              Locals (l_ssh_hostname v) (l_ssh_port v) (l_ssh_username v) proxy
                (expanduser env <$>
                   List.filter (λ f, isfile env (expanduser env f)) identity_files)
          end
      end
  end.

(** Lines 302 to 339 of [start_tunnel]: the connection parameters from the
    parsed specification and the SSH configuration. *)
Definition resolve (tunnel_info : ParseResult) : result locals :=
  match pr_port tunnel_info with
  | Err e => Err e
  | Ok info_port =>
      let v :=
        Locals (pr_hostname tunnel_info)
          (if truthy_port info_port then default 22 info_port else 22)
          (pr_username tunnel_info) None [] in
      let ssh_config_path := expanduser env "~/.ssh/config" in
      let v :=
        match present (l_ssh_hostname v) with
        | Some host =>
            if isfile env ssh_config_path
            then read_ssh_config ssh_config_path host info_port v
            else v
        | None => v
        end in
      match present (l_ssh_username v) with
      | Some _ => Ok v
      | None =>
          match getuser env with
          | Ok user =>
              Ok (Locals (l_ssh_hostname v) (l_ssh_port v) (Some user)
                    (l_ssh_proxy v) (l_key_filenames v))
          | Err e => Err e
          end
      end
  end.

(** [tunnel_url if "://" in tunnel_url else f"ssh://{tunnel_url}"]. *)
Definition with_scheme (tunnel_url : string) : string :=
  if Str.contains "://" tunnel_url then tunnel_url else "ssh://" +:+ tunnel_url.

(** The [_NativeSSHTunnel(...)] call of [start_tunnel]. *)
Definition new_tunnel (self : SSHTunnelManager) (tunnel_info : ParseResult)
    (v : locals) (host : string) (port : Z) : NativeSSHTunnel :=
  NativeSSHTunnel_init (l_ssh_hostname v) (l_ssh_port v) host port
    (l_ssh_username v) (pr_password tunnel_info) (l_ssh_proxy v)
    (allow_agent self)
    (match l_key_filenames v with
     | [] => None
     | fs => Some fs
     end)
    (host_key_policy self).

(** [SSHTunnelManager.start_tunnel]. The port of the result is
    [local_bind_port], which Python types as optional. *)
Definition start_tunnel (host : string) (port : Z) (dsn_alias : option string)
    : M (string * option Z) :=
  self <- get_mgr;;
  tunnel_url <- call (find_tunnel_url self (Some host) dsn_alias);;
  match present tunnel_url with
  | None => ret (host, Some port)
  | Some tunnel_url =>
      tunnel_info <- call (urlparse (with_scheme tunnel_url));;
      v <- call (resolve tunnel_info);;
      tunnel <-
        try_except
          (tunnel <- alloc (new_tunnel self tunnel_info v host port);;
           tunnel_start env tunnel;;
           set_mgr_tunnel (Some tunnel);;
           t <- read tunnel;;
           if is_active t then ret tunnel
           else raise (Exn "Exception" "SSH tunnel failed to start (is_active=False)"))
          (λ e,
             emit (EvSecho ("SSH tunnel error: " +:+ exn_msg e) true "red");;
             sys_exit 1);;
      emit EvAtexitRegister;;
      t <- read tunnel;;
      ret ("127.0.0.1"%string, local_bind_port t)
  end.

(** [SSHTunnelManager.stop_tunnel]. *)
Definition stop_tunnel : M unit :=
  self <- get_mgr;;
  match tunnel self with
  | Some l =>
      t <- read l;;
      if is_active t then
        tunnel_stop l;;
        set_mgr_tunnel None
      else ret ()
  | None => ret ()
  end.

End Manager.

(** ** [_ForwardHandler] *)

(** What one turn of the relay loop meets on a socket that [select] reports
    readable: [recv] returns data (empty at end of stream) and, if there is
    any, [sendall] to the other side succeeds; or [recv] raises [OSError];
    or [recv] returns data and [sendall] raises. *)
Inductive io :=
| Recv (data : string)
| RecvFails
| SendFails (data : string).

(** One turn of the loop: [select] raises, or returns the readable sockets. *)
Inductive round :=
| SelectFails
| Ready (request channel : option io).

(** Forwarding in one direction; [None] leaves the loop. *)
Definition forward (send : string → event) (x : option io) : option (list event) :=
  match x with
  | None => Some []
  | Some (Recv data) => if Str.truthy data then Some [send data] else None
  | Some RecvFails => None
  | Some (SendFails data) => None
  end.

(** The [while True] loop of [handle] over the rounds that happen; the
    boolean tells whether the loop was left ([break] or a caught error). *)
Fixpoint relay (rounds : list round) : list event * bool :=
  match rounds with
  | [] => ([], false)
  | SelectFails :: _ => ([], true)
  | Ready request channel :: rounds' =>
      match forward EvChannelSendall request with
      | None => ([], true)
      | Some out1 =>
          match forward EvRequestSendall channel with
          | None => (out1, true)
          | Some out2 =>
              let '(rest, done) := relay rounds' in (out1 ++ out2 ++ rest, done)
          end
      end
  end.

(** [_ForwardHandler.handle] for a connection accepted from [peername]: the
    events of the handler thread. *)
Definition handle (env : Env) (self : ForwardHandler) (peername : string * Z)
    (rounds : list round) : list event :=
  match handler_ssh_transport self with
  | None => []                                  (* AttributeError, caught *)
  | Some tr =>
      let dest_addr := (handler_remote_host self, handler_remote_port self) in
      EvOpenChannel tr "direct-tcpip" dest_addr peername ::
      match open_channel env tr "direct-tcpip" dest_addr peername with
      | ChannelRaises _ => []
      | ChannelRejected => []
      | ChannelOpened =>
          let '(out, done) := relay rounds in
          if done then out ++ [EvChannelClose] else out
      end
  end.

(** ** A model of [urllib.parse.urlparse] and of [int]

    For printable ASCII text without brackets (no IPv6 literal). [Err] is
    [ValueError]; it is also the answer for text outside this fragment. *)

Module Url.

Definition is_alpha (c : ascii) : bool := Str.is_upper c || Str.is_lower c.

Definition scheme_char (c : ascii) : bool :=
  Str.is_alnum c || bool_decide (c ∈ ["+"; "-"; "."]%char).

(** The scheme, when the text before the first colon is one, and the rest. *)
Definition split_scheme (url : string) : string * string :=
  let '(head, found, rest) := Str.partition ":" url in
  match head with
  | String c _ =>
      if found && is_alpha c && Str.forallb scheme_char head
      then (Str.lower head, rest)
      else ("", url)
  | "" => ("", url)
  end.

(** [_splitnetloc]: up to the first of [/], [?] and [#]. *)
Fixpoint until_delim (s : string) : string :=
  match s with
  | "" => ""
  | String c s' =>
      if bool_decide (c ∈ ["/"; "?"; "#"]%char) then "" else String c (until_delim s')
  end.

Definition netloc (url : string) : string :=
  let rest := snd (split_scheme url) in
  if String.prefix "//" rest
  then until_delim (String.substring 2 (String.length rest - 2) rest)
  else "".

(** [_userinfo]. *)
Definition userinfo (netloc : string) : option string * option string :=
  let '(info, have_info, _) := Str.rpartition "@" netloc in
  if have_info then
    let '(username, have_password, password) := Str.partition ":" info in
    (Some username, if have_password then Some password else None)
  else (None, None).

(** [_hostinfo], without brackets. *)
Definition hostinfo (netloc : string) : string * option string :=
  let '(_, _, host) := Str.rpartition "@" netloc in
  let '(hostname, _, port) := Str.partition ":" host in
  (hostname, if Str.truthy port then Some port else None).

Definition hostname (netloc : string) : option string :=
  let h := fst (hostinfo netloc) in
  if Str.truthy h then
    let '(name, percent, zone) := Str.partition "%" h in
    Some (Str.lower name +:+ (if percent then "%" else "") +:+ zone)
  else None.

Definition digit_value (c : ascii) : Z := Z.of_nat (nat_of_ascii c) - 48.

Fixpoint decimal (acc : Z) (s : string) : Z :=
  match s with
  | "" => acc
  | String c s' => decimal (10 * acc + digit_value c) s'
  end.

Definition port (netloc : string) : result (option Z) :=
  match snd (hostinfo netloc) with
  | None => Ok None
  | Some p =>
      if Str.forallb Str.is_digit p then
        if decimal 0 p <=? 65535 then Ok (Some (decimal 0 p))
        else Err (Exn "ValueError" "Port out of range 0-65535")
      else Err (Exn "ValueError" "Port could not be cast to integer value")
  end.

Definition in_fragment (c : ascii) : bool :=
  (33 <=? Z.of_nat (nat_of_ascii c)) && (Z.of_nat (nat_of_ascii c) <=? 126)
  && negb (bool_decide (c ∈ ["["; "]"]%char)).

Definition urlparse (url : string) : result ParseResult :=
  if Str.forallb in_fragment url then
    let n := netloc url in
    Ok {| pr_hostname := hostname n;
          pr_port := port n;
          pr_username := fst (userinfo n);
          pr_password := snd (userinfo n) |}
  else Err (Exn "ValueError" url).

(** The digits of [int(s)], where single underscores may separate them. *)
Fixpoint digits (acc : Z) (after_digit : bool) (s : string) : option Z :=
  match s with
  | "" => if after_digit then Some acc else None
  | String c s' =>
      if Str.is_digit c then digits (10 * acc + digit_value c) true s'
      else if decide (c = "_"%char) then
        if after_digit then digits acc false s' else None
      else None
  end.

Fixpoint lstrip (s : string) : string :=
  match s with
  | String c s' => if Ascii.is_space c then lstrip s' else s
  | "" => ""
  end.

Definition strip (s : string) : string :=
  String.rev (lstrip (String.rev (lstrip s))).

(** [int(s)]: optional white space around an optional sign and digits. *)
Definition int (s : string) : result Z :=
  let signed :=
    match strip s with
    | String "-"%char d => Z.opp <$> digits 0 false d
    | String "+"%char d => digits 0 false d
    | d => digits 0 false d
    end in
  match signed with
  | Some n => Ok n
  | None => Err (Exn "ValueError" ("invalid literal for int() with base 10: " +:+ s))
  end.

End Url.

(** The library as modelled by [Re] and [Url]. *)
Definition python : PyLib :=
  {| re_fullmatch := Re.fullmatch;
     urlparse := Url.urlparse;
     py_int := Url.int |}.

(** ** What a started tunnel looks like *)

(** The handler class that [start] builds for the tunnel [t]. *)
Definition handler_of (t : NativeSSHTunnel) : ForwardHandler :=
  {| handler_ssh_transport := Some (Build_Transport (connect_kwargs t));
     handler_remote_host := remote_host t;
     handler_remote_port := remote_port t |}.

(** The tunnel object [t] after a [start] that bound [port]. *)
Definition started (t : NativeSSHTunnel) (port : Z) : NativeSSHTunnel :=
  set_is_active true
    (set_server_thread (Some (Build_Thread true))
       (set_server
          (Some (Build_ThreadingTCPServer ("127.0.0.1"%string, port) (handler_of t) true))
          (set_ssh_client
             (Some (Build_SSHClient
                      (Some (HOST_KEY_POLICIES_get (tunnel_host_key_policy t)))
                      (Some (Build_Transport (connect_kwargs t))))) t))).

(** The events of a [start] that succeeds. *)
Definition start_events (t : NativeSSHTunnel) : list event :=
  [ EvLoadSystemHostKeys;
    EvSetMissingHostKeyPolicy (HOST_KEY_POLICIES_get (tunnel_host_key_policy t));
    EvConnect (connect_kwargs t);
    EvBind ("127.0.0.1"%string, 0) (handler_of t);
    EvThreadStart ].

(** The exception that ends [start], if one of its calls raises. *)
Definition establishment_error (env : Env) (kwargs : ConnectKwargs) : option exn :=
  match load_system_host_keys env with
  | Err e => Some e
  | Ok _ =>
      match connect env kwargs with
      | Err e => Some e
      | Ok _ =>
          match bind_server env ("127.0.0.1"%string, 0) with
          | Err e => Some e
          | Ok _ =>
              match thread_start env with
              | Err e => Some e
              | Ok _ => None
              end
          end
      end
  end.

(** The ways a call of [start_tunnel] can go. *)
Inductive start_tunnel_path `{PyLib} (env : Env) (host : string) (port : Z)
    (dsn_alias : option string) (s : state)
    : outcome (string * option Z) * state → Prop :=
| path_rule_error e :
    find_tunnel_url (mgr s) (Some host) dsn_alias = Err e →
    start_tunnel_path env host port dsn_alias s (Raised e, s)
| path_direct o :
    find_tunnel_url (mgr s) (Some host) dsn_alias = Ok o →
    present o = None →
    start_tunnel_path env host port dsn_alias s (Return (host, Some port), s)
| path_parse_error url e :
    find_tunnel_url (mgr s) (Some host) dsn_alias = Ok (Some url) →
    url ≠ "" →
    urlparse (with_scheme url) = Err e →
    start_tunnel_path env host port dsn_alias s (Raised e, s)
| path_resolve_error url tunnel_info e :
    find_tunnel_url (mgr s) (Some host) dsn_alias = Ok (Some url) →
    url ≠ "" →
    urlparse (with_scheme url) = Ok tunnel_info →
    resolve env tunnel_info = Err e →
    start_tunnel_path env host port dsn_alias s (Raised e, s)
| path_exit url tunnel_info v e t' evs :
    find_tunnel_url (mgr s) (Some host) dsn_alias = Ok (Some url) →
    url ≠ "" →
    urlparse (with_scheme url) = Ok tunnel_info →
    resolve env tunnel_info = Ok v →
    let t := new_tunnel (mgr s) tunnel_info v host port in
    establishment_error env (connect_kwargs t) = Some e →
    _is_active t' = false →
    evs `prefix_of` start_events t →
    (load_system_host_keys env = Ok () → EvConnect (connect_kwargs t) ∈ evs) →
    start_tunnel_path env host port dsn_alias s
      (SystemExit 1,
       State (mgr s) (<[fresh (dom (heap s)) := t']> (heap s))
         (trace s ++ evs ++ [EvSecho ("SSH tunnel error: " +:+ exn_msg e) true "red"]))
| path_tunnel url tunnel_info v p :
    find_tunnel_url (mgr s) (Some host) dsn_alias = Ok (Some url) →
    url ≠ "" →
    urlparse (with_scheme url) = Ok tunnel_info →
    resolve env tunnel_info = Ok v →
    let t := new_tunnel (mgr s) tunnel_info v host port in
    establishment_error env (connect_kwargs t) = None →
    bind_server env ("127.0.0.1"%string, 0) = Ok p →
    start_tunnel_path env host port dsn_alias s
      (Return ("127.0.0.1"%string, Some p),
       State (set_tunnel (Some (fresh (dom (heap s)))) (mgr s))
         (<[fresh (dom (heap s)) := started t p]> (heap s))
         (trace s ++ start_events t ++ [EvAtexitRegister])).

(** [start_tunnel] returned in [s'] and left the manager with a tunnel object
    [t] that did not exist in [s]. *)
Definition established `{PyLib} (env : Env) (host : string) (port : Z)
    (dsn_alias : option string) (s s' : state) (l : loc) (t : NativeSSHTunnel)
    : Prop :=
  ∃ r, start_tunnel env host port dsn_alias s = (Return r, s')
       ∧ tunnel (mgr s') = Some l
       ∧ heap s !! l = None
       ∧ heap s' !! l = Some t.

(** The events that a call added to the trace. *)
Definition new_events (s s' : state) : list event :=
  drop (length (trace s)) (trace s').

(** ** The specification, in its own words *)

Section Specification.
Context `{PyLib}.

(** "using full-string match": the truth value of the library's full match. *)
Definition full_match (pattern candidate : string) : bool :=
  match re_fullmatch pattern candidate with
  | Ok b => b
  | Err _ => false
  end.

(** "tested [...] in insertion order [...] first match wins". *)
Definition first_match (rules : dict string) (candidate : string) : option string :=
  snd <$> List.find (λ rule, full_match (fst rule) candidate) rules.

(** Section 4.1: "(1) an explicitly supplied specification always wins and
    short-circuits matching; (2) alias-keyed rules, tested against alias
    [...]; (3) host-keyed rules, tested against host the same way; (4) no
    match, None". *)
Definition find_target (explicit : option string)
    (alias_rules host_rules : dict string) (host alias : option string)
    : option string :=
  match explicit with
  | Some spec => Some spec
  | None =>
      match alias ≫= first_match alias_rules with
      | Some spec => Some spec
      | None => host ≫= first_match host_rules
      end
  end.

(** Every pattern of the rule set is a regular expression. *)
Definition regular (rules : dict string) : Prop :=
  ∀ pattern url candidate,
    (pattern, url) ∈ rules → ∃ b, re_fullmatch pattern candidate = Ok b.

(** No rule of the set matches the candidate. *)
Definition no_rule_matches (rules : dict string) (candidate : string) : Prop :=
  Forall (λ rule, re_fullmatch (fst rule) candidate = Ok false) rules.

End Specification.

(** Section 4.2: "Final username fallback order: specification-supplied,
    SSH-config-supplied, current OS user". *)
Definition username_fallback (spec_user config_user : option string)
    (os_user : string) : string :=
  match spec_user with
  | Some u => u
  | None =>
      match config_user with
      | Some u => u
      | None => os_user
      end
  end.

(** The SSH client configuration for a host name, when [~/.ssh/config] is a
    file that can be read. *)
Definition ssh_config_for (env : Env) (hostname : option string) : option HostConfig :=
  match present hostname with
  | Some h =>
      if isfile env (expanduser env "~/.ssh/config") then
        match ssh_config_lookup env (expanduser env "~/.ssh/config") h with
        | Ok host_config => Some host_config
        | Err _ => None
        end
      else None
  | None => None
  end.

(** "Only identity files that exist on disk are retained", in the order of
    the configuration; each path goes through [expanduser]. *)
Definition existing_identity_files (env : Env) (host_config : HostConfig) : list string :=
  expanduser env <$>
    List.filter (λ f, isfile env (expanduser env f))
      (default [] (hc_identityfile host_config)).

(** The value of the [key_filename] argument for a list of key files. *)
Definition key_filename_arg (files : list string) : option (list string) :=
  match files with
  | [] => None
  | _ :: _ => Some files
  end.

(** The [connect] calls among events. *)
Definition connect_calls (evs : list event) : list ConnectKwargs :=
  omap (λ ev, match ev with EvConnect kw => Some kw | _ => None end) evs.

(** The destinations of the channels opened among events. *)
Definition channel_destinations (evs : list event) : list (string * Z) :=
  omap (λ ev, match ev with EvOpenChannel _ _ dest _ => Some dest | _ => None end) evs.

(** ** Example environments *)

Module Examples.

Definition home_expand (p : string) : string :=
  if String.prefix "~/" p
  then "/home/alice/" +:+ String.substring 2 (String.length p - 2) p
  else p.

Definition no_config : HostConfig :=
  {| hc_hostname := None; hc_user := None; hc_port := None;
     hc_proxycommand := None; hc_identityfile := None |}.

(** A machine where everything works, with an SSH configuration that is the
    same for every host. *)
Definition machine (files : list string) (host_config : HostConfig) : Env :=
  {| expanduser := home_expand;
     isfile := λ p, bool_decide (p ∈ files);
     ssh_config_lookup := λ _ _, Ok host_config;
     new_proxy_command := λ cmd, Ok {| proxy_command_line := cmd |};
     getuser := Ok "alice"%string;
     load_system_host_keys := Ok ();
     connect := λ _, Ok ();
     bind_server := λ _, Ok 40001;
     thread_start := Ok ();
     open_channel := λ _ _ _ _, ChannelOpened |}.

(** The same machine, where the bastion refuses the connection. *)
Definition unreachable (env : Env) : Env :=
  {| expanduser := expanduser env;
     isfile := isfile env;
     ssh_config_lookup := ssh_config_lookup env;
     new_proxy_command := new_proxy_command env;
     getuser := getuser env;
     load_system_host_keys := load_system_host_keys env;
     connect := λ _, Err (Exn "NoValidConnectionsError" "Unable to connect to port 22");
     bind_server := bind_server env;
     thread_start := thread_start env;
     open_channel := open_channel env |}.

(** The same machine, where no proxy command can be started. *)
Definition no_proxy (env : Env) : Env :=
  {| expanduser := expanduser env;
     isfile := isfile env;
     ssh_config_lookup := ssh_config_lookup env;
     new_proxy_command := λ cmd, Err (Exn "FileNotFoundError" cmd);
     getuser := getuser env;
     load_system_host_keys := load_system_host_keys env;
     connect := connect env;
     bind_server := bind_server env;
     thread_start := thread_start env;
     open_channel := open_channel env |}.

Definition bastion_config : HostConfig :=
  {| hc_hostname := Some "bastion.internal"%string;
     hc_user := Some "deploy"%string;
     hc_port := Some "2222"%string;
     hc_proxycommand := None;
     hc_identityfile := Some ["~/.ssh/id_bastion"; "~/.ssh/id_missing"; "/keys/id_all"]%string |}.

Definition home : list string :=
  ["/home/alice/.ssh/config"; "/home/alice/.ssh/id_bastion"; "/keys/id_all"]%string.

Definition manager (url : option string) (host_rules dsn_rules : dict string)
    : SSHTunnelManager :=
  SSHTunnelManager_init url (Some host_rules) (Some dsn_rules) true "auto-add".

Definition initial (m : SSHTunnelManager) : state := State m ∅ [].

End Examples.

(** ** What a stopped tunnel looks like *)

(** The tunnel object after [stop]. *)
Definition stopped (t : NativeSSHTunnel) : NativeSSHTunnel :=
  set_server_thread None (set_ssh_client None (set_server None (set_is_active false t))).

(** The events of [stop]. *)
Definition stop_events (t : NativeSSHTunnel) : list event :=
  match _server t with Some srv => [EvServerShutdown srv] | None => [] end
  ++ match _ssh_client t with Some c => [EvClientClose c] | None => [] end.

(** ** Resolution of the connection parameters, in parts *)

(** The locals of [start_tunnel] when the SSH configuration has been read. *)
Definition configured `{PyLib} (env : Env) (tunnel_info : ParseResult)
    (info_port : option Z) : locals :=
  let v :=
    Locals (pr_hostname tunnel_info)
      (if truthy_port info_port then default 22 info_port else 22)
      (pr_username tunnel_info) None [] in
  match present (l_ssh_hostname v) with
  | Some host =>
      if isfile env (expanduser env "~/.ssh/config")
      then read_ssh_config env (expanduser env "~/.ssh/config") host info_port v
      else v
  | None => v
  end.




(** The [try] block that reads the SSH configuration reaches its last
    statement: neither the conversion of the configured port nor the
    creation of the proxy command raises. *)
Definition reads_to_end `{PyLib} (env : Env) (info_port : option Z)
    (host_config : HostConfig) : bool :=
  match hc_port host_config with
  | Some p =>
      if truthy_port info_port then true
      else match py_int p with Ok _ => true | Err _ => false end
  | None => true
  end
  && match present (hc_proxycommand host_config) with
     | Some proxycommand =>
         match new_proxy_command env proxycommand with
         | Ok _ => true
         | Err _ => false
         end
     | None => true
     end.

(** The identity files of the configuration for a host name that exist. *)
Definition configured_identity_files (env : Env) (hostname : option string)
    : list string :=
  match ssh_config_for env hostname with
  | Some host_config => existing_identity_files env host_config
  | None => []
  end.

(** ** Reading a trace *)

(** The data written to the channel, and to the local socket, among events. *)
Definition channel_writes (evs : list event) : list string :=
  omap (λ ev, match ev with EvChannelSendall data => Some data | _ => None end) evs.

Definition request_writes (evs : list event) : list string :=
  omap (λ ev, match ev with EvRequestSendall data => Some data | _ => None end) evs.

(** The data that [recv] returns on a socket in one turn of the relay loop,
    when it returns any. *)
Definition received (x : option io) : list string :=
  match x with
  | Some (Recv data) => if Str.truthy data then [data] else []
  | Some (SendFails data) => if Str.truthy data then [data] else []
  | Some RecvFails | None => []
  end.

(** What the local socket, and the channel, deliver over the rounds. *)
Fixpoint request_data (rounds : list round) : list string :=
  match rounds with
  | [] => []
  | SelectFails :: rounds' => request_data rounds'
  | Ready request _ :: rounds' => received request ++ request_data rounds'
  end.

Fixpoint channel_data (rounds : list round) : list string :=
  match rounds with
  | [] => []
  | SelectFails :: rounds' => channel_data rounds'
  | Ready _ channel :: rounds' => received channel ++ channel_data rounds'
  end.

(** The host key policies set among events. *)
Definition policies_set (evs : list event) : list HostKeyPolicy :=
  omap (λ ev, match ev with EvSetMissingHostKeyPolicy p => Some p | _ => None end) evs.

(** The conversion of the configured port in the block that reads the SSH
    configuration does not raise. *)
Definition port_step_ok `{PyLib} (info_port : option Z) (host_config : HostConfig) : bool :=
  match hc_port host_config with
  | Some p =>
      if truthy_port info_port then true
      else match py_int p with Ok _ => true | Err _ => false end
  | None => true
  end.

(** The first pattern of the rules that the candidate reaches is not a
    regular expression: [re.fullmatch] raises [e] on it, and no rule before
    it matches. *)
Definition first_error `{PyLib} (rules : dict string) (candidate : string) (e : exn) : Prop :=
  ∃ before pattern url after,
    rules = before ++ (pattern, url) :: after
    ∧ no_rule_matches before candidate
    ∧ re_fullmatch pattern candidate = Err e.

(** The host name that [connect] is given: the [hostname] of the SSH
    configuration when it has been looked up, the one of the specification
    otherwise. *)
Definition connect_host (env : Env) (tunnel_info : ParseResult) : option string :=
  match ssh_config_for env (pr_hostname tunnel_info), present (pr_hostname tunnel_info) with
  | Some host_config, Some h => Some (default h (hc_hostname host_config))
  | _, _ => pr_hostname tunnel_info
  end.

(** The [sock] that [connect] is given: the proxy command of the SSH
    configuration, when the block that reads the configuration gets as far
    as creating it. *)
Definition connect_proxy `{PyLib} (env : Env) (tunnel_info : ParseResult)
    (info_port : option Z) : option ProxyCommand :=
  match ssh_config_for env (pr_hostname tunnel_info) with
  | Some host_config =>
      if port_step_ok info_port host_config then
        match present (hc_proxycommand host_config) with
        | Some proxycommand =>
            match new_proxy_command env proxycommand with
            | Ok p => Some p
            | Err _ => None
            end
        | None => None
        end
      else None
  | None => None
  end.

(** ** More examples *)

Module Sample.

(** A configuration that reaches the bastion through a jump host. *)
Definition proxied_config : HostConfig :=
  {| hc_hostname := None; hc_user := Some "deploy"%string; hc_port := None;
     hc_proxycommand := Some "ssh -W %h:%p jump"%string;
     hc_identityfile := None |}.

(** The parsed specification, for a specification that the model of
    [urlparse] accepts. *)
Definition parsed (url : string) : ParseResult :=
  match Url.urlparse (with_scheme url) with
  | Ok tunnel_info => tunnel_info
  | Err _ => Build_ParseResult None (Ok None) None None
  end.

(** The connection parameters, when they can be resolved. *)
Definition resolved (env : Env) (url : string) : locals :=
  match resolve (H:=python) env (parsed url) with
  | Ok v => v
  | Err _ => Locals None 22 None None []
  end.

(** A machine where no listener can be bound. *)
Definition no_listener (env : Env) : Env :=
  {| expanduser := expanduser env;
     isfile := isfile env;
     ssh_config_lookup := ssh_config_lookup env;
     new_proxy_command := new_proxy_command env;
     getuser := getuser env;
     load_system_host_keys := load_system_host_keys env;
     connect := connect env;
     bind_server := λ _, Err (Exn "OSError" "Cannot assign requested address");
     thread_start := thread_start env;
     open_channel := open_channel env |}.

(** The state after one and after two tunnels to the same database. *)
Definition rules : state :=
  Examples.initial (Examples.manager None [("db\.prod\.com", "bastion:22")] []).

Definition once : state :=
  (start_tunnel (H:=python) (Examples.machine Examples.home Examples.bastion_config)
     "db.prod.com" 5432 None rules).2.

Definition twice : state :=
  (start_tunnel (H:=python) (Examples.machine Examples.home Examples.bastion_config)
     "db.prod.com" 5432 None once).2.

End Sample.

(** * [pgcli_dump]: the wrapper of [pg_dump] in [dump.py]

    Text is ASCII, paths are POSIX paths. *)

From stdpp Require Import pretty.
Local Open Scope Z_scope.

(** ** The string operations of Python that [dump.py] uses *)

Module Py.

(** [c.isspace()] on ASCII: tab to carriage return, the four separators and
    the space. *)
Definition isspace (c : ascii) : bool :=
  let n := Z.of_nat (nat_of_ascii c) in
  ((9 <=? n) && (n <=? 13)) || ((28 <=? n) && (n <=? 32)).

(** The fields that the separators delimit, empty ones included. *)
Fixpoint fields (is_sep : ascii → bool) (s : string) : list string :=
  match s with
  | "" => [""]
  | String c s' =>
      if is_sep c then "" :: fields is_sep s'
      else match fields is_sep s' with
           | field :: rest => String c field :: rest
           | [] => [String c ""]
           end
  end.

(** [s.split(sep)] for a separator of one character. *)
Definition split (sep : ascii) (s : string) : list string :=
  fields (λ c, bool_decide (c = sep)) s.

(** [s.split()]: the runs without white space. *)
Definition split_whitespace (s : string) : list string :=
  List.filter Str.truthy (fields isspace s).

(** [sep.join(parts)]. *)
Definition join (sep : string) (parts : list string) : string :=
  String.concat sep parts.

Fixpoint lstrip (s : string) : string :=
  match s with
  | String c s' => if isspace c then lstrip s' else s
  | "" => ""
  end.

(** [s.strip()]. *)
Definition strip (s : string) : string :=
  String.rev (lstrip (String.rev (lstrip s))).

(** [s.split("=", 1)[1]], for [s] with an equals sign. *)
Definition after_equals (s : string) : string := (Str.partition "=" s).2.

(** [str(n)] for an [int], and for an optional one. *)
Definition str (n : Z) : string := pretty n.

Definition str_optional (n : option Z) : string :=
  match n with
  | Some n => str n
  | None => "None"
  end.

(** [posixpath.join(path, name)] for a relative [name]. *)
Definition path_join (path name : string) : string :=
  if Str.truthy path then
    if String.prefix "/" (String.rev path) then path +:+ name
    else path +:+ "/" +:+ name
  else name.

End Py.

(** ** What [pgcli_dump] finds on the machine *)

(** [~/.pgpass]: missing, not readable ([open] raises [OSError]), or its
    lines. *)
Inductive pgpass_file :=
| PgpassMissing
| PgpassUnreadable
| PgpassLines (lines : list string).

(** How [subprocess.run] ends. *)
Inductive run_result :=
| Completed (returncode : Z)
| RunFileNotFound
| RunKeyboardInterrupt
| RunRaises (e : exn).

Record System := {
  (** [os.environ] *)
  environ : gmap string string;
  (** [get_config()] of [config.py] *)
  get_config : result (gmap string (dict string));
  (** [os.access(path, os.X_OK)] *)
  access_x : string → bool;
  pgpass : pgpass_file;
  (** [fnmatch.fnmatch(name, pattern)] *)
  fnmatch : string → string → bool;
  (** [subprocess.run(cmd, env=env)] *)
  run : list string → gmap string string → run_result;
}.

(** What [pgcli_dump] does, in order: a call of the tunnel manager, or the
    run of the command. *)
Inductive action :=
| Effect (ev : event)
| Run (cmd : list string) (child_env : gmap string string).

(** The locals of [parse_connection_args]. *)
Record connection := Connection {
  c_host : string;
  c_port : Z;
  c_remaining_args : list string;
  c_has_host : bool;
  c_has_port : bool;
}.

Definition set_host (host : string) (st : connection) : connection :=
  Connection host (c_port st) (c_remaining_args st) true (c_has_port st).

Definition set_port (port : Z) (st : connection) : connection :=
  Connection (c_host st) port (c_remaining_args st) (c_has_host st) true.

(** [remaining_args.extend(args)]. *)
Definition extend (args : list string) (st : connection) : connection :=
  Connection (c_host st) (c_port st) (c_remaining_args st ++ args)
    (c_has_host st) (c_has_port st).

Section Dump.
Context `{PyLib}.
Variable env : Env.
Variable sys : System.

(** ** [get_password_from_pgpass] *)

(** One field of a line against the value looked up. *)
Definition pgpass_field (pattern value : string) : bool :=
  bool_decide (pattern = "*") || fnmatch sys value pattern.

(** The loop [for line in f]. *)
Fixpoint pgpass_lookup (lines : list string) (host : string) (port : Z)
    (database user : string) : option string :=
  match lines with
  | [] => None
  | line :: lines' =>
      let line := Py.strip line in
      if negb (Str.truthy line) || String.prefix "#" line
      then pgpass_lookup lines' host port database user
      else
        match Py.split ":" line with
        | pg_host :: pg_port :: pg_db :: pg_user :: password :: more =>
            let pg_pass := Py.join ":" (password :: more) in
            if pgpass_field pg_host host
               && (bool_decide (pg_port = "*") || bool_decide (Py.str port = pg_port))
               && pgpass_field pg_db database
               && pgpass_field pg_user user
            then Some pg_pass
            else pgpass_lookup lines' host port database user
        | _ => pgpass_lookup lines' host port database user   (* len(parts) < 5 *)
        end
  end.

Definition get_password_from_pgpass (host : string) (port : Z)
    (database user : string) : option string :=
  match pgpass sys with
  | PgpassMissing => None
  | PgpassUnreadable => None
  | PgpassLines lines => pgpass_lookup lines host port database user
  end.

(** ** [parse_user_and_database] *)

(** The options whose value the last argument may be. *)
Definition value_options : list string :=
  ["-h"; "--host"; "-p"; "--port"; "-U"; "--username"; "-d"; "--dbname";
   "-f"; "--file"; "-F"; "--format"].

(** One turn of the loop on [arg = args[i]]: [prev] is [args[i-1]] and
    [next] is [args[i+1]], when there are such. The result is the new
    [(user, database)] and whether [i] moves by two. *)
Definition user_and_database_body (prev : option string) (arg : string)
    (next : option string) (st : string * string) : string * string * bool :=
  let '(user, database) := st in
  let positional :=
    if negb (String.prefix "-" arg) && bool_decide (next = None) then
      match prev with
      | Some p => if bool_decide (p ∈ value_options) then st else (user, arg)
      | None => (user, arg)
      end
    else st in
  let dbname_option :=
    if bool_decide (arg ∈ ["-d"; "--dbname"]) then
      match next with
      | Some dbname =>
          (if negb (Str.contains "=" dbname) then (user, dbname) else st, true)
      | None => (positional, false)
      end
    else if String.prefix "--dbname=" arg then
      let dbname := Py.after_equals arg in
      (if negb (Str.contains "=" dbname) then (user, dbname) else st, false)
    else (positional, false) in
  if bool_decide (arg ∈ ["-U"; "--username"]) then
    match next with
    | Some value => ((value, database), true)
    | None => dbname_option
    end
  else if String.prefix "--username=" arg then
    ((Py.after_equals arg, database), false)
  else dbname_option.

(** The loop [while i < len(args)]. *)
Fixpoint user_and_database_loop (prev : option string) (args : list string)
    (st : string * string) : string * string :=
  match args with
  | [] => st
  | arg :: rest =>
      let '(st', two) := user_and_database_body prev arg (head rest) st in
      if two then
        match rest with
        | value :: rest' => user_and_database_loop (Some value) rest' st'
        | [] => st'
        end
      else user_and_database_loop (Some arg) rest st'
  end.

Definition parse_user_and_database (args : list string) : string * string :=
  user_and_database_loop None args
    (default "postgres" (environ sys !! "PGUSER"),
     default "*" (environ sys !! "PGDATABASE")).

(** ** [find_pg_dump] *)

Definition paths_to_check : list string :=
  ["/usr/bin/pg_dump"; "/usr/local/bin/pg_dump"; "/usr/pgsql-17/bin/pg_dump";
   "/usr/pgsql-16/bin/pg_dump"; "/usr/pgsql-15/bin/pg_dump";
   "/usr/pgsql-14/bin/pg_dump"].

(** [os.path.isfile(path) and os.access(path, os.X_OK)]. *)
Definition executable (path : string) : bool :=
  isfile env path && access_x sys path.

Definition find_pg_dump : string :=
  match List.find executable
          ((λ path, Py.path_join path "pg_dump")
             <$> Py.split ":" (default "" (environ sys !! "PATH"))) with
  | Some pg_dump_path => pg_dump_path
  | None =>
      match List.find executable paths_to_check with
      | Some path => path
      | None => "pg_dump"
      end
  end.

(** ** [parse_connection_args] *)

(** The loop [for part in dbname.split()]. *)
Fixpoint connection_string (parts : list string) (st : connection)
    : result connection :=
  match parts with
  | [] => Ok st
  | part :: parts' =>
      if String.prefix "host=" part then
        connection_string parts' (set_host (Py.after_equals part) st)
      else if String.prefix "port=" part then
        match py_int (Py.after_equals part) with
        | Ok port => connection_string parts' (set_port port st)
        | Err e => Err e
        end
      else connection_string parts' st
  end.

(** [if "host=" in dbname: for part in dbname.split(): ...]. *)
Definition connection_of_dbname (dbname : string) (st : connection)
    : result connection :=
  if Str.contains "host=" dbname
  then connection_string (Py.split_whitespace dbname) st
  else Ok st.

(** One turn of the loop on [arg = args[i]], with [next = args[i+1]] when
    there is one: the new locals and whether [i] moves by two. *)
Definition connection_body (arg : string) (next : option string) (st : connection)
    : result (connection * bool) :=
  let dbname_option :=
    if bool_decide (arg ∈ ["-d"; "--dbname"]) then
      match next with
      | Some dbname =>
          match connection_of_dbname dbname st with
          | Ok st' => Ok (extend [arg; dbname] st', true)
          | Err e => Err e
          end
      | None => Ok (extend [arg] st, false)
      end
    else if String.prefix "--dbname=" arg then
      match connection_of_dbname (Py.after_equals arg) st with
      | Ok st' => Ok (extend [arg] st', false)
      | Err e => Err e
      end
    else Ok (extend [arg] st, false) in
  let port_option :=
    if bool_decide (arg ∈ ["-p"; "--port"]) then
      match next with
      | Some value =>
          match py_int value with
          | Ok port => Ok (extend [arg; value] (set_port port st), true)
          | Err e => Err e
          end
      | None => dbname_option
      end
    else if String.prefix "--port=" arg then
      match py_int (Py.after_equals arg) with
      | Ok port => Ok (extend [arg] (set_port port st), false)
      | Err e => Err e
      end
    else dbname_option in
  if bool_decide (arg ∈ ["-h"; "--host"]) then
    match next with
    | Some value => Ok (extend [arg; value] (set_host value st), true)
    | None => port_option
    end
  else if String.prefix "--host=" arg then
    Ok (extend [arg] (set_host (Py.after_equals arg) st), false)
  else port_option.

(** The loop [while i < len(args)]. *)
Fixpoint connection_loop (args : list string) (st : connection) : result connection :=
  match args with
  | [] => Ok st
  | arg :: rest =>
      match connection_body arg (head rest) st with
      | Err e => Err e
      | Ok (st', two) =>
          if two then
            match rest with
            | _ :: rest' => connection_loop rest' st'
            | [] => Ok st'
            end
          else connection_loop rest st'
      end
  end.

(** [parse_connection_args]: [(host, port, remaining_args, has_host,
    has_port)]. *)
Definition parse_connection_args (args : list string)
    : result (string * Z * list string * bool * bool) :=
  let host := default "localhost" (environ sys !! "PGHOST") in
  match
    match environ sys !! "PGPORT" with
    | Some port => py_int port
    | None => Ok 5432
    end
  with
  | Err e => Err e
  | Ok port =>
      match connection_loop args (Connection host port [] false false) with
      | Ok st =>
          Ok (c_host st, c_port st, c_remaining_args st, c_has_host st, c_has_port st)
      | Err e => Err e
      end
  end.

(** ** [build_tunneled_args] *)

(** The loop [for part in parts] that rewrites a connection string. *)
Definition tunneled_parts (parts : list string) (tunnel_host : string)
    (tunnel_port : option Z) : list string :=
  (λ part,
     if String.prefix "host=" part then "host=" +:+ tunnel_host
     else if String.prefix "port=" part then "port=" +:+ Py.str_optional tunnel_port
     else part) <$> parts.

(** One turn of the loop: what is appended to [new_args], and whether [i]
    moves by two. *)
Definition tunneled_body (arg : string) (next : option string)
    (tunnel_host : string) (tunnel_port : option Z) : list string * bool :=
  let dbname_option :=
    if bool_decide (arg ∈ ["-d"; "--dbname"]) then
      match next with
      | Some dbname =>
          if Str.contains "host=" dbname then
            (["-d";
              Py.join " " (tunneled_parts (Py.split_whitespace dbname)
                             tunnel_host tunnel_port)], true)
          else (["-d"; dbname], true)
      | None => ([arg], false)
      end
    else if String.prefix "--dbname=" arg then
      let dbname := Py.after_equals arg in
      if Str.contains "host=" dbname then
        (["--dbname=" +:+
          Py.join " " (tunneled_parts (Py.split_whitespace dbname)
                         tunnel_host tunnel_port)], false)
      else ([arg], false)
    else ([arg], false) in
  if bool_decide (arg ∈ ["-h"; "--host"]) then (["-h"; tunnel_host], true)
  else if String.prefix "--host=" arg then (["--host=" +:+ tunnel_host], false)
  else if bool_decide (arg ∈ ["-p"; "--port"]) then
    (["-p"; Py.str_optional tunnel_port], true)
  else if String.prefix "--port=" arg then
    (["--port=" +:+ Py.str_optional tunnel_port], false)
  else dbname_option.

(** The loop [while i < len(original_args)]; an option without its value
    at the end moves [i] past the end. *)
Fixpoint tunneled_loop (original_args : list string) (tunnel_host : string)
    (tunnel_port : option Z) : list string :=
  match original_args with
  | [] => []
  | arg :: rest =>
      let '(new, two) := tunneled_body arg (head rest) tunnel_host tunnel_port in
      new ++
      if two then
        match rest with
        | _ :: rest' => tunneled_loop rest' tunnel_host tunnel_port
        | [] => []
        end
      else tunneled_loop rest tunnel_host tunnel_port
  end.

Definition build_tunneled_args (original_args : list string) (tunnel_host : string)
    (tunnel_port : option Z) (original_host : string) (original_port : Z)
    (has_host has_port : bool) : list string :=
  tunneled_loop original_args tunnel_host tunnel_port
  ++ (if has_host then [] else ["-h"; tunnel_host])
  ++ (if has_port then [] else ["-p"; Py.str_optional tunnel_port]).

(** ** [cli] *)

(** The environment of the command: [PGPASSWORD] from [~/.pgpass], looked
    up for the original host, when it is not set. *)
Definition tunneled_environ (args : list string) (host : string) (port : Z)
    : gmap string string :=
  match environ sys !! "PGPASSWORD" with
  | Some _ => environ sys
  | None =>
      let '(user, database) := parse_user_and_database args in
      match present (get_password_from_pgpass host port database user) with
      | Some password => <["PGPASSWORD" := password]> (environ sys)
      | None => environ sys
      end
  end.

(** The [try] statement around [subprocess.run]: the outcome and the
    message on standard error, before the [finally] clause. *)
Definition run_pg_dump (pg_dump_path : string) (cmd : list string)
    (child_env : gmap string string) : outcome unit * list action :=
  match run sys cmd child_env with
  | Completed returncode => (SystemExit returncode, [])
  | RunFileNotFound =>
      (SystemExit 1,
       [Effect (EvSecho ("Error: pg_dump not found at '" +:+ pg_dump_path
                         +:+ "'. Please ensure PostgreSQL client tools are installed.")
                  true "red")])
  | RunKeyboardInterrupt => (SystemExit 130, [])
  | RunRaises e => (Raised e, [])
  end.

(** [cli], called with the arguments [pg_dump_args] that [click] leaves in
    [ctx.args]: how the command ends, what it did in order, and the state
    of the tunnel manager at the end, when one was made. *)
Definition cli (pg_dump_args : list string) (ssh_tunnel dsn_alias : option string)
    : outcome unit * list action * option state :=
  let config :=
    match get_config sys with
    | Ok config => config
    | Err _ => ∅
    end in
  match parse_connection_args pg_dump_args with
  | Err e => (Raised e, [], None)
  | Ok (host, port, remaining_args, has_host, has_port) =>
      let tunnel_manager := get_tunnel_manager_from_config config ssh_tunnel in
      match start_tunnel env host port dsn_alias (State tunnel_manager ∅ []) with
      | (Raised e, s) => (Raised e, Effect <$> trace s, Some s)
      | (SystemExit code, s) => (SystemExit code, Effect <$> trace s, Some s)
      | (Return (tunnel_host, tunnel_port), s) =>
          let pg_dump_path := find_pg_dump in
          let tunnelled :=
            bool_decide (tunnel_host ≠ host) || bool_decide (tunnel_port ≠ Some port) in
          let final_args :=
            if tunnelled
            then build_tunneled_args remaining_args tunnel_host tunnel_port
                   host port has_host has_port
            else pg_dump_args in
          let child_env :=
            if tunnelled then tunneled_environ pg_dump_args host port
            else environ sys in
          let cmd := pg_dump_path :: final_args in
          let '(ended, message) := run_pg_dump pg_dump_path cmd child_env in
          let '(stopped, s') := stop_tunnel s in
          (match stopped with
           | Return _ => ended
           | Raised e => Raised e
           | SystemExit code => SystemExit code
           end,
           (Effect <$> trace s) ++ [Run cmd child_env] ++ message
             ++ (Effect <$> new_events s s'),
           Some s')
      end
  end.

End Dump.

(** ** Example machines for [pgcli_dump] *)

Module DumpSample.

(** Equality instead of shell patterns. *)
Definition system (variables : list (string * string)) (config : gmap string (dict string))
    (file : pgpass_file) (ended : run_result) : System :=
  {| environ := list_to_map variables;
     get_config := Ok config;
     access_x := λ _, true;
     pgpass := file;
     fnmatch := λ name pattern, bool_decide (name = pattern);
     run := λ _ _, ended |}.

(** No variable, no configuration, no password file; [pg_dump] succeeds. *)
Definition bare : System := system [] ∅ PgpassMissing (Completed 0).

(** The section [ssh tunnels] sends [db.prod.com] through the bastion. *)
Definition tunnels : gmap string (dict string) :=
  {[ "ssh tunnels" := [("db\.prod\.com", "bastion:22")] ]}%string.

Definition machine : Env :=
  Examples.machine ("/usr/bin/pg_dump" :: Examples.home)%string Examples.bastion_config.

End DumpSample.

(** ** Words and loop invariants of [dump.py] *)

(** No white space in the text. *)
Definition nospace (s : string) : bool := Str.forallb (λ c, negb (Py.isspace c)) s.

(** A character that a literal of [int] may hold. *)
Definition numeric (c : ascii) : bool :=
  Str.is_digit c || bool_decide (c ∈ ["_"; "+"; "-"]%char) || Ascii.is_space c.

(** A word: what [split()] returns. *)
Definition word (s : string) : Prop := Str.truthy s = true ∧ nospace s = true.

(** What [parse_connection_args] has done to its locals: arguments have
    been appended; a flag that is set stays set; the host and the port
    change only with their flags. *)
Definition advances (args : list string) (st st' : connection) : Prop :=
  c_remaining_args st' = c_remaining_args st ++ args
  ∧ (c_has_host st = true → c_has_host st' = true)
  ∧ (c_has_port st = true → c_has_port st' = true)
  ∧ (c_has_host st' = false → c_host st' = c_host st)
  ∧ (c_has_port st' = false → c_port st' = c_port st).

(** The locals of [parse_connection_args] on the arguments that
    [build_tunneled_args] makes, [b], against its locals on the original
    arguments, [a]: what was found in the original arguments has been found
    again, and what has been found is the local end of the tunnel. *)
Definition retargeted (tunnel_host : string) (tunnel_port : Z) (a b : connection) : Prop :=
  (c_has_host a = true → c_has_host b = true)
  ∧ (c_has_port a = true → c_has_port b = true)
  ∧ (c_has_host b = true → c_host b = tunnel_host)
  ∧ (c_has_port b = true → c_port b = tunnel_port).

(** The arguments end with [-d] or [--dbname]. *)
Definition ends_with_dbname (args : list string) : Prop :=
  last args = Some "-d"%string ∨ last args = Some "--dbname"%string.

(** A line of [~/.pgpass] that holds no entry: blank, a comment, or with
    fewer than five fields. *)
Definition no_entry (line : string) : Prop :=
  Py.strip line = ""
  ∨ String.prefix "#" (Py.strip line) = true
  ∨ (length (Py.split ":" (Py.strip line)) < 5)%nat.

(** The line of an entry. *)
Definition pgpass_line (pg_host pg_port pg_db pg_user password : string) : string :=
  pg_host +:+ ":" +:+ pg_port +:+ ":" +:+ pg_db +:+ ":" +:+ pg_user +:+ ":" +:+ password.

(** No colon in the text. *)
Definition nocolon (s : string) : bool := Str.forallb (λ c, negb (bool_decide (c = ":"%char))) s.

(** The paths that [find_pg_dump] tries for the directories of [PATH]. *)
Definition path_candidates (sys : System) : list string :=
  (λ path, Py.path_join path "pg_dump") <$> Py.split ":" (default "" (environ sys !! "PATH")).

(** The commands run among actions, with their environments. *)
Definition runs (actions : list action) : list (list string * gmap string string) :=
  omap (λ a, match a with Run cmd child_env => Some (cmd, child_env) | _ => None end)
    actions.

(** The state of the tunnel manager that [cli] makes, before
    [start_tunnel]. *)
Definition cli_start (sys : System) (ssh_tunnel : option string) : state :=
  State
    (get_tunnel_manager_from_config
       (match get_config sys with Ok config => config | Err _ => ∅ end) ssh_tunnel)
    ∅ [].

(** How [cli] ends for a run of [pg_dump]. *)
Definition exit_status (ended : run_result) : outcome unit :=
  match ended with
  | Completed returncode => SystemExit returncode
  | RunFileNotFound => SystemExit 1
  | RunKeyboardInterrupt => SystemExit 130
  | RunRaises e => Raised e
  end.

(** * Properties *)

(** ** Regular expressions: matching decides the language *)


Module ReFacts.
Import Re.












End ReFacts.

(** ** Running the model *)

Ltac unfold_M :=
  unfold call, try_except, bind, ret, raise, sys_exit, emit, read, update,
    alloc, get_mgr, set_mgr_tunnel.

Lemma connect_kwargs_set_ssh_client c t :
  connect_kwargs (set_ssh_client c t) = connect_kwargs t.
Proof. done. Qed.

Ltac heap_simpl :=
  repeat first
    [ rewrite lookup_total_insert_eq
    | rewrite insert_insert_eq
    | rewrite lookup_insert_eq
    | rewrite connect_kwargs_set_ssh_client
    | progress cbn [mgr heap trace fst snd
                    set_ssh_client set_server set_server_thread set_is_active
                    ssh_hostname ssh_port remote_host remote_port ssh_username
                    ssh_password ssh_proxy tunnel_allow_agent key_filenames
                    tunnel_host_key_policy _ssh_client _server _server_thread
                    _is_active from_option transport] ].

Lemma tunnel_start_ok env l s p :
  load_system_host_keys env = Ok () →
  connect env (connect_kwargs (heap s !!! l)) = Ok () →
  bind_server env ("127.0.0.1"%string, 0) = Ok p →
  thread_start env = Ok () →
  tunnel_start env l s =
    (Return (),
     State (mgr s) (<[l := started (heap s !!! l) p]> (heap s))
       (trace s ++ start_events (heap s !!! l))).
Proof.
  intros Hl Hc Hb Ht. unfold tunnel_start. unfold_M. heap_simpl.
  rewrite Hl. heap_simpl.
  rewrite Hc. heap_simpl. rewrite Hb. heap_simpl. rewrite Ht. heap_simpl.
  f_equal. f_equal. unfold start_events. rewrite <- !app_assoc. done.
Qed.

Lemma tunnel_start_fails env l s e :
  establishment_error env (connect_kwargs (heap s !!! l)) = Some e →
  ∃ t' evs,
    tunnel_start env l s
    = (Raised e, State (mgr s) (<[l := t']> (heap s)) (trace s ++ evs))
    ∧ _is_active t' = _is_active (heap s !!! l)
    ∧ evs `prefix_of` start_events (heap s !!! l)
    ∧ (load_system_host_keys env = Ok () →
       EvConnect (connect_kwargs (heap s !!! l)) ∈ evs).
Proof.
  unfold establishment_error, tunnel_start. unfold_M. heap_simpl.
  destruct (load_system_host_keys env) as [[]|e1] eqn:Hl; heap_simpl.
  2:{ intros [= ->]. eexists _, [_]. split; [done|]. split; [done|].
      split; [by eexists | done]. }
  destruct (connect env _) as [[]|e2] eqn:Hc; heap_simpl.
  2:{ intros [= ->]. eexists _, [_; _; _]. rewrite <- !app_assoc.
      split; [done|]. split; [done|].
      split; [by eexists | intros _; set_solver]. }
  destruct (bind_server env _) as [p|e3] eqn:Hb; heap_simpl.
  2:{ intros [= ->]. eexists _, [_; _; _; _]. rewrite <- !app_assoc.
      split; [done|]. split; [done|].
      split; [by eexists | intros _; set_solver]. }
  destruct (thread_start env) as [[]|e4] eqn:Ht; heap_simpl; [done|].
  intros [= ->]. eexists _, [_; _; _; _; _]. rewrite <- !app_assoc.
  split; [done|]. split; [done|].
  split; [by eexists [] | intros _; set_solver].
Qed.

Lemma present_Some_inv o s : present o = Some s → o = Some s ∧ s ≠ "".
Proof.
  destruct o as [s'|]; simpl; [|done]. unfold Str.truthy.
  case_bool_decide; [|done]. by intros [= ->].
Qed.

Lemma establishment_error_None env kw :
  establishment_error env kw = None →
  load_system_host_keys env = Ok () ∧ connect env kw = Ok ()
  ∧ (∃ p, bind_server env ("127.0.0.1"%string, 0) = Ok p) ∧ thread_start env = Ok ().
Proof.
  unfold establishment_error.
  destruct (load_system_host_keys env) as [[]|]; [|done].
  destruct (connect env kw) as [[]|]; [|done].
  destruct (bind_server env _) as [p|]; [|done].
  destruct (thread_start env) as [[]|]; [|done]. eauto.
Qed.

Lemma start_tunnel_cases `{PyLib} env host port dsn_alias s :
  start_tunnel_path env host port dsn_alias s (start_tunnel env host port dsn_alias s).
Proof.
  unfold start_tunnel.
  unfold call at 1. unfold bind at 1. unfold get_mgr at 1. unfold bind at 1.
  destruct (find_tunnel_url (mgr s) (Some host) dsn_alias) as [o|e] eqn:Hfind;
    [|by apply path_rule_error].
  unfold ret at 1.
  destruct (present o) as [url|] eqn:Hurl; [|by eapply path_direct].
  apply present_Some_inv in Hurl as [-> Hne].
  unfold bind at 1. unfold call at 1.
  destruct (urlparse (with_scheme url)) as [info|e] eqn:Hparse;
    [|by eapply path_parse_error].
  unfold ret at 1. unfold bind at 1. unfold call at 1.
  destruct (resolve env info) as [v|e] eqn:Hres;
    [|by eapply path_resolve_error].
  unfold ret at 1.
  set (t := new_tunnel (mgr s) info v host port).
  set (l := fresh (dom (heap s))).
  unfold bind at 1. unfold try_except. unfold bind at 1. unfold alloc at 1.
  fold l. unfold bind at 1.
  set (s1 := State (mgr s) (<[l:=t]> (heap s)) (trace s)).
  assert (Ht1 : heap s1 !!! l = t) by (unfold s1; by heap_simpl).
  destruct (establishment_error env (connect_kwargs t)) as [e|] eqn:Herr.
  - destruct (tunnel_start_fails env l s1 e) as (t' & evs & -> & Hact & Hpre & Hconn).
    { by rewrite Ht1. }
    rewrite Ht1 in Hact, Hpre, Hconn.
    unfold_M. unfold s1. heap_simpl. rewrite <- app_assoc.
    eapply path_exit; eauto.
  - pose proof (establishment_error_None _ _ Herr) as (Hl & Hc & [p Hb] & Hth).
    rewrite (tunnel_start_ok env l s1 p); rewrite ?Ht1; try done.
    unfold_M. unfold s1. heap_simpl. unfold is_active, started. heap_simpl.
    unfold local_bind_port. heap_simpl. rewrite <- app_assoc.
    eapply path_tunnel; eauto.
Qed.

(** ** The rule loop *)

Section RuleFacts.
Context `{PyLib}.

Lemma match_rules_none rules candidate :
  no_rule_matches rules candidate → match_rules rules candidate = Ok None.
Proof.
  induction 1 as [|[pattern url] rules Hhd _ IH]; [done|].
  simpl in *. by rewrite Hhd.
Qed.

Lemma match_rules_first before pattern url after candidate :
  no_rule_matches before candidate →
  re_fullmatch pattern candidate = Ok true →
  match_rules (before ++ (pattern, url) :: after) candidate = Ok (Some url).
Proof.
  intros Hbefore Hmatch.
  induction Hbefore as [|[p u] before Hhd _ IH]; simpl in *.
  - by rewrite Hmatch.
  - by rewrite Hhd.
Qed.


(** On a rule set of regular expressions the loop finds the first rule
    that matches in full. *)
Lemma match_rules_first_match rules candidate :
  regular rules → match_rules rules candidate = Ok (first_match rules candidate).
Proof.
  unfold first_match, full_match.
  induction rules as [|[p u] rules IH]; intros Hreg; [done|]. simpl.
  destruct (Hreg p u candidate) as [b Hb]; [left|]. rewrite Hb.
  destruct b; [done|]. apply IH.
  intros p' u' c' Hin. apply (Hreg p' u' c'). by right.
Qed.

End RuleFacts.

(** ** Rule matching: precedence and full match *)

Lemma fullmatch_compiled pattern r candidate :
  Re.compile pattern = Some r →
  Re.fullmatch pattern candidate = Ok (Re.matches r candidate).
Proof. unfold Re.fullmatch. by intros ->. Qed.

Lemma find_tunnel_url_explicit `{PyLib} self host dsn_alias url :
  present (ssh_tunnel_url self) = Some url →
  find_tunnel_url self host dsn_alias = Ok (Some url).
Proof. unfold find_tunnel_url. by intros ->. Qed.

Lemma find_tunnel_url_no_match `{PyLib} self host dsn_alias :
  present (ssh_tunnel_url self) = None →
  (∀ alias, present dsn_alias = Some alias →
            no_rule_matches (dsn_ssh_tunnel_config self) alias) →
  (∀ h, present host = Some h → no_rule_matches (ssh_tunnel_config self) h) →
  find_tunnel_url self host dsn_alias = Ok None.
Proof.
  intros Hurl Hdsn Hhost. unfold find_tunnel_url. rewrite Hurl.
  assert (Hd : match present dsn_alias, dsn_ssh_tunnel_config self with
               | Some alias, _ :: _ => match_rules (dsn_ssh_tunnel_config self) alias
               | _, _ => Ok None
               end = Ok None).
  { destruct (present dsn_alias) as [alias|]; [|done].
    destruct (dsn_ssh_tunnel_config self) eqn:Hrules; [done|].
    by apply match_rules_none, Hdsn. }
  rewrite Hd.
  destruct (present host) as [h|]; [|done].
  destruct (ssh_tunnel_config self) eqn:Hrules; [done|].
  by apply match_rules_none, Hhost.
Qed.

(** C2, as stated, fails on empty strings: an empty alias is not tested
    against the alias rules although [.*] matches it in full, so the host
    rule is used where the claim gives the alias rule; and an explicit
    specification that is the empty string does not win over the rules. *)
Lemma find_tunnel_url_empty_counterexample :
  find_target (H:=python) None
      [(".*", "ssh://dsn-bastion")] [(".*", "ssh://host-bastion")]
      (Some "db") (Some "")
    = Some "ssh://dsn-bastion"
  ∧ find_tunnel_url (H:=python)
      (Examples.manager None
         [(".*", "ssh://host-bastion")] [(".*", "ssh://dsn-bastion")])
      (Some "db") (Some "")
    = Ok (Some "ssh://host-bastion")
  ∧ find_target (H:=python) (Some "")
      [] [(".*", "ssh://host-bastion")] (Some "db") None
    = Some ""
  ∧ find_tunnel_url (H:=python)
      (Examples.manager (Some "") [(".*", "ssh://host-bastion")] [])
      (Some "db") None
    = Ok (Some "ssh://host-bastion").
Proof. repeat split; vm_compute; reflexivity. Qed.

(** C2, amended: an explicit specification that is not empty is returned
    whatever the rules are; otherwise, on rule sets of regular expressions,
    the result follows the precedence of the specification (alias rules,
    then host rules, first full match each, else [None]) where an empty
    explicit specification, alias or host counts as not given. *)
Theorem find_tunnel_url_precedence `{PyLib} (self : SSHTunnelManager)
    (host dsn_alias : option string) :
  (∀ url, present (ssh_tunnel_url self) = Some url →
          find_tunnel_url self host dsn_alias = Ok (Some url))
  ∧ (regular (dsn_ssh_tunnel_config self) →
     regular (ssh_tunnel_config self) →
     find_tunnel_url self host dsn_alias
     = Ok (find_target (present (ssh_tunnel_url self))
             (dsn_ssh_tunnel_config self) (ssh_tunnel_config self)
             (present host) (present dsn_alias))).
Proof.
  split; [intros url; apply find_tunnel_url_explicit|].
  intros Hdsn Hhost. unfold find_tunnel_url, find_target.
  destruct (present (ssh_tunnel_url self)) as [url|]; [done|].
  assert (Hd : match present dsn_alias, dsn_ssh_tunnel_config self with
               | Some alias, _ :: _ => match_rules (dsn_ssh_tunnel_config self) alias
               | _, _ => Ok None
               end = Ok (present dsn_alias ≫= first_match (dsn_ssh_tunnel_config self))).
  { destruct (present dsn_alias) as [alias|]; [|done]. simpl.
    destruct (dsn_ssh_tunnel_config self) eqn:Hrules; [done|].
    by apply match_rules_first_match. }
  rewrite Hd.
  destruct (present dsn_alias ≫= first_match (dsn_ssh_tunnel_config self)); [done|].
  destruct (present host) as [h|]; [|done]. simpl.
  destruct (ssh_tunnel_config self) eqn:Hrules; [done|].
  by apply match_rules_first_match.
Qed.

Lemma regular_python_cons pattern r url rules :
  Re.compile pattern = Some r →
  regular (H:=python) rules → regular (H:=python) ((pattern, url) :: rules).
Proof.
  intros Hc Hrules p u c [[= -> ->]|Hin]%elem_of_cons.
  - exists (Re.matches r c). by apply fullmatch_compiled.
  - by apply (Hrules p u c).
Qed.

Lemma regular_nil `{PyLib} : regular [].
Proof. intros p u c Hin. by apply elem_of_nil in Hin. Qed.

(** The precedence at work: alias and host rules both match, the alias rule
    is used; with an explicit specification, that one is. *)
Lemma find_tunnel_url_precedence_witness :
  regular (H:=python) [("mydsn", "ssh://dsn-bastion:22")]
  ∧ regular (H:=python) [(".*", "ssh://host-bastion:22")]
  ∧ find_tunnel_url (H:=python)
      (Examples.manager None
         [(".*", "ssh://host-bastion:22")] [("mydsn", "ssh://dsn-bastion:22")])
      (Some "anyhost.com") (Some "mydsn")
    = Ok (Some "ssh://dsn-bastion:22")
  ∧ find_tunnel_url (H:=python)
      (Examples.manager (Some "ssh://explicit@host:22")
         [(".*", "ssh://host-bastion:22")] [("mydsn", "ssh://dsn-bastion:22")])
      (Some "anyhost.com") (Some "mydsn")
    = Ok (Some "ssh://explicit@host:22").
Proof.
  assert (Hd : regular (H:=python) [("mydsn", "ssh://dsn-bastion:22")]).
  { eapply regular_python_cons; [vm_compute; reflexivity | apply regular_nil]. }
  assert (Hh : regular (H:=python) [(".*", "ssh://host-bastion:22")]).
  { eapply regular_python_cons; [vm_compute; reflexivity | apply regular_nil]. }
  split; [exact Hd|]. split; [exact Hh|]. split.
  - destruct (find_tunnel_url_precedence (H:=python)
                (Examples.manager None
                   [(".*", "ssh://host-bastion:22")] [("mydsn", "ssh://dsn-bastion:22")])
                (Some "anyhost.com") (Some "mydsn")) as [_ Hrules].
    rewrite (Hrules Hd Hh). vm_compute. reflexivity.
  - destruct (find_tunnel_url_precedence (H:=python)
                (Examples.manager (Some "ssh://explicit@host:22")
                   [(".*", "ssh://host-bastion:22")] [("mydsn", "ssh://dsn-bastion:22")])
                (Some "anyhost.com") (Some "mydsn")) as [Hexplicit _].
    apply Hexplicit. vm_compute. reflexivity.
Defined.



(** ** Starting a tunnel *)

Lemma present_Some s : s ≠ "" → present (Some s) = Some s.
Proof. intros Hs. simpl. unfold Str.truthy. by rewrite bool_decide_eq_true_2. Qed.

(** Case analysis on a call of [start_tunnel]. *)
Ltac start_tunnel_inv env host port dsn_alias s :=
  let Hp := fresh "Hpath" in
  pose proof (start_tunnel_cases env host port dsn_alias s) as Hp;
  inversion Hp; clear Hp;
  try congruence;
  repeat match goal with
         | H1 : ?x = Ok ?a, H2 : ?x = Ok ?b |- _ =>
             assert (a = b) by congruence; clear H2; simplify_eq
         end;
  try match goal with
      | Hp : present (Some ?u) = None, Hn : ?u ≠ "" |- _ =>
          rewrite (present_Some u Hn) in Hp; discriminate Hp
      end.

(** C4: without an explicit specification and without a rule that matches,
    [start_tunnel] returns [(host, port)] as given and leaves the state as
    it was: the [tunnel] field keeps its value ([None] if it was [None]), no
    object is created and nothing happens outside. *)
Theorem start_tunnel_without_rule `{PyLib} (env : Env) (s : state)
    (host : string) (port : Z) (dsn_alias : option string) :
  ssh_tunnel_url (mgr s) = None →
  (∀ alias, dsn_alias = Some alias →
            no_rule_matches (dsn_ssh_tunnel_config (mgr s)) alias) →
  no_rule_matches (ssh_tunnel_config (mgr s)) host →
  start_tunnel env host port dsn_alias s = (Return (host, Some port), s)
  ∧ (tunnel (mgr s) = None →
     tunnel (mgr (snd (start_tunnel env host port dsn_alias s))) = None).
Proof.
  intros Hurl Hdsn Hhost.
  assert (Hfind : find_tunnel_url (mgr s) (Some host) dsn_alias = Ok None).
  { apply find_tunnel_url_no_match.
    - by rewrite Hurl.
    - intros alias [Ha _]%present_Some_inv. by apply Hdsn.
    - intros h [[= ->] _]%present_Some_inv. done. }
  assert (Hrun : start_tunnel env host port dsn_alias s = (Return (host, Some port), s)).
  { start_tunnel_inv env host port dsn_alias s; try congruence. }
  split; [done|]. by rewrite Hrun.
Qed.

(** [start_tunnel("localhost", 5432)] on a manager whose only rule is for
    the hosts of another domain. *)
Lemma start_tunnel_without_rule_witness :
  no_rule_matches (H:=python) [(".*\.prod\.example\.com", "ssh://bastion:22")] "localhost"
  ∧ start_tunnel (H:=python) (Examples.machine [] Examples.no_config)
      "localhost" 5432 None
      (Examples.initial
         (Examples.manager None [(".*\.prod\.example\.com", "ssh://bastion:22")] []))
    = (Return ("localhost", Some 5432),
       Examples.initial
         (Examples.manager None [(".*\.prod\.example\.com", "ssh://bastion:22")] [])).
Proof.
  assert (Hno : no_rule_matches (H:=python)
                  [(".*\.prod\.example\.com", "ssh://bastion:22")] "localhost").
  { repeat constructor. }
  split; [exact Hno|].
  apply (start_tunnel_without_rule (H:=python)).
  - reflexivity.
  - intros alias. discriminate.
  - exact Hno.
Defined.

Lemma relay_events rounds ev :
  ev ∈ (relay rounds).1 →
  (∃ data, ev = EvChannelSendall data) ∨ (∃ data, ev = EvRequestSendall data).
Proof.
  revert ev. induction rounds as [|[|request channel] rounds IH]; intros ev; simpl.
  - by intros ?%elem_of_nil.
  - by intros ?%elem_of_nil.
  - assert (Hf : ∀ send x out, forward send x = Some out → ∀ e, e ∈ out → ∃ data, e = send data).
    { intros send [[data| |data]|] out; simpl; try done.
      - destruct (Str.truthy data); [|done]. intros [= <-] e ->%list_elem_of_singleton. eauto.
      - intros [= <-] e ?%elem_of_nil. done. }
    destruct (forward EvChannelSendall request) as [out1|] eqn:H1; simpl;
      [|by intros ?%elem_of_nil].
    destruct (forward EvRequestSendall channel) as [out2|] eqn:H2; simpl.
    + destruct (relay rounds) as [rest done] eqn:Hr. simpl in *.
      rewrite !elem_of_app. intros [Hin|[Hin|Hin]]; [left|right|]; eauto.
    + intros Hin. left. eauto.
Qed.

Lemma channel_destinations_open tr kind dest src rest :
  channel_destinations (EvOpenChannel tr kind dest src :: rest)
  = dest :: channel_destinations rest.
Proof. done. Qed.

Lemma handle_destinations env h peername rounds tr :
  handler_ssh_transport h = Some tr →
  ∃ rest,
    handle env h peername rounds
    = EvOpenChannel tr "direct-tcpip"
        (handler_remote_host h, handler_remote_port h) peername :: rest
    ∧ channel_destinations rest = [].
Proof.
  intros Htr. unfold handle. rewrite Htr. eexists. split; [done|].
  assert (Hrelay : ∀ evs,
             (∀ ev, ev ∈ evs → (∃ data, ev = EvChannelSendall data)
                               ∨ (∃ data, ev = EvRequestSendall data)) →
             channel_destinations evs = []).
  { induction evs as [|ev evs IH]; intros Hevs; [done|].
    unfold channel_destinations in *. simpl.
    destruct (Hevs ev) as [[? ->]|[? ->]]; [left| |]; simpl;
      apply IH; intros e He; apply Hevs; by right. }
  destruct (open_channel env tr _ _ _); [done|done|].
  destruct (relay rounds) as [out done] eqn:Hr.
  assert (Hout : channel_destinations out = []).
  { apply Hrelay. intros ev Hev. apply (relay_events rounds). by rewrite Hr. }
  destruct done; [|done].
  unfold channel_destinations in *. by rewrite omap_app, Hout.
Qed.

(** C1: for every tunnel that [start_tunnel(host, port, dsn_alias)]
    establishes, the handler of every accepted connection opens one channel,
    of kind [direct-tcpip], on the transport of the SSH session, and its
    destination is the [(host, port)] of the caller. The address of the
    bastion is where the session was connected to; the destination is that
    address only if the caller asked for it. *)
Theorem forward_channel_targets_caller_endpoint `{PyLib} (env : Env)
    (host : string) (port : Z) (dsn_alias : option string)
    (s s' : state) (l : loc) (t : NativeSSHTunnel) :
  established env host port dsn_alias s s' l t →
  ∃ srv,
    _server t = Some srv
    ∧ is_active t = true
    ∧ connect_calls (new_events s s') = [connect_kwargs t]
    ∧ kw_hostname (connect_kwargs t) = ssh_hostname t
    ∧ kw_port (connect_kwargs t) = ssh_port t
    ∧ ∀ env' peername rounds,
        channel_destinations (handle env' (RequestHandlerClass srv) peername rounds)
        = [(host, port)]
        ∧ (∃ rest,
             handle env' (RequestHandlerClass srv) peername rounds
             = EvOpenChannel (Build_Transport (connect_kwargs t))
                 "direct-tcpip" (host, port) peername :: rest)
        ∧ ∀ dest,
            dest ∈ channel_destinations
                     (handle env' (RequestHandlerClass srv) peername rounds) →
            (Some dest.1, dest.2) = (ssh_hostname t, ssh_port t) →
            (ssh_hostname t, ssh_port t) = (Some host, port).
Proof.
  intros (r & Hrun & Hmgr & Hfresh & Hobj).
  start_tunnel_inv env host port dsn_alias s;
    match goal with
    | Heq : _ = start_tunnel _ _ _ _ _ |- _ => rewrite Hrun in Heq; injection Heq as ? ?
    end; subst; try discriminate.
  (* the call that returns without a tunnel creates no object: only the
     call that starts one is left *)
  cbn [mgr heap trace set_tunnel tunnel] in *.
  injection Hmgr as <-. rewrite lookup_insert_eq in Hobj. injection Hobj as <-.
  match goal with tn := new_tunnel _ _ _ _ _ |- _ => rename tn into t0 end.
  eexists. split; [done|]. split; [done|].
  split.
  { unfold new_events. cbn [trace]. by rewrite drop_app_length. }
  split; [done|]. split; [done|].
  intros env' peername rounds.
  destruct (handle_destinations env' (handler_of t0) peername rounds
              (Build_Transport (connect_kwargs t0)) eq_refl) as (rest & Hh & Hrest).
  cbn [started set_is_active set_server_thread set_server _server
       RequestHandlerClass ssh_hostname ssh_port set_ssh_client] in *.
  rewrite Hh.
  assert (Hd : channel_destinations
                 (EvOpenChannel (Build_Transport (connect_kwargs t0)) "direct-tcpip"
                    (handler_remote_host (handler_of t0),
                     handler_remote_port (handler_of t0)) peername :: rest)
               = [(host, port)]).
  { rewrite channel_destinations_open, Hrest. done. }
  rewrite Hd. split; [done|]. split; [by eexists|].
  intros dest ->%list_elem_of_singleton. simpl. by intros <-.
Qed.

(** An established tunnel: the rule [db\.prod\.com] with the bastion
    [bastion:22], and a connection accepted from port 50000. *)
Lemma forward_channel_targets_caller_endpoint_witness :
  established (H:=python)
    (Examples.machine Examples.home Examples.bastion_config)
    "db.prod.com" 5432 None
    (Examples.initial (Examples.manager None [("db\.prod\.com", "bastion:22")] []))
    (start_tunnel (H:=python)
       (Examples.machine Examples.home Examples.bastion_config)
       "db.prod.com" 5432 None
       (Examples.initial (Examples.manager None [("db\.prod\.com", "bastion:22")] []))).2
    0%nat
    ((start_tunnel (H:=python)
        (Examples.machine Examples.home Examples.bastion_config)
        "db.prod.com" 5432 None
        (Examples.initial (Examples.manager None [("db\.prod\.com", "bastion:22")] []))).2.(heap)
     !!! 0%nat)
  ∧ ∃ srv,
      _server
        ((start_tunnel (H:=python)
            (Examples.machine Examples.home Examples.bastion_config)
            "db.prod.com" 5432 None
            (Examples.initial
               (Examples.manager None [("db\.prod\.com", "bastion:22")] []))).2.(heap)
         !!! 0%nat) = Some srv
      ∧ channel_destinations
          (handle (Examples.machine Examples.home Examples.bastion_config)
             (RequestHandlerClass srv) ("127.0.0.1"%string, 50000)
             [Ready (Some (Recv "SELECT 1")) None; Ready None (Some (Recv ""))])
        = [("db.prod.com"%string, 5432)].
Proof.
  assert (Hest : established (H:=python)
    (Examples.machine Examples.home Examples.bastion_config)
    "db.prod.com" 5432 None
    (Examples.initial (Examples.manager None [("db\.prod\.com", "bastion:22")] []))
    (start_tunnel (H:=python)
       (Examples.machine Examples.home Examples.bastion_config)
       "db.prod.com" 5432 None
       (Examples.initial (Examples.manager None [("db\.prod\.com", "bastion:22")] []))).2
    0%nat
    ((start_tunnel (H:=python)
        (Examples.machine Examples.home Examples.bastion_config)
        "db.prod.com" 5432 None
        (Examples.initial (Examples.manager None [("db\.prod\.com", "bastion:22")] []))).2.(heap)
     !!! 0%nat)).
  { exists ("127.0.0.1"%string, Some 40001).
    split; [vm_compute; reflexivity|]. split; [vm_compute; reflexivity|].
    split; vm_compute; reflexivity. }
  split; [exact Hest|].
  destruct (forward_channel_targets_caller_endpoint (H:=python) _ _ _ _ _ _ _ _ Hest)
    as (srv & Hsrv & _ & _ & _ & _ & Hdest).
  exists srv. split; [exact Hsrv|]. apply Hdest.
Defined.

(** C5: when a tunnel specification was found and [tunnel.start()] raises
    (from loading the host keys, connecting and authenticating, binding the
    listener or starting its thread), [start_tunnel] prints
    [SSH tunnel error: ...] on standard error and ends with [sys.exit(1)];
    it does not return, the manager has no tunnel and the tunnel object is
    not active. *)
Theorem start_tunnel_failure_exits `{PyLib} (env : Env) (host : string)
    (port : Z) (dsn_alias : option string) (s s1 s2 : state)
    (url : string) (tunnel_info : ParseResult) (v : locals) (l : loc) (e : exn) :
  find_tunnel_url (mgr s) (Some host) dsn_alias = Ok (Some url) →
  url ≠ "" →
  urlparse (with_scheme url) = Ok tunnel_info →
  resolve env tunnel_info = Ok v →
  alloc (new_tunnel (mgr s) tunnel_info v host port) s = (Return l, s1) →
  tunnel_start env l s1 = (Raised e, s2) →
  start_tunnel env host port dsn_alias s
  = (SystemExit 1,
     State (mgr s2) (heap s2)
       (trace s2 ++ [EvSecho ("SSH tunnel error: " +:+ exn_msg e) true "red"]))
  ∧ (1 ≠ 0)%Z
  ∧ mgr s2 = mgr s
  ∧ is_active (heap s2 !!! l) = false.
Proof.
  intros Hfind Hne Hparse Hres Halloc Hstart.
  unfold alloc in Halloc. injection Halloc as <- <-.
  split; [|split; [done|]].
  - unfold start_tunnel. unfold_M. rewrite Hfind. rewrite (present_Some _ Hne).
    rewrite Hparse, Hres, Hstart. done.
  - set (s1 := State _ _ _) in Hstart.
    destruct (establishment_error env (connect_kwargs (heap s1 !!! fresh (dom (heap s)))))
      as [e'|] eqn:Herr.
    + destruct (tunnel_start_fails _ _ _ _ Herr) as (t' & evs & Hrun & Hact & _).
      rewrite Hstart in Hrun. injection Hrun as -> ->.
      cbn [mgr heap]. split; [done|].
      rewrite lookup_total_insert_eq. unfold is_active. rewrite Hact.
      unfold s1. by heap_simpl.
    + apply establishment_error_None in Herr as (Hl & Hc & [p Hb] & Hth).
      by rewrite (tunnel_start_ok _ _ _ p) in Hstart.
Qed.

(** The bastion refuses the connection. *)
Lemma start_tunnel_failure_exits_witness :
  tunnel_start (Examples.unreachable (Examples.machine [] Examples.no_config)) 0%nat
    (alloc
       (new_tunnel
          (Examples.manager (Some "ssh://user@bastion.example.com:22") [] [])
          {| pr_hostname := Some "bastion.example.com"%string;
             pr_port := Ok (Some 22);
             pr_username := Some "user"%string;
             pr_password := None |}
          (Locals (Some "bastion.example.com"%string) 22 (Some "user"%string) None [])
          "db.internal" 5432)
       (Examples.initial
          (Examples.manager (Some "ssh://user@bastion.example.com:22") [] []))).2
  = (Raised (Exn "NoValidConnectionsError" "Unable to connect to port 22"),
     (tunnel_start (Examples.unreachable (Examples.machine [] Examples.no_config)) 0%nat
        (alloc
           (new_tunnel
              (Examples.manager (Some "ssh://user@bastion.example.com:22") [] [])
              {| pr_hostname := Some "bastion.example.com"%string;
                 pr_port := Ok (Some 22);
                 pr_username := Some "user"%string;
                 pr_password := None |}
              (Locals (Some "bastion.example.com"%string) 22 (Some "user"%string) None [])
              "db.internal" 5432)
           (Examples.initial
              (Examples.manager (Some "ssh://user@bastion.example.com:22") [] []))).2).2)
  ∧ (start_tunnel (H:=python)
       (Examples.unreachable (Examples.machine [] Examples.no_config))
       "db.internal" 5432 None
       (Examples.initial
          (Examples.manager (Some "ssh://user@bastion.example.com:22") [] []))).1
    = SystemExit 1
  ∧ last (trace
            (start_tunnel (H:=python)
               (Examples.unreachable (Examples.machine [] Examples.no_config))
               "db.internal" 5432 None
               (Examples.initial
                  (Examples.manager (Some "ssh://user@bastion.example.com:22") [] []))).2)
    = Some (EvSecho "SSH tunnel error: Unable to connect to port 22" true "red").
Proof.
  split; [vm_compute; reflexivity|].
  destruct (start_tunnel_failure_exits (H:=python)
              (Examples.unreachable (Examples.machine [] Examples.no_config))
              "db.internal" 5432 None
              (Examples.initial
                 (Examples.manager (Some "ssh://user@bastion.example.com:22") [] []))
              (alloc
                 (new_tunnel
                    (Examples.manager (Some "ssh://user@bastion.example.com:22") [] [])
                    {| pr_hostname := Some "bastion.example.com"%string;
                       pr_port := Ok (Some 22);
                       pr_username := Some "user"%string;
                       pr_password := None |}
                    (Locals (Some "bastion.example.com"%string) 22
                       (Some "user"%string) None [])
                    "db.internal" 5432)
                 (Examples.initial
                    (Examples.manager (Some "ssh://user@bastion.example.com:22") [] []))).2
              (tunnel_start
                 (Examples.unreachable (Examples.machine [] Examples.no_config)) 0%nat
                 (alloc
                    (new_tunnel
                       (Examples.manager (Some "ssh://user@bastion.example.com:22") [] [])
                       {| pr_hostname := Some "bastion.example.com"%string;
                          pr_port := Ok (Some 22);
                          pr_username := Some "user"%string;
                          pr_password := None |}
                       (Locals (Some "bastion.example.com"%string) 22
                          (Some "user"%string) None [])
                       "db.internal" 5432)
                    (Examples.initial
                       (Examples.manager (Some "ssh://user@bastion.example.com:22")
                          [] []))).2).2
              "ssh://user@bastion.example.com:22"
              {| pr_hostname := Some "bastion.example.com"%string;
                 pr_port := Ok (Some 22);
                 pr_username := Some "user"%string;
                 pr_password := None |}
              (Locals (Some "bastion.example.com"%string) 22 (Some "user"%string) None [])
              0%nat
              (Exn "NoValidConnectionsError" "Unable to connect to port 22"))
    as [Hrun _].
  - vm_compute; reflexivity.
  - discriminate.
  - vm_compute; reflexivity.
  - vm_compute; reflexivity.
  - vm_compute; reflexivity.
  - vm_compute; reflexivity.
  - rewrite Hrun. split; [reflexivity|]. vm_compute; reflexivity.
Defined.

(** ** Stopping *)

Lemma tunnel_stop_run l s :
  tunnel_stop l s
  = (Return (),
     State (mgr s) (<[l := stopped (heap s !!! l)]> (heap s))
       (trace s ++ stop_events (heap s !!! l))).
Proof.
  unfold tunnel_stop, stopped, stop_events. unfold_M.
  cbn [mgr heap trace]. rewrite !lookup_total_insert_eq.
  cbn [set_is_active _server].
  destruct (_server (heap s !!! l)) as [srv|] eqn:Hsrv.
  - cbn [mgr heap trace]. rewrite !insert_insert_eq, !lookup_total_insert_eq.
    cbn [set_server set_is_active _ssh_client].
    destruct (_ssh_client (heap s !!! l)) as [c|] eqn:Hc.
    + cbn [mgr heap trace]. rewrite !insert_insert_eq, !lookup_total_insert_eq.
      rewrite <- app_assoc. done.
    + cbn [mgr heap trace]. rewrite !insert_insert_eq, !lookup_total_insert_eq.
      destruct (heap s !!! l); simpl in *; subst. done.
  - cbn [mgr heap trace]. rewrite !lookup_total_insert_eq.
    cbn [set_server set_is_active _ssh_client].
    destruct (_ssh_client (heap s !!! l)) as [c|] eqn:Hc.
    + cbn [mgr heap trace]. rewrite !insert_insert_eq, !lookup_total_insert_eq.
      destruct (heap s !!! l); simpl in *; subst. done.
    + cbn [mgr heap trace]. rewrite !insert_insert_eq, !lookup_total_insert_eq.
      rewrite app_nil_r.
      destruct (heap s !!! l); simpl in *; subst. done.
Qed.




Lemma stop_tunnel_active s l :
  tunnel (mgr s) = Some l →
  is_active (heap s !!! l) = true →
  stop_tunnel s
  = (Return (),
     State (set_tunnel None (mgr s)) (<[l := stopped (heap s !!! l)]> (heap s))
       (trace s ++ stop_events (heap s !!! l))).
Proof.
  intros Hl Hactive. unfold stop_tunnel. unfold_M. rewrite Hl, Hactive.
  by rewrite tunnel_stop_run.
Qed.

Lemma stop_tunnel_idle s :
  (∀ l, tunnel (mgr s) = Some l → is_active (heap s !!! l) = false) →
  stop_tunnel s = (Return (), s).
Proof.
  intros Hidle. unfold stop_tunnel. unfold_M.
  destruct (tunnel (mgr s)) as [l|]; [|done]. by rewrite (Hidle l).
Qed.



(** ** Connection parameters *)

Lemma connect_calls_prefix t evs :
  evs `prefix_of` start_events t →
  (connect_calls evs = [] ∧ EvConnect (connect_kwargs t) ∉ evs)
  ∨ connect_calls evs = [connect_kwargs t].
Proof.
  intros [rest Hrest]. unfold start_events in Hrest.
  destruct evs as [|e1 [|e2 [|e3 [|e4 [|e5 [|e6 evs]]]]]]; cbn in Hrest;
    repeat match goal with
           | Hc : [] = _ :: _ |- _ => discriminate Hc
           | Hc : _ :: _ = _ :: _ |- _ => injection Hc as ? Hc
           end;
    subst;
    first [ by right
          | left; split; [done|];
            rewrite ?elem_of_cons, elem_of_nil; intros Hin;
            repeat destruct Hin as [Hin|Hin]; done ].
Qed.

(** The [connect] calls of a [start_tunnel] that found a specification. *)
Lemma start_tunnel_connect `{PyLib} env host port dsn_alias s url tunnel_info v :
  find_tunnel_url (mgr s) (Some host) dsn_alias = Ok (Some url) →
  url ≠ "" →
  urlparse (with_scheme url) = Ok tunnel_info →
  resolve env tunnel_info = Ok v →
  (∀ kw,
     kw ∈ connect_calls (new_events s (start_tunnel env host port dsn_alias s).2) →
     kw = connect_kwargs (new_tunnel (mgr s) tunnel_info v host port))
  ∧ (load_system_host_keys env = Ok () →
     connect_calls (new_events s (start_tunnel env host port dsn_alias s).2)
     = [connect_kwargs (new_tunnel (mgr s) tunnel_info v host port)]).
Proof.
  intros Hfind Hne Hparse Hres.
  start_tunnel_inv env host port dsn_alias s.
  - match goal with H : _ `prefix_of` _ |- _ => pose proof (connect_calls_prefix _ _ H) as Hcalls end.
    unfold new_events. cbn [snd trace]. rewrite drop_app_length.
    unfold connect_calls in *. rewrite omap_app. cbn [omap list_omap]. rewrite app_nil_r.
    destruct Hcalls as [[-> Hnot]| ->].
    + split; [by intros kw ?%elem_of_nil|]. intros Hload. exfalso. auto.
    + split; [by intros kw ->%list_elem_of_singleton|done].
  - unfold new_events. cbn [snd trace]. rewrite drop_app_length.
    split; [|done]. by intros kw ->%list_elem_of_singleton.
Qed.

Lemma read_ssh_config_error `{PyLib} env path host p v e :
  ssh_config_lookup env path host = Err e → read_ssh_config env path host p v = v.
Proof. unfold read_ssh_config. by intros ->. Qed.

Lemma read_ssh_config_username `{PyLib} env path host p v host_config :
  ssh_config_lookup env path host = Ok host_config →
  l_ssh_username (read_ssh_config env path host p v)
  = match present (l_ssh_username v) with
    | Some _ => l_ssh_username v
    | None => hc_user host_config
    end.
Proof.
  unfold read_ssh_config. intros ->.
  cbn [l_ssh_hostname l_ssh_username l_ssh_port l_ssh_proxy l_key_filenames].
  repeat case_match; done.
Qed.

Lemma resolve_configured `{PyLib} env tunnel_info p :
  pr_port tunnel_info = Ok p →
  resolve env tunnel_info
  = match present (l_ssh_username (configured env tunnel_info p)) with
    | Some _ => Ok (configured env tunnel_info p)
    | None =>
        match getuser env with
        | Ok user =>
            Ok (Locals (l_ssh_hostname (configured env tunnel_info p))
                  (l_ssh_port (configured env tunnel_info p)) (Some user)
                  (l_ssh_proxy (configured env tunnel_info p))
                  (l_key_filenames (configured env tunnel_info p)))
        | Err e => Err e
        end
    end.
Proof. unfold resolve, configured. by intros ->. Qed.

Lemma configured_username `{PyLib} env tunnel_info p :
  l_ssh_username (configured env tunnel_info p)
  = match present (pr_username tunnel_info) with
    | Some _ => pr_username tunnel_info
    | None =>
        match ssh_config_for env (pr_hostname tunnel_info) with
        | Some host_config => hc_user host_config
        | None => pr_username tunnel_info
        end
    end.
Proof.
  unfold configured, ssh_config_for.
  cbn [l_ssh_hostname l_ssh_username].
  destruct (present (pr_hostname tunnel_info)) as [host|];
    [|by destruct (present (pr_username tunnel_info))].
  destruct (isfile env _); [|by destruct (present (pr_username tunnel_info))].
  destruct (ssh_config_lookup env _ host) as [host_config|e] eqn:Hlookup.
  - by rewrite (read_ssh_config_username _ _ _ _ _ _ Hlookup).
  - rewrite (read_ssh_config_error _ _ _ _ _ _ Hlookup).
    by destruct (present (pr_username tunnel_info)).
Qed.

Lemma present_idem o s : present o = Some s → o = Some s.
Proof. by intros [-> _]%present_Some_inv. Qed.

Lemma resolve_username `{PyLib} env tunnel_info p os_user :
  pr_port tunnel_info = Ok p →
  (present (pr_username tunnel_info) = None →
   present (ssh_config_for env (pr_hostname tunnel_info) ≫= hc_user) = None →
   getuser env = Ok os_user) →
  ∃ v,
    resolve env tunnel_info = Ok v
    ∧ l_ssh_username v
      = Some (username_fallback (present (pr_username tunnel_info))
                (present (ssh_config_for env (pr_hostname tunnel_info) ≫= hc_user))
                os_user).
Proof.
  intros Hport Huser. rewrite (resolve_configured _ _ _ Hport).
  rewrite configured_username. unfold username_fallback.
  destruct (present (pr_username tunnel_info)) as [u|] eqn:Hspec.
  - rewrite Hspec. eexists. split; [done|].
    rewrite configured_username, Hspec. by apply present_idem.
  - destruct (ssh_config_for env (pr_hostname tunnel_info)) as [host_config|] eqn:Hfor;
      simpl in *.
    + destruct (present (hc_user host_config)) as [u|] eqn:Hcfg.
      * eexists. split; [done|].
        rewrite configured_username, Hspec, Hfor. by apply present_idem.
      * rewrite Huser by done. by eexists.
    + rewrite Hspec, Huser by done. by eexists.
Qed.

Lemma resolve_fields `{PyLib} env tunnel_info p v :
  pr_port tunnel_info = Ok p →
  resolve env tunnel_info = Ok v →
  l_ssh_hostname v = l_ssh_hostname (configured env tunnel_info p)
  ∧ l_ssh_port v = l_ssh_port (configured env tunnel_info p)
  ∧ l_ssh_proxy v = l_ssh_proxy (configured env tunnel_info p)
  ∧ l_key_filenames v = l_key_filenames (configured env tunnel_info p).
Proof.
  intros Hport. rewrite (resolve_configured _ _ _ Hport).
  destruct (present _); [by intros [= <-]|].
  destruct (getuser env); [|done]. by intros [= <-].
Qed.


Lemma configured_key_filenames `{PyLib} env tunnel_info p :
  l_key_filenames (configured env tunnel_info p)
  = match ssh_config_for env (pr_hostname tunnel_info) with
    | Some host_config =>
        if reads_to_end env p host_config
        then existing_identity_files env host_config
        else []
    | None => []
    end.
Proof.
  unfold configured, ssh_config_for, reads_to_end, existing_identity_files.
  cbn [l_ssh_hostname l_key_filenames].
  destruct (present (pr_hostname tunnel_info)) as [host|]; [|done].
  destruct (isfile env _); [|done].
  unfold read_ssh_config.
  destruct (ssh_config_lookup env _ host) as [host_config|]; [|done].
  cbn [l_ssh_hostname l_ssh_username l_ssh_port l_ssh_proxy l_key_filenames].
  repeat case_match; simplify_eq/=; done.
Qed.

Lemma new_tunnel_key_filename self tunnel_info v host port :
  kw_key_filename (connect_kwargs (new_tunnel self tunnel_info v host port))
  = key_filename_arg (l_key_filenames v).
Proof. unfold new_tunnel. simpl. by destruct (l_key_filenames v). Qed.

(** C7: the user name of every [connect] call made for a tunnel
    specification is the user name of the specification when there is one;
    else the [user] of the SSH configuration looked up for the host name of
    the specification when there is one; else the current user. A user name
    is there when it is not empty. The current user is asked for only in
    the last case. *)
Theorem ssh_username_fallback `{PyLib} (env : Env) (host : string) (port : Z)
    (dsn_alias : option string) (s : state) (url : string)
    (tunnel_info : ParseResult) (p : option Z) (os_user : string) :
  find_tunnel_url (mgr s) (Some host) dsn_alias = Ok (Some url) →
  url ≠ "" →
  urlparse (with_scheme url) = Ok tunnel_info →
  pr_port tunnel_info = Ok p →
  (present (pr_username tunnel_info) = None →
   present (ssh_config_for env (pr_hostname tunnel_info) ≫= hc_user) = None →
   getuser env = Ok os_user) →
  (∀ kw,
     kw ∈ connect_calls (new_events s (start_tunnel env host port dsn_alias s).2) →
     kw_username kw
     = Some (username_fallback (present (pr_username tunnel_info))
               (present (ssh_config_for env (pr_hostname tunnel_info) ≫= hc_user))
               os_user))
  ∧ (load_system_host_keys env = Ok () →
     kw_username <$>
       connect_calls (new_events s (start_tunnel env host port dsn_alias s).2)
     = [Some (username_fallback (present (pr_username tunnel_info))
                (present (ssh_config_for env (pr_hostname tunnel_info) ≫= hc_user))
                os_user)])
  ∧ (∀ user config_user,
       present (pr_username tunnel_info) = Some user →
       username_fallback (present (pr_username tunnel_info)) config_user os_user
       = user).
Proof.
  intros Hfind Hne Hparse Hport Huser.
  destruct (resolve_username env tunnel_info p os_user Hport Huser) as (v & Hres & Hv).
  destruct (start_tunnel_connect env host port dsn_alias s url tunnel_info v
              Hfind Hne Hparse Hres) as [Hall Hone].
  split; [|split].
  - intros kw ->%Hall. exact Hv.
  - intros Hload. rewrite (Hone Hload). simpl. by rewrite <- Hv.
  - intros user config_user ->. done.
Qed.

(** The three steps of the fallback on one machine: the specification names
    [ops]; it names nobody and the configuration says [deploy]; there is no
    configuration file and the current user is [alice]. *)
Lemma ssh_username_fallback_witness :
  kw_username <$>
    connect_calls
      (new_events
         (Examples.initial (Examples.manager (Some "ops@bastion") [] []))
         (start_tunnel (H:=python)
            (Examples.machine Examples.home Examples.bastion_config)
            "db.internal" 5432 None
            (Examples.initial (Examples.manager (Some "ops@bastion") [] []))).2)
  = [Some "ops"%string]
  ∧ kw_username <$>
    connect_calls
      (new_events
         (Examples.initial (Examples.manager (Some "bastion") [] []))
         (start_tunnel (H:=python)
            (Examples.machine Examples.home Examples.bastion_config)
            "db.internal" 5432 None
            (Examples.initial (Examples.manager (Some "bastion") [] []))).2)
    = [Some "deploy"%string]
  ∧ kw_username <$>
    connect_calls
      (new_events
         (Examples.initial (Examples.manager (Some "bastion") [] []))
         (start_tunnel (H:=python)
            (Examples.machine [] Examples.bastion_config)
            "db.internal" 5432 None
            (Examples.initial (Examples.manager (Some "bastion") [] []))).2)
    = [Some "alice"%string].
Proof.
  split; [|split].
  - destruct (ssh_username_fallback (H:=python)
                (Examples.machine Examples.home Examples.bastion_config)
                "db.internal" 5432 None
                (Examples.initial (Examples.manager (Some "ops@bastion") [] []))
                "ops@bastion"
                {| pr_hostname := Some "bastion"%string; pr_port := Ok None;
                   pr_username := Some "ops"%string; pr_password := None |}
                None "alice") as (_ & Hone & _).
    + vm_compute; reflexivity.
    + discriminate.
    + vm_compute; reflexivity.
    + reflexivity.
    + intros _ _. reflexivity.
    + rewrite (Hone eq_refl). vm_compute; reflexivity.
  - destruct (ssh_username_fallback (H:=python)
                (Examples.machine Examples.home Examples.bastion_config)
                "db.internal" 5432 None
                (Examples.initial (Examples.manager (Some "bastion") [] []))
                "bastion"
                {| pr_hostname := Some "bastion"%string; pr_port := Ok None;
                   pr_username := None; pr_password := None |}
                None "alice") as (_ & Hone & _).
    + vm_compute; reflexivity.
    + discriminate.
    + vm_compute; reflexivity.
    + reflexivity.
    + intros _ _. reflexivity.
    + rewrite (Hone eq_refl). vm_compute; reflexivity.
  - destruct (ssh_username_fallback (H:=python)
                (Examples.machine [] Examples.bastion_config)
                "db.internal" 5432 None
                (Examples.initial (Examples.manager (Some "bastion") [] []))
                "bastion"
                {| pr_hostname := Some "bastion"%string; pr_port := Ok None;
                   pr_username := None; pr_password := None |}
                None "alice") as (_ & Hone & _).
    + vm_compute; reflexivity.
    + discriminate.
    + vm_compute; reflexivity.
    + reflexivity.
    + intros _ _. reflexivity.
    + rewrite (Hone eq_refl). vm_compute; reflexivity.
Defined.

(** C8, as stated, fails when the block that reads the SSH configuration is
    left by an exception before the identity files are read: with a
    configured [Port abc] (and no port in the specification) [int] raises,
    and with a proxy command that cannot be started [ProxyCommand] raises;
    the [except] clause goes on, and [connect] gets no [key_filename]
    although the configured identity file exists. *)
Lemma identity_files_lost_counterexample :
  key_filename_arg
    (configured_identity_files
       (Examples.machine Examples.home
          {| hc_hostname := None; hc_user := None; hc_port := Some "abc"%string;
             hc_proxycommand := None;
             hc_identityfile := Some ["/keys/id_all"%string] |})
       (Some "bastion"%string))
  = Some ["/keys/id_all"%string]
  ∧ kw_key_filename <$>
      connect_calls
        (trace (start_tunnel (H:=python)
                  (Examples.machine Examples.home
                     {| hc_hostname := None; hc_user := None;
                        hc_port := Some "abc"%string;
                        hc_proxycommand := None;
                        hc_identityfile := Some ["/keys/id_all"%string] |})
                  "db.internal" 5432 None
                  (Examples.initial (Examples.manager (Some "bastion") [] []))).2)
    = [None]
  ∧ key_filename_arg
      (configured_identity_files
         (Examples.no_proxy
            (Examples.machine Examples.home
               {| hc_hostname := None; hc_user := None; hc_port := None;
                  hc_proxycommand := Some "nc -x proxy %h %p"%string;
                  hc_identityfile := Some ["/keys/id_all"%string] |}))
         (Some "bastion"%string))
    = Some ["/keys/id_all"%string]
  ∧ kw_key_filename <$>
      connect_calls
        (trace (start_tunnel (H:=python)
                  (Examples.no_proxy
                     (Examples.machine Examples.home
                        {| hc_hostname := None; hc_user := None; hc_port := None;
                           hc_proxycommand := Some "nc -x proxy %h %p"%string;
                           hc_identityfile := Some ["/keys/id_all"%string] |}))
                  "db.internal" 5432 None
                  (Examples.initial (Examples.manager (Some "bastion:22") [] []))).2)
    = [None].
Proof.
  split; [vm_compute; reflexivity|]. split; [vm_compute; reflexivity|].
  split; vm_compute; reflexivity.
Qed.

(** C8, amended: every [connect] call made for a tunnel specification has
    [look_for_keys=False], whatever the configuration; its [key_filename]
    is the list of the identity files of the SSH configuration for the host
    name of the specification that exist on disk (each path through
    [expanduser]), in the order of the configuration, when the block that
    reads the configuration runs to its end, and no [key_filename] is
    passed when that list is empty, when there is no configuration or when
    the block is left early. A path that does not exist is dropped: testing
    it does not raise. *)
Theorem identity_files_passed `{PyLib} (env : Env) (host : string) (port : Z)
    (dsn_alias : option string) (s : state) (url : string)
    (tunnel_info : ParseResult) (p : option Z) (v : locals) :
  find_tunnel_url (mgr s) (Some host) dsn_alias = Ok (Some url) →
  url ≠ "" →
  urlparse (with_scheme url) = Ok tunnel_info →
  pr_port tunnel_info = Ok p →
  resolve env tunnel_info = Ok v →
  (∀ kw,
     kw ∈ connect_calls (new_events s (start_tunnel env host port dsn_alias s).2) →
     kw_look_for_keys kw = false
     ∧ kw_key_filename kw
       = key_filename_arg
           match ssh_config_for env (pr_hostname tunnel_info) with
           | Some host_config =>
               if reads_to_end env p host_config
               then existing_identity_files env host_config
               else []
           | None => []
           end)
  ∧ (load_system_host_keys env = Ok () →
     ∃ kw,
       connect_calls (new_events s (start_tunnel env host port dsn_alias s).2) = [kw])
  ∧ (∀ host_config f,
       f ∈ existing_identity_files env host_config
       ↔ ∃ f0, f = expanduser env f0
               ∧ f0 ∈ default [] (hc_identityfile host_config)
               ∧ isfile env (expanduser env f0) = true).
Proof.
  intros Hfind Hne Hparse Hport Hres.
  destruct (start_tunnel_connect env host port dsn_alias s url tunnel_info v
              Hfind Hne Hparse Hres) as [Hall Hone].
  destruct (resolve_fields _ _ _ _ Hport Hres) as (_ & _ & _ & Hkeys).
  split; [|split].
  - intros kw ->%Hall. split; [done|].
    by rewrite new_tunnel_key_filename, Hkeys, configured_key_filenames.
  - intros Hload. eexists. by apply Hone.
  - intros host_config f. unfold existing_identity_files.
    rewrite list_elem_of_fmap. split.
    + intros (f0 & -> & Hf0). apply list_elem_of_In in Hf0.
      apply filter_In in Hf0 as [Hin Hfile]. apply list_elem_of_In in Hin. eauto.
    + intros (f0 & -> & Hin & Hfile). exists f0. split; [done|].
      apply list_elem_of_In, filter_In. by rewrite <- list_elem_of_In.
Qed.

(** Of the three configured identity files, the two that exist are passed,
    in their order. *)
Lemma identity_files_passed_witness :
  kw_key_filename <$>
    connect_calls
      (new_events
         (Examples.initial (Examples.manager (Some "bastion") [] []))
         (start_tunnel (H:=python)
            (Examples.machine Examples.home Examples.bastion_config)
            "db.internal" 5432 None
            (Examples.initial (Examples.manager (Some "bastion") [] []))).2)
  = [Some ["/home/alice/.ssh/id_bastion"; "/keys/id_all"]%string]
  ∧ ∀ kw,
      kw ∈ connect_calls
             (new_events
                (Examples.initial (Examples.manager (Some "bastion") [] []))
                (start_tunnel (H:=python)
                   (Examples.machine Examples.home Examples.bastion_config)
                   "db.internal" 5432 None
                   (Examples.initial (Examples.manager (Some "bastion") [] []))).2) →
      kw_look_for_keys kw = false.
Proof.
  split; [vm_compute; reflexivity|].
  destruct (identity_files_passed (H:=python)
              (Examples.machine Examples.home Examples.bastion_config)
              "db.internal" 5432 None
              (Examples.initial (Examples.manager (Some "bastion") [] []))
              "bastion"
              {| pr_hostname := Some "bastion"%string; pr_port := Ok None;
                 pr_username := None; pr_password := None |}
              None
              (Locals (Some "bastion.internal"%string) 2222 (Some "deploy"%string) None
                 ["/home/alice/.ssh/id_bastion"; "/keys/id_all"]%string))
    as (Hall & _ & _).
  - vm_compute; reflexivity.
  - discriminate.
  - vm_compute; reflexivity.
  - reflexivity.
  - vm_compute; reflexivity.
  - intros kw Hkw. by destruct (Hall kw Hkw).
Defined.





(** ** The manager built from the configuration *)

(** C10, as stated, fails when something takes precedence over the option
    key: an earlier host rule that matches the text [allow_agent], or an
    explicit specification. *)
Lemma option_key_shadowed_counterexample :
  dict_get "allow_agent" [(".*", "ssh://bastion"); ("allow_agent", "False")]%string
  = Some "False"%string
  ∧ find_tunnel_url (H:=python)
      (get_tunnel_manager_from_config
         {[ "ssh tunnels"%string :=
              [(".*", "ssh://bastion"); ("allow_agent", "False")]%string ]}
         None)
      (Some "allow_agent") None
    = Ok (Some "ssh://bastion")
  ∧ find_tunnel_url (H:=python)
      (get_tunnel_manager_from_config
         {[ "ssh tunnels"%string := [("allow_agent", "False")]%string ]}
         (Some "ssh://explicit"))
      (Some "allow_agent") None
    = Ok (Some "ssh://explicit").
Proof. split; [reflexivity|]. split; vm_compute; reflexivity. Qed.

(** C10, amended: the manager built from a configuration takes the whole
    [ssh tunnels] section as its host rules, the option keys [allow_agent]
    and [host_key_policy] with their values included; and
    [find_tunnel_url(host=key)] for such a key returns the value of the
    option when no explicit specification is given, no rule before the key
    matches the key, and the key as a pattern matches itself. *)
Theorem option_keys_are_host_rules `{PyLib}
    (config : gmap string (dict string)) (explicit_url : option string)
    (section before after : dict string) (key value : string) :
  config !! "ssh tunnels" = Some section →
  section = before ++ (key, value) :: after →
  key = "allow_agent" ∨ key = "host_key_policy" →
  ssh_tunnel_config (get_tunnel_manager_from_config config explicit_url) = section
  ∧ (key, value) ∈ ssh_tunnel_config (get_tunnel_manager_from_config config explicit_url)
  ∧ (present explicit_url = None →
     no_rule_matches before key →
     re_fullmatch key key = Ok true →
     find_tunnel_url (get_tunnel_manager_from_config config explicit_url)
       (Some key) None
     = Ok (Some value)).
Proof.
  intros Hsection -> Hkey.
  assert (Hcfg : ssh_tunnel_config (get_tunnel_manager_from_config config explicit_url)
                 = before ++ (key, value) :: after).
  { unfold get_tunnel_manager_from_config, SSHTunnelManager_init.
    cbv zeta. cbn [ssh_tunnel_config]. unfold dict in *. by rewrite Hsection. }
  split; [done|]. split.
  { rewrite Hcfg. apply elem_of_app. right. left. }
  intros Hurl Hbefore Hself. unfold find_tunnel_url.
  change (ssh_tunnel_url (get_tunnel_manager_from_config config explicit_url))
    with explicit_url.
  rewrite Hurl, Hcfg.
  rewrite (present_Some key) by (destruct Hkey as [-> | ->]; discriminate).
  cbn [present].
  destruct (before ++ (key, value) :: after) eqn:Hrules.
  { by destruct before. }
  rewrite <- Hrules. by apply match_rules_first.
Qed.

(** A section with a rule and the two options. *)
Lemma option_keys_are_host_rules_witness :
  no_rule_matches (H:=python) [(".*\.prod\.com", "ssh://bastion")] "allow_agent"
  ∧ re_fullmatch (PyLib:=python) "allow_agent" "allow_agent" = Ok true
  ∧ find_tunnel_url (H:=python)
      (get_tunnel_manager_from_config
         {[ "ssh tunnels"%string :=
              [(".*\.prod\.com", "ssh://bastion"); ("allow_agent", "False");
               ("host_key_policy", "Reject")]%string ]}
         None)
      (Some "allow_agent") None
    = Ok (Some "False")
  ∧ allow_agent
      (get_tunnel_manager_from_config
         {[ "ssh tunnels"%string :=
              [(".*\.prod\.com", "ssh://bastion"); ("allow_agent", "False");
               ("host_key_policy", "Reject")]%string ]}
         None)
    = false
  ∧ host_key_policy
      (get_tunnel_manager_from_config
         {[ "ssh tunnels"%string :=
              [(".*\.prod\.com", "ssh://bastion"); ("allow_agent", "False");
               ("host_key_policy", "Reject")]%string ]}
         None)
    = "reject"%string.
Proof.
  assert (Hno : no_rule_matches (H:=python)
                  [(".*\.prod\.com", "ssh://bastion")] "allow_agent").
  { repeat constructor. }
  split; [exact Hno|]. split; [vm_compute; reflexivity|].
  split; [|split; vm_compute; reflexivity].
  destruct (option_keys_are_host_rules (H:=python)
              {[ "ssh tunnels"%string :=
                   [(".*\.prod\.com", "ssh://bastion"); ("allow_agent", "False");
                    ("host_key_policy", "Reject")]%string ]}
              None
              [(".*\.prod\.com", "ssh://bastion"); ("allow_agent", "False");
               ("host_key_policy", "Reject")]%string
              [(".*\.prod\.com", "ssh://bastion")]%string
              [("host_key_policy", "Reject")]%string
              "allow_agent" "False") as (_ & _ & Hfind).
  - vm_compute; reflexivity.
  - reflexivity.
  - by left.
  - apply Hfind; [reflexivity | exact Hno | vm_compute; reflexivity].
Defined.

(** * Further properties of [ssh_tunnel.py] *)

(** ** The outcomes of [start_tunnel] *)

Lemma prefix_of_start_events_no_atexit t evs :
  evs `prefix_of` start_events t →
  (EvAtexitRegister ∉ evs) ∧ (∀ c, EvClientClose c ∉ evs) ∧ (∀ srv, EvServerShutdown srv ∉ evs).
Proof.
  intros [rest Hrest].
  assert (Hsub : ∀ ev, ev ∈ evs → ev ∈ start_events t).
  { intros ev Hev. rewrite Hrest. apply elem_of_app. by left. }
  unfold start_events in Hsub.
  repeat split; repeat intro;
    match goal with Hin : _ ∈ evs |- _ => apply Hsub in Hin end;
    repeat match goal with
           | Hin : _ ∈ _ :: _ |- _ => apply elem_of_cons in Hin as [Hin|Hin]; [discriminate|]
           | Hin : _ ∈ [] |- _ => by apply elem_of_nil in Hin
           end.
Qed.


(** What is known of an established tunnel. *)
Lemma established_inv `{PyLib} env host port dsn_alias s s' l t :
  established env host port dsn_alias s s' l t →
  ∃ tunnel_info v p,
    l = fresh (dom (heap s))
    ∧ t = started (new_tunnel (mgr s) tunnel_info v host port) p
    ∧ bind_server env ("127.0.0.1"%string, 0) = Ok p
    ∧ start_tunnel env host port dsn_alias s = (Return ("127.0.0.1"%string, Some p), s')
    ∧ s' = State (set_tunnel (Some l) (mgr s)) (<[l := t]> (heap s))
             (trace s ++ start_events (new_tunnel (mgr s) tunnel_info v host port)
                ++ [EvAtexitRegister]).
Proof.
  intros (r & Hrun & Hmgr & Hfresh & Hobj).
  start_tunnel_inv env host port dsn_alias s;
    match goal with
    | Heq : _ = start_tunnel _ _ _ _ _ |- _ => rewrite Hrun in Heq; injection Heq as ? ?
    end; subst; try discriminate.
  cbn [mgr heap trace set_tunnel tunnel] in *.
  injection Hmgr as <-. rewrite lookup_insert_eq in Hobj. injection Hobj as <-.
  eexists _, _, _. repeat (split; [done|]). done.
Qed.




(** ** Patterns that are not regular expressions *)

Lemma match_rules_error `{PyLib} rules candidate e :
  first_error rules candidate e → match_rules rules candidate = Err e.
Proof.
  intros (before & pattern & url & after & -> & Hbefore & Herr).
  induction Hbefore as [|[p u] before Hhd _ IH]; simpl in *.
  - by rewrite Herr.
  - by rewrite Hhd.
Qed.

Lemma first_error_cons `{PyLib} rules candidate e :
  first_error rules candidate e → ∃ rule rules', rules = rule :: rules'.
Proof. intros ([|rule before] & pattern & url & after & -> & _); simpl; eauto. Qed.

(** X3: [re.error] is not caught. Without an explicit specification, when
    the first pattern that [re.fullmatch] rejects comes before any match,
    [find_tunnel_url] raises it and so does [start_tunnel], before anything
    has happened: for a DSN rule, whatever the host rules hold (a host rule
    that would match is not reached), and for a host rule when no DSN rule
    applies. *)
Theorem invalid_pattern_raises `{PyLib} (env : Env) (host : string) (port : Z)
    (dsn_alias : option string) (s : state) (e : exn) :
  present (ssh_tunnel_url (mgr s)) = None →
  (∃ alias, present dsn_alias = Some alias
            ∧ first_error (dsn_ssh_tunnel_config (mgr s)) alias e)
  ∨ ((∀ alias, present dsn_alias = Some alias →
               no_rule_matches (dsn_ssh_tunnel_config (mgr s)) alias)
     ∧ host ≠ ""
     ∧ first_error (ssh_tunnel_config (mgr s)) host e) →
  find_tunnel_url (mgr s) (Some host) dsn_alias = Err e
  ∧ start_tunnel env host port dsn_alias s = (Raised e, s).
Proof.
  intros Hurl Hcase.
  assert (Hfind : find_tunnel_url (mgr s) (Some host) dsn_alias = Err e).
  { unfold find_tunnel_url. rewrite Hurl.
    destruct Hcase as [(alias & -> & Herr)|(Hdsn & Hhost & Herr)].
    - destruct (first_error_cons _ _ _ Herr) as (rule & rules & Hrules).
      rewrite (match_rules_error _ _ _ Herr). by rewrite Hrules.
    - assert (Hd : match present dsn_alias, dsn_ssh_tunnel_config (mgr s) with
                   | Some alias, _ :: _ => match_rules (dsn_ssh_tunnel_config (mgr s)) alias
                   | _, _ => Ok None
                   end = Ok None).
      { destruct (present dsn_alias) as [alias|]; [|done].
        destruct (dsn_ssh_tunnel_config (mgr s)) eqn:Hrules; [done|].
        by apply match_rules_none, Hdsn. }
      rewrite Hd. rewrite (present_Some _ Hhost).
      destruct (first_error_cons _ _ _ Herr) as (rule & rules & Hrules).
      rewrite (match_rules_error _ _ _ Herr). by rewrite Hrules. }
  split; [done|].
  start_tunnel_inv env host port dsn_alias s.
Qed.

(** An unbalanced parenthesis among the DSN rules stops a connection that a
    host rule would have tunnelled. *)
Lemma invalid_pattern_raises_witness :
  ∃ e,
    start_tunnel (H:=python) (Examples.machine [] Examples.no_config)
      "db.prod.com" 5432 (Some "prod")
      (Examples.initial
         (Examples.manager None [("db\.prod\.com", "bastion:22")]
            [("staging", "jump"); ("(prod", "jump")]))
    = (Raised e,
       Examples.initial
         (Examples.manager None [("db\.prod\.com", "bastion:22")]
            [("staging", "jump"); ("(prod", "jump")]))
    ∧ Re.fullmatch "db\.prod\.com" "db.prod.com" = Ok true.
Proof.
  destruct (Re.fullmatch "(prod" "prod") as [b|e] eqn:Herr; [by vm_compute in Herr|].
  exists e. split; [|vm_compute; reflexivity].
  apply (invalid_pattern_raises (H:=python)); [reflexivity|].
  left. exists "prod"%string. split; [reflexivity|].
  exists [("staging", "jump")]%string, "(prod"%string, "jump"%string, [].
  split; [reflexivity|]. split; [|exact Herr].
  constructor; [vm_compute; reflexivity|constructor].
Defined.

(** ** The remaining arguments of [connect] *)

Lemma configured_hostname `{PyLib} env tunnel_info p :
  l_ssh_hostname (configured env tunnel_info p) = connect_host env tunnel_info.
Proof.
  unfold configured, connect_host, ssh_config_for.
  cbn [l_ssh_hostname].
  destruct (present (pr_hostname tunnel_info)) as [host|]; [|done].
  destruct (isfile env _); [|done].
  unfold read_ssh_config.
  destruct (ssh_config_lookup env _ host) as [host_config|]; [|done].
  cbn [l_ssh_hostname l_ssh_username l_ssh_port l_ssh_proxy l_key_filenames].
  repeat case_match; simplify_eq/=; done.
Qed.

Lemma configured_proxy `{PyLib} env tunnel_info p :
  l_ssh_proxy (configured env tunnel_info p) = connect_proxy env tunnel_info p.
Proof.
  unfold configured, connect_proxy, ssh_config_for, port_step_ok.
  cbn [l_ssh_hostname l_ssh_proxy].
  destruct (present (pr_hostname tunnel_info)) as [host|]; [|done].
  destruct (isfile env _); [|done].
  unfold read_ssh_config.
  destruct (ssh_config_lookup env _ host) as [host_config|]; [|done].
  cbn [l_ssh_hostname l_ssh_username l_ssh_port l_ssh_proxy l_key_filenames].
  repeat case_match; simplify_eq/=; done.
Qed.

(** X4: every [connect] call made for a tunnel specification goes to the
    [hostname] of the SSH configuration for the host name of the
    specification, when [~/.ssh/config] is a file and the lookup succeeds
    (also when the rest of the configuration cannot be used), and to the
    host name of the specification otherwise. Its password is the one of
    the specification, omitted when empty; the SSH configuration never
    supplies one. Compression is off and the timeout is ten seconds. With
    host keys that load, exactly one call is made. *)
Theorem connect_host_and_password `{PyLib} (env : Env) (host : string) (port : Z)
    (dsn_alias : option string) (s : state) (url : string)
    (tunnel_info : ParseResult) (v : locals) :
  find_tunnel_url (mgr s) (Some host) dsn_alias = Ok (Some url) →
  url ≠ "" →
  urlparse (with_scheme url) = Ok tunnel_info →
  resolve env tunnel_info = Ok v →
  (∀ kw,
     kw ∈ connect_calls (new_events s (start_tunnel env host port dsn_alias s).2) →
     kw_hostname kw = connect_host env tunnel_info
     ∧ kw_password kw = present (pr_password tunnel_info)
     ∧ kw_compress kw = false
     ∧ kw_timeout kw = 10)
  ∧ (load_system_host_keys env = Ok () →
     length (connect_calls (new_events s (start_tunnel env host port dsn_alias s).2))
     = 1%nat).
Proof.
  intros Hfind Hne Hparse Hres.
  destruct (start_tunnel_connect env host port dsn_alias s url tunnel_info v
              Hfind Hne Hparse Hres) as [Hall Hone].
  split; [|by intros Hload; rewrite (Hone Hload)].
  intros kw ->%Hall.
  assert (∃ p, pr_port tunnel_info = Ok p) as [p Hport].
  { unfold resolve in Hres. destruct (pr_port tunnel_info); [eauto|done]. }
  destruct (resolve_fields env tunnel_info p v Hport Hres) as (Hhost & _).
  split; [|done].
  change (l_ssh_hostname v = connect_host env tunnel_info).
  rewrite Hhost. apply configured_hostname.
Qed.

(** The configuration of the example sends the connection for [bastion] to
    [bastion.internal]; the password [s3cret] comes from the
    specification. *)
Lemma connect_host_and_password_witness :
  (λ kw, (kw_hostname kw, kw_password kw)) <$>
    connect_calls
      (new_events
         (Examples.initial (Examples.manager (Some "ops:s3cret@bastion") [] []))
         (start_tunnel (H:=python)
            (Examples.machine Examples.home Examples.bastion_config)
            "db.internal" 5432 None
            (Examples.initial (Examples.manager (Some "ops:s3cret@bastion") [] []))).2)
  = [(Some "bastion.internal"%string, Some "s3cret"%string)].
Proof.
  destruct (connect_host_and_password (H:=python)
              (Examples.machine Examples.home Examples.bastion_config)
              "db.internal" 5432 None
              (Examples.initial (Examples.manager (Some "ops:s3cret@bastion") [] []))
              "ops:s3cret@bastion"
              (Sample.parsed "ops:s3cret@bastion")
              (Sample.resolved
                 (Examples.machine Examples.home Examples.bastion_config)
                 "ops:s3cret@bastion"))
    as [Hall Hone];
    [vm_compute; reflexivity|done|vm_compute; reflexivity|vm_compute; reflexivity|].
  specialize (Hone eq_refl).
  destruct (connect_calls _) as [|kw [|]] eqn:Hcalls; try discriminate Hone.
  destruct (Hall kw) as (Hhost & Hpass & _); [by apply list_elem_of_here|].
  cbn [fmap list_fmap]. rewrite Hhost, Hpass.
  vm_compute; reflexivity.
Defined.

(** X5: the [sock] of every [connect] call made for a tunnel specification
    is the proxy command of the SSH configuration for the host name of the
    specification, when there is one that is not empty and it can be
    started; no [sock] is passed, and the connection is attempted
    directly, when there is no configuration, when the configured port is
    not a number (and the specification has no port), and when the proxy
    command cannot be started. *)
Theorem connect_proxy_command `{PyLib} (env : Env) (host : string) (port : Z)
    (dsn_alias : option string) (s : state) (url : string)
    (tunnel_info : ParseResult) (p : option Z) (v : locals) :
  find_tunnel_url (mgr s) (Some host) dsn_alias = Ok (Some url) →
  url ≠ "" →
  urlparse (with_scheme url) = Ok tunnel_info →
  pr_port tunnel_info = Ok p →
  resolve env tunnel_info = Ok v →
  ∀ kw,
    kw ∈ connect_calls (new_events s (start_tunnel env host port dsn_alias s).2) →
    kw_sock kw = connect_proxy env tunnel_info p.
Proof.
  intros Hfind Hne Hparse Hport Hres kw Hkw.
  destruct (start_tunnel_connect env host port dsn_alias s url tunnel_info v
              Hfind Hne Hparse Hres) as [Hall _].
  apply Hall in Hkw as ->.
  destruct (resolve_fields env tunnel_info p v Hport Hres) as (_ & _ & Hproxy & _).
  change (l_ssh_proxy v = connect_proxy env tunnel_info p).
  rewrite Hproxy. apply configured_proxy.
Qed.

(** The proxy command of the configuration is the [sock] of the call; on a
    machine where it cannot be started there is none. *)
Lemma connect_proxy_command_witness :
  (∀ kw,
     kw ∈ connect_calls
            (new_events
               (Examples.initial (Examples.manager (Some "bastion") [] []))
               (start_tunnel (H:=python)
                  (Examples.machine Examples.home Sample.proxied_config)
                  "db.internal" 5432 None
                  (Examples.initial (Examples.manager (Some "bastion") [] []))).2) →
     kw_sock kw = Some {| proxy_command_line := "ssh -W %h:%p jump" |})
  ∧ connect_proxy (H:=python)
      (Examples.no_proxy (Examples.machine Examples.home Sample.proxied_config))
      (Sample.parsed "bastion") None
    = None.
Proof.
  split; [|vm_compute; reflexivity].
  intros kw Hkw.
  rewrite (connect_proxy_command (H:=python)
             (Examples.machine Examples.home Sample.proxied_config)
             "db.internal" 5432 None
             (Examples.initial (Examples.manager (Some "bastion") [] []))
             "bastion" (Sample.parsed "bastion") None
             (Sample.resolved (Examples.machine Examples.home Sample.proxied_config)
                "bastion")
             ltac:(vm_compute; reflexivity) ltac:(done) ltac:(vm_compute; reflexivity)
             ltac:(vm_compute; reflexivity) ltac:(vm_compute; reflexivity) kw Hkw).
  vm_compute; reflexivity.
Defined.

(** ** Options of the configuration file *)

(** What a call of [start_tunnel] adds to the trace. *)
Lemma start_tunnel_new_events `{PyLib} env host port dsn_alias s :
  (start_tunnel env host port dsn_alias s).2 = s
  ∨ ∃ tunnel_info v,
      (∃ evs message,
         evs `prefix_of` start_events (new_tunnel (mgr s) tunnel_info v host port)
         ∧ new_events s (start_tunnel env host port dsn_alias s).2
           = evs ++ [EvSecho message true "red"]
         ∧ tunnel (mgr (start_tunnel env host port dsn_alias s).2) = tunnel (mgr s))
      ∨ (new_events s (start_tunnel env host port dsn_alias s).2
         = start_events (new_tunnel (mgr s) tunnel_info v host port) ++ [EvAtexitRegister]
         ∧ tunnel (mgr (start_tunnel env host port dsn_alias s).2) ≠ None).
Proof.
  start_tunnel_inv env host port dsn_alias s; cbn [snd]; auto.
  - right. eexists _, _. left. eexists _, _. split; [done|].
    unfold new_events. cbn [trace]. by rewrite drop_app_length.
  - right. eexists _, _. right.
    unfold new_events. cbn [trace]. by rewrite drop_app_length.
Qed.

(** X6: the options of the section [ssh tunnels] reach the SSH client.
    For a manager made by [get_tunnel_manager_from_config], every
    [connect] call of [start_tunnel] has [allow_agent] true exactly when
    the value of the key [allow_agent], in lower case, is [true] (and when
    the key is missing); any other value disables the agent. Every host
    key policy set is the one that the value of [host_key_policy] names in
    lower case, [AutoAddPolicy] when the key is missing or names no
    policy. When the call leaves a tunnel, one policy was set and one
    [connect] call was made. *)
Theorem config_options_reach_client `{PyLib} (env : Env)
    (config : gmap string (dict string)) (explicit_url : option string)
    (host : string) (port : Z) (dsn_alias : option string)
    (objects : gmap loc NativeSSHTunnel) (past : list event) :
  (∀ kw,
     kw ∈ connect_calls
            (new_events
               (State (get_tunnel_manager_from_config config explicit_url) objects past)
               (start_tunnel env host port dsn_alias
                  (State (get_tunnel_manager_from_config config explicit_url)
                     objects past)).2) →
     kw_allow_agent kw
     = bool_decide
         (Str.lower
            (default "True"
               (dict_get "allow_agent" (default [] (config !! "ssh tunnels"))))
          = "true"))
  ∧ (∀ policy,
       policy ∈ policies_set
                  (new_events
                     (State (get_tunnel_manager_from_config config explicit_url)
                        objects past)
                     (start_tunnel env host port dsn_alias
                        (State (get_tunnel_manager_from_config config explicit_url)
                           objects past)).2) →
       policy
       = HOST_KEY_POLICIES_get
           (Str.lower
              (default "auto-add"
                 (dict_get "host_key_policy" (default [] (config !! "ssh tunnels"))))))
  ∧ (tunnel
       (mgr (start_tunnel env host port dsn_alias
               (State (get_tunnel_manager_from_config config explicit_url)
                  objects past)).2)
     ≠ None →
     length
       (connect_calls
          (new_events
             (State (get_tunnel_manager_from_config config explicit_url) objects past)
             (start_tunnel env host port dsn_alias
                (State (get_tunnel_manager_from_config config explicit_url)
                   objects past)).2))
     = 1%nat
     ∧ length
         (policies_set
            (new_events
               (State (get_tunnel_manager_from_config config explicit_url)
                  objects past)
               (start_tunnel env host port dsn_alias
                  (State (get_tunnel_manager_from_config config explicit_url)
                     objects past)).2))
       = 1%nat).
Proof.
  set (s := State (get_tunnel_manager_from_config config explicit_url) objects past).
  destruct (start_tunnel_new_events env host port dsn_alias s)
    as [->|(tunnel_info & v & [(evs & message & Hpre & -> & Hmgr)|[-> Hmgr]])].
  - assert (Hsame : new_events s s = []).
    { unfold new_events. by rewrite drop_all. }
    rewrite Hsame.
    split; [by intros ? ?%elem_of_nil|]. split; [by intros ? ?%elem_of_nil|].
    intros Hsome. by exfalso.
  - assert (Hsub : ∀ ev, ev ∈ evs ++ [EvSecho message true "red"] →
                         ev ∈ start_events (new_tunnel (mgr s) tunnel_info v host port)
                         ∨ ev = EvSecho message true "red").
    { intros ev [Hev|Hev%list_elem_of_singleton]%elem_of_app; [left|by right].
      destruct Hpre as [rest ->]. apply elem_of_app. by left. }
    split; [|split].
    + intros kw (ev & Hev & Hkw)%list_elem_of_omap.
      apply Hsub in Hev as [Hev| ->]; [|done].
      unfold start_events in Hev.
      repeat (apply elem_of_cons in Hev as [->|Hev]; [try done|]);
        [|by apply elem_of_nil in Hev].
      by injection Hkw as <-.
    + intros policy (ev & Hev & Hp)%list_elem_of_omap.
      apply Hsub in Hev as [Hev| ->]; [|done].
      unfold start_events in Hev.
      repeat (apply elem_of_cons in Hev as [->|Hev]; [try done|]);
        [|by apply elem_of_nil in Hev].
      by injection Hp as <-.
    + intros Hsome. exfalso. by rewrite Hmgr in Hsome.
  - split; [|split; [|done]].
    + intros kw ->%list_elem_of_singleton. done.
    + intros policy ->%list_elem_of_singleton. done.
Qed.

Lemma start_tunnel_without_sections `{PyLib} env config explicit_url host port dsn_alias
    objects past :
  default [] (config !! "ssh tunnels") = [] →
  default [] (config !! "dsn ssh tunnels") = [] →
  present explicit_url = None →
  start_tunnel env host port dsn_alias
    (State (get_tunnel_manager_from_config config explicit_url) objects past)
  = (Return (host, Some port),
     State (get_tunnel_manager_from_config config explicit_url) objects past).
Proof.
  intros Hhost Hdsn Hurl.
  set (s := State (get_tunnel_manager_from_config config explicit_url) objects past).
  assert (Hfind : find_tunnel_url (mgr s) (Some host) dsn_alias = Ok None).
  { apply find_tunnel_url_no_match; subst s; cbn [mgr]; [done|..].
    - intros alias _. unfold get_tunnel_manager_from_config, SSHTunnelManager_init.
      cbn [dsn_ssh_tunnel_config]. unfold dict in *. rewrite Hdsn. constructor.
    - intros h _. unfold get_tunnel_manager_from_config, SSHTunnelManager_init.
      cbn [ssh_tunnel_config]. unfold dict in *. rewrite Hhost. constructor. }
  start_tunnel_inv env host port dsn_alias s.
Qed.

(** X7: a configuration without the sections [ssh tunnels] and
    [dsn ssh tunnels], or with both empty, and no explicit specification
    make a manager whose [start_tunnel] returns [(host, port)] as given and
    does nothing else, for every host and alias; the agent is allowed and
    the policy is [auto-add]. *)
Theorem no_sections_no_tunnel `{PyLib} (env : Env)
    (config : gmap string (dict string)) (explicit_url : option string)
    (host : string) (port : Z) (dsn_alias : option string)
    (objects : gmap loc NativeSSHTunnel) (past : list event) :
  default [] (config !! "ssh tunnels") = [] →
  default [] (config !! "dsn ssh tunnels") = [] →
  present explicit_url = None →
  start_tunnel env host port dsn_alias
    (State (get_tunnel_manager_from_config config explicit_url) objects past)
  = (Return (host, Some port),
     State (get_tunnel_manager_from_config config explicit_url) objects past)
  ∧ allow_agent (get_tunnel_manager_from_config config explicit_url) = true
  ∧ host_key_policy (get_tunnel_manager_from_config config explicit_url)
    = "auto-add"%string.
Proof.
  intros Hhost Hdsn Hurl.
  split; [by apply start_tunnel_without_sections|].
  unfold get_tunnel_manager_from_config, SSHTunnelManager_init.
  cbn [allow_agent host_key_policy]. unfold dict in *. rewrite Hhost.
  split; vm_compute; reflexivity.
Qed.

Lemma no_sections_no_tunnel_witness :
  start_tunnel (H:=python) (Examples.machine Examples.home Examples.bastion_config)
    "db.prod.com" 5432 (Some "prod")
    (State (get_tunnel_manager_from_config ∅ None) ∅ [])
  = (Return ("db.prod.com"%string, Some 5432),
     State (get_tunnel_manager_from_config ∅ None) ∅ []).
Proof.
  apply (no_sections_no_tunnel (H:=python)
           (Examples.machine Examples.home Examples.bastion_config)
           ∅ None "db.prod.com" 5432 (Some "prod") ∅ []);
    reflexivity.
Defined.

(** ** More than one tunnel *)

(** X8: [start_tunnel] does not stop the tunnel that the manager holds.
    After two calls that each established a tunnel, the two objects are
    distinct and both active, and the manager references the second; a
    [stop_tunnel] then stops the second only (its events are those of the
    second tunnel's [stop]) and clears the reference, so that the first
    tunnel is still active and a further [stop_tunnel] does nothing. *)
Theorem second_tunnel_abandons_first `{PyLib} (env : Env)
    (host1 host2 : string) (port1 port2 : Z) (alias1 alias2 : option string)
    (s s1 s2 : state) (l1 l2 : loc) (t1 t2 : NativeSSHTunnel) :
  established env host1 port1 alias1 s s1 l1 t1 →
  established env host2 port2 alias2 s1 s2 l2 t2 →
  l1 ≠ l2
  ∧ heap s2 !! l1 = Some t1
  ∧ is_active t1 = true
  ∧ is_active t2 = true
  ∧ tunnel (mgr s2) = Some l2
  ∧ (stop_tunnel s2).1 = Return ()
  ∧ tunnel (mgr (stop_tunnel s2).2) = None
  ∧ heap (stop_tunnel s2).2 !! l1 = Some t1
  ∧ (is_active <$> heap (stop_tunnel s2).2 !! l2) = Some false
  ∧ new_events s2 (stop_tunnel s2).2 = stop_events t2
  ∧ stop_tunnel (stop_tunnel s2).2 = (Return (), (stop_tunnel s2).2).
Proof.
  intros (i1 & v1 & p1 & Hl1 & Ht1 & _ & _ & Hs1)%established_inv
         (i2 & v2 & p2 & Hl2 & Ht2 & _ & _ & Hs2)%established_inv.
  assert (Hne : l1 ≠ l2).
  { intros Heq. pose proof (is_fresh (dom (heap s1))) as Hfresh.
    rewrite <- Hl2, <- Heq in Hfresh. apply Hfresh.
    rewrite Hs1. cbn [heap]. rewrite dom_insert. set_solver. }
  assert (Hh1 : heap s1 !! l1 = Some t1).
  { rewrite Hs1. cbn [heap]. by rewrite lookup_insert_eq. }
  assert (Hh2 : heap s2 !! l1 = Some t1).
  { rewrite Hs2. cbn [heap]. by rewrite lookup_insert_ne. }
  assert (Hm2 : tunnel (mgr s2) = Some l2) by (by rewrite Hs2).
  assert (Hobj : heap s2 !!! l2 = t2).
  { rewrite Hs2. cbn [heap]. by rewrite lookup_total_insert_eq. }
  assert (Ha1 : is_active t1 = true) by (by rewrite Ht1).
  assert (Ha2 : is_active t2 = true) by (by rewrite Ht2).
  rewrite (stop_tunnel_active s2 l2 Hm2) by (by rewrite Hobj).
  rewrite Hobj. cbn [fst snd mgr heap trace set_tunnel tunnel].
  do 7 (split; [done|]).
  split; [by rewrite lookup_insert_ne|].
  split; [by rewrite lookup_insert_eq|].
  split; [unfold new_events; cbn [trace]; by rewrite drop_app_length|].
  by apply stop_tunnel_idle.
Qed.

Lemma second_tunnel_abandons_first_witness :
  heap (stop_tunnel Sample.twice).2 !! 0%nat = Some (heap Sample.once !!! 0%nat)
  ∧ is_active (heap Sample.once !!! 0%nat) = true
  ∧ tunnel (mgr (stop_tunnel Sample.twice).2) = None.
Proof.
  destruct (second_tunnel_abandons_first (H:=python)
              (Examples.machine Examples.home Examples.bastion_config)
              "db.prod.com" "db.prod.com" 5432 5432 None None
              Sample.rules Sample.once Sample.twice 0%nat 1%nat
              (heap Sample.once !!! 0%nat) (heap Sample.twice !!! 1%nat))
    as (_ & _ & Hactive & _ & _ & _ & Hnone & Hstill & _).
  - exists ("127.0.0.1"%string, Some 40001).
    split; [vm_compute; reflexivity|]. split; [vm_compute; reflexivity|].
    split; vm_compute; reflexivity.
  - exists ("127.0.0.1"%string, Some 40001).
    split; [vm_compute; reflexivity|]. split; [vm_compute; reflexivity|].
    split; vm_compute; reflexivity.
  - split; [exact Hstill|]. split; [exact Hactive|exact Hnone].
Defined.

(** X9: a [start_tunnel] that fails leaves behind what it had opened.
    When the call ends in [SystemExit], no SSH client is closed and no
    server is shut down during the call, and the manager does not
    reference the object that failed: a [stop_tunnel] on a manager that
    held no tunnel before does nothing. *)
Theorem failed_start_is_not_cleaned_up `{PyLib} (env : Env) (host : string) (port : Z)
    (dsn_alias : option string) (s : state) (code : Z) :
  (start_tunnel env host port dsn_alias s).1 = SystemExit code →
  (∀ client, EvClientClose client ∉ new_events s (start_tunnel env host port dsn_alias s).2)
  ∧ (∀ server,
       EvServerShutdown server ∉ new_events s (start_tunnel env host port dsn_alias s).2)
  ∧ (tunnel (mgr s) = None →
     stop_tunnel (start_tunnel env host port dsn_alias s).2
     = (Return (), (start_tunnel env host port dsn_alias s).2)).
Proof.
  start_tunnel_inv env host port dsn_alias s; cbn [fst snd]; try done.
  intros _.
  match goal with Hp : _ `prefix_of` _ |- _ =>
    apply prefix_of_start_events_no_atexit in Hp as (_ & Hclose & Hshut) end.
  unfold new_events. cbn [trace]. rewrite drop_app_length.
  split; [|split].
  - intros client [Hin|Hin%list_elem_of_singleton]%elem_of_app; [|discriminate].
    by apply Hclose in Hin.
  - intros server [Hin|Hin%list_elem_of_singleton]%elem_of_app; [|discriminate].
    by apply Hshut in Hin.
  - intros Hnone. apply stop_tunnel_idle. cbn [mgr]. intros l. by rewrite Hnone.
Qed.

(** The connection to the bastion is made, no listener can be bound: the
    call exits and the connection is left open. *)
Lemma failed_start_is_not_cleaned_up_witness :
  connect_calls
    (new_events
       (Examples.initial (Examples.manager (Some "bastion") [] []))
       (start_tunnel (H:=python)
          (Sample.no_listener (Examples.machine Examples.home Examples.no_config))
          "db.internal" 5432 None
          (Examples.initial (Examples.manager (Some "bastion") [] []))).2)
  ≠ []
  ∧ ∀ client,
      EvClientClose client
      ∉ new_events
          (Examples.initial (Examples.manager (Some "bastion") [] []))
          (start_tunnel (H:=python)
             (Sample.no_listener (Examples.machine Examples.home Examples.no_config))
             "db.internal" 5432 None
             (Examples.initial (Examples.manager (Some "bastion") [] []))).2.
Proof.
  split; [by vm_compute|].
  apply (failed_start_is_not_cleaned_up (H:=python)
           (Sample.no_listener (Examples.machine Examples.home Examples.no_config))
           "db.internal" 5432 None
           (Examples.initial (Examples.manager (Some "bastion") [] [])) 1).
  vm_compute; reflexivity.
Defined.

(** ** The relay loop *)

Lemma relay_app_left rounds more :
  (relay rounds).2 = true → relay (rounds ++ more) = relay rounds.
Proof.
  induction rounds as [|[|request channel] rounds IH]; simpl; [done|done|].
  destruct (forward EvChannelSendall request) as [out1|]; [|done].
  destruct (forward EvRequestSendall channel) as [out2|]; [|done].
  destruct (relay rounds) as [rest left_loop]; simpl in *.
  intros ->. by rewrite IH.
Qed.

Lemma forward_channel_writes request out :
  forward EvChannelSendall request = Some out →
  channel_writes out = received request ∧ request_writes out = [].
Proof.
  destruct request as [[data| |data]|]; simpl; try done.
  - destruct (Str.truthy data); [|done]. by intros [= <-].
  - by intros [= <-].
Qed.

Lemma forward_request_writes channel out :
  forward EvRequestSendall channel = Some out →
  request_writes out = received channel ∧ channel_writes out = [].
Proof.
  destruct channel as [[data| |data]|]; simpl; try done.
  - destruct (Str.truthy data); [|done]. by intros [= <-].
  - by intros [= <-].
Qed.

Lemma forward_none_received send x :
  forward send x = None →
  received x = [] ∨ ∃ data, x = Some (SendFails data).
Proof.
  destruct x as [[data| |data]|]; simpl; try done; eauto.
  destruct (Str.truthy data); [done|by left].
Qed.

(** X10: the relay loop copies and never reorders, changes or invents
    data. What it writes to the channel is, in order, a prefix of the
    chunks that [recv] returns on the local socket, and what it writes to
    the local socket a prefix of the chunks received on the channel. While
    the loop has not been left, everything received has been written.
    Once it has been left (end of stream on either side, or an error)
    nothing more is written, whatever arrives. *)
Theorem relay_copies_in_order (rounds : list round) :
  channel_writes (relay rounds).1 `prefix_of` request_data rounds
  ∧ request_writes (relay rounds).1 `prefix_of` channel_data rounds
  ∧ ((relay rounds).2 = false →
     channel_writes (relay rounds).1 = request_data rounds
     ∧ request_writes (relay rounds).1 = channel_data rounds)
  ∧ ((relay rounds).2 = true → ∀ more, relay (rounds ++ more) = relay rounds).
Proof.
  split; [|split; [|split]]; [| | |intros Hleft more; by apply relay_app_left].
  - induction rounds as [|[|request channel] rounds IH]; simpl;
      [done|apply prefix_nil|].
    destruct (forward EvChannelSendall request) as [out1|] eqn:H1; [|apply prefix_nil].
    destruct (forward_channel_writes _ _ H1) as [Hc1 Hr1].
    destruct (forward EvRequestSendall channel) as [out2|] eqn:H2; simpl.
    + destruct (forward_request_writes _ _ H2) as [Hr2 Hc2].
      destruct (relay rounds) as [rest left_loop]; simpl in *.
      unfold channel_writes in *. rewrite !omap_app, Hc1, Hc2. simpl.
      by apply prefix_app.
    + rewrite Hc1. by apply prefix_app_r.
  - induction rounds as [|[|request channel] rounds IH]; simpl;
      [done|apply prefix_nil|].
    destruct (forward EvChannelSendall request) as [out1|] eqn:H1; [|apply prefix_nil].
    destruct (forward_channel_writes _ _ H1) as [Hc1 Hr1].
    destruct (forward EvRequestSendall channel) as [out2|] eqn:H2; simpl.
    + destruct (forward_request_writes _ _ H2) as [Hr2 Hc2].
      destruct (relay rounds) as [rest left_loop]; simpl in *.
      unfold request_writes in *. rewrite !omap_app, Hr1, Hr2. simpl.
      by apply prefix_app.
    + rewrite Hr1. apply prefix_nil.
  - induction rounds as [|[|request channel] rounds IH]; simpl; [done|done|].
    destruct (forward EvChannelSendall request) as [out1|] eqn:H1; [|done].
    destruct (forward_channel_writes _ _ H1) as [Hc1 Hr1].
    destruct (forward EvRequestSendall channel) as [out2|] eqn:H2; [|done].
    destruct (forward_request_writes _ _ H2) as [Hr2 Hc2].
    destruct (relay rounds) as [rest left_loop]; simpl in *.
    intros ->. destruct IH as [IHc IHr]; [done|].
    unfold channel_writes, request_writes in *.
    rewrite !omap_app, Hc1, Hc2, Hr1, Hr2, IHc, IHr. done.
Qed.

(** X11: the channel of a handler. When the channel cannot be opened (the
    call raises or the server rejects it) the handler does nothing but
    the attempt: no data moves and nothing is closed. When it is opened,
    the handler writes what the relay loop writes, opens no other channel,
    and closes the channel once, as its last action, when the loop is
    left, however it is left. *)
Theorem handler_channel_lifecycle (env : Env) (self : ForwardHandler)
    (peername : string * Z) (rounds : list round) (tr : Transport) :
  handler_ssh_transport self = Some tr →
  match open_channel env tr "direct-tcpip"
          (handler_remote_host self, handler_remote_port self) peername with
  | ChannelOpened =>
      handle env self peername rounds
      = EvOpenChannel tr "direct-tcpip"
          (handler_remote_host self, handler_remote_port self) peername
        :: (relay rounds).1 ++ (if (relay rounds).2 then [EvChannelClose] else [])
      ∧ (EvChannelClose ∉ (relay rounds).1)
      ∧ channel_destinations (relay rounds).1 = []
  | _ =>
      handle env self peername rounds
      = [EvOpenChannel tr "direct-tcpip"
           (handler_remote_host self, handler_remote_port self) peername]
  end.
Proof.
  intros Htr. unfold handle. rewrite Htr.
  destruct (open_channel env tr _ _ peername); [done|done|].
  split; [|split].
  - destruct (relay rounds) as [out left_loop]; simpl.
    destruct left_loop; [done|by rewrite app_nil_r].
  - intros [[data Hev]|[data Hev]]%relay_events; discriminate.
  - unfold channel_destinations.
    assert (Hall : ∀ evs,
               (∀ ev, ev ∈ evs → (∃ data, ev = EvChannelSendall data)
                                 ∨ (∃ data, ev = EvRequestSendall data)) →
               omap (λ ev, match ev with
                           | EvOpenChannel _ _ dest _ => Some dest
                           | _ => None
                           end) evs = []).
    { induction evs as [|ev evs IH]; [done|]. intros Hevs. simpl.
      destruct (Hevs ev) as [[data ->]|[data ->]]; [by left|..];
        apply IH; intros ev' Hev'; apply Hevs; by right. }
    apply Hall, relay_events.
Qed.

Lemma handler_channel_lifecycle_witness :
  handle (Examples.machine [] Examples.no_config)
    (Build_ForwardHandler
       (Some (Build_Transport
                (connect_kwargs
                   (NativeSSHTunnel_init (Some "bastion"%string) 22 "db.internal" 5432
                      (Some "alice"%string) None None true None "auto-add"))))
       "db.internal" 5432)
    ("127.0.0.1"%string, 53124)
    [Ready (Some (Recv "SELECT 1")) None; Ready None (Some (Recv "1"));
     Ready (Some (Recv "")) (Some (Recv "late"))]
  = [EvOpenChannel
       (Build_Transport
          (connect_kwargs
             (NativeSSHTunnel_init (Some "bastion"%string) 22 "db.internal" 5432
                (Some "alice"%string) None None true None "auto-add")))
       "direct-tcpip" ("db.internal"%string, 5432) ("127.0.0.1"%string, 53124);
     EvChannelSendall "SELECT 1"; EvRequestSendall "1"; EvChannelClose].
Proof.
  destruct (handler_channel_lifecycle (Examples.machine [] Examples.no_config)
              (Build_ForwardHandler
                 (Some (Build_Transport
                          (connect_kwargs
                             (NativeSSHTunnel_init (Some "bastion"%string) 22
                                "db.internal" 5432 (Some "alice"%string) None None
                                true None "auto-add"))))
                 "db.internal" 5432)
              ("127.0.0.1"%string, 53124)
              [Ready (Some (Recv "SELECT 1")) None; Ready None (Some (Recv "1"));
               Ready (Some (Recv "")) (Some (Recv "late"))]
              _ eq_refl) as (Hrun & _).
  rewrite Hrun. vm_compute; reflexivity.
Defined.

(** ** Facts on the string operations *)

Module PyFacts.

Lemma app_cons c s t : String c s +:+ t = String c (s +:+ t).
Proof. done. Qed.

Lemma app_empty_r s : s +:+ "" = s.
Proof. induction s as [|c s IH]; [done|]. by rewrite app_cons, IH. Qed.

Lemma prefix_app s t : String.prefix s (s +:+ t) = true.
Proof.
  induction s as [|c s IH]; [by destruct t|].
  rewrite app_cons. simpl. by destruct (ascii_dec c c).
Qed.

Lemma prefix_inv s t : String.prefix s t = true → ∃ r, t = s +:+ r.
Proof.
  revert t. induction s as [|c s IH]; intros t; [by exists t|].
  destruct t as [|c' t]; simpl; [done|].
  destruct (ascii_dec c c') as [<-|]; [|done].
  intros [r ->]%IH. by exists r.
Qed.

Lemma prefix_app_l sub a b :
  String.prefix sub a = true → String.prefix sub (a +:+ b) = true.
Proof.
  intros [r ->]%prefix_inv.
  assert (Hassoc : ∀ x y z, (x +:+ y) +:+ z = x +:+ (y +:+ z)).
  { intros x y z. induction x as [|c x IH]; [done|]. by rewrite !app_cons, IH. }
  rewrite Hassoc. apply prefix_app.
Qed.

Lemma contains_unfold sub s :
  Str.contains sub s
  = String.prefix sub s
    || match s with "" => false | String _ s' => Str.contains sub s' end.
Proof. by destruct s. Qed.

Lemma contains_prefix sub s : String.prefix sub s = true → Str.contains sub s = true.
Proof. intros Hp. by rewrite contains_unfold, Hp. Qed.

Lemma contains_app_r sub a b :
  Str.contains sub b = true → Str.contains sub (a +:+ b) = true.
Proof.
  intros Hb. induction a as [|c a IH]; [done|].
  rewrite app_cons, contains_unfold, IH. apply orb_true_r.
Qed.

Lemma contains_app_l sub a b :
  Str.contains sub a = true → Str.contains sub (a +:+ b) = true.
Proof.
  induction a as [|c a IH]; rewrite contains_unfold.
  - rewrite orb_false_r. intros Hp. apply contains_prefix. by apply prefix_app_l.
  - intros [Hp|Hc]%orb_true_iff.
    + apply contains_prefix. by apply prefix_app_l.
    + rewrite app_cons, contains_unfold, IH by done. apply orb_true_r.
Qed.

Lemma contains_join sub sep parts part :
  part ∈ parts → Str.contains sub part = true →
  Str.contains sub (Py.join sep parts) = true.
Proof.
  intros Hin Hc. induction parts as [|p parts IH]; [by apply elem_of_nil in Hin|].
  unfold Py.join in *. simpl.
  destruct parts as [|q parts].
  { apply elem_of_cons in Hin as [->|Hin]; [done|by apply elem_of_nil in Hin]. }
  apply elem_of_cons in Hin as [->|Hin].
  - by apply contains_app_l.
  - apply contains_app_r, contains_app_r. by apply IH.
Qed.

Lemma contains_empty sub : sub ≠ "" → Str.contains sub "" = false.
Proof. by destruct sub. Qed.

Lemma fields_cons is_sep s : ∃ field rest, Py.fields is_sep s = field :: rest.
Proof.
  induction s as [|c s (field & rest & IH)]; simpl; [eauto|].
  destruct (is_sep c); [eauto|]. rewrite IH. eauto.
Qed.

Lemma fields_word s : nospace s = true → Py.fields Py.isspace s = [s].
Proof.
  induction s as [|c s IH]; [done|]. unfold nospace. simpl.
  intros [Hc Hs]%andb_true_iff. apply negb_true_iff in Hc. rewrite Hc.
  by rewrite IH.
Qed.

Lemma fields_app_space p s :
  nospace p = true →
  Py.fields Py.isspace (p +:+ String " " s) = p :: Py.fields Py.isspace s.
Proof.
  induction p as [|c p IH]; [done|]. unfold nospace. simpl.
  intros [Hc Hp]%andb_true_iff. apply negb_true_iff in Hc.
  rewrite Hc. by rewrite IH.
Qed.

Lemma fields_join parts :
  parts ≠ [] → Forall (λ p, nospace p = true) parts →
  Py.fields Py.isspace (Py.join " " parts) = parts.
Proof.
  intros Hne Hall. induction Hall as [|p parts Hp Hall IH]; [done|].
  unfold Py.join in *. simpl. destruct parts as [|q parts].
  - by apply fields_word.
  - change (" " +:+ String.concat " " (q :: parts))
      with (String " " (String.concat " " (q :: parts))).
    rewrite fields_app_space by done. by rewrite IH.
Qed.

Lemma fields_nospace s : Forall (λ p, nospace p = true) (Py.fields Py.isspace s).
Proof.
  induction s as [|c s IH]; simpl; [by repeat constructor|].
  destruct (Py.isspace c) eqn:Hc; [by constructor|].
  destruct (Py.fields Py.isspace s) as [|field rest].
  { constructor; [|constructor]. unfold nospace. simpl. by rewrite Hc. }
  inversion_clear IH as [|? ? Hf Hrest]. constructor; [|done].
  unfold nospace in *. simpl. by rewrite Hc.
Qed.

Lemma split_whitespace_words s : Forall word (Py.split_whitespace s).
Proof.
  unfold Py.split_whitespace.
  induction (fields_nospace s) as [|p parts Hp _ IH]; simpl; [done|].
  destruct (Str.truthy p) eqn:Ht; [|done]. by constructor.
Qed.

(** [" ".join(parts).split()] gives the parts back. *)
Lemma split_whitespace_join parts :
  Forall word parts → Py.split_whitespace (Py.join " " parts) = parts.
Proof.
  intros Hall. destruct parts as [|p parts]; [done|].
  unfold Py.split_whitespace. rewrite fields_join; [|done|].
  - induction Hall as [|q qs [Hq _] _ IH]; simpl; [done|]. by rewrite Hq, IH.
  - eapply Forall_impl; [done|]. by intros q [_ Hq].
Qed.

Lemma prefix_fields sub s :
  nospace sub = true → String.prefix sub s = true →
  ∃ field rest, Py.fields Py.isspace s = field :: rest
                ∧ String.prefix sub field = true.
Proof.
  revert sub. induction s as [|c s IH]; intros [|a sub]; simpl; try done.
  - eauto.
  - intros _ _. destruct (fields_cons Py.isspace (String c s)) as (f & r & Hf).
    simpl in Hf. rewrite Hf. exists f, r. split; [done|]. by destruct f.
  - unfold nospace. simpl. intros [Ha Hsub]%andb_true_iff.
    destruct (ascii_dec a c) as [<-|]; [|done]. intros Hp.
    apply negb_true_iff in Ha. rewrite Ha.
    destruct (IH sub Hsub Hp) as (f & r & -> & Hpf).
    exists (String a f), r. split; [done|]. simpl. by destruct (ascii_dec a a).
Qed.

(** A text without white space that occurs in [s] occurs in one of the
    parts of [s.split()]. *)
Lemma contains_split_whitespace sub s :
  sub ≠ "" → nospace sub = true → Str.contains sub s = true →
  ∃ part, part ∈ Py.split_whitespace s ∧ Str.contains sub part = true.
Proof.
  intros Hne Hsub Hc.
  assert (Hfield : ∃ part, part ∈ Py.fields Py.isspace s
                           ∧ Str.contains sub part = true).
  { induction s as [|c s IH].
    { by rewrite contains_empty in Hc. }
    rewrite contains_unfold in Hc. apply orb_true_iff in Hc as [Hp|Hc].
    - destruct (prefix_fields sub _ Hsub Hp) as (f & r & Hf & Hpf).
      exists f. rewrite Hf. split; [by left|by apply contains_prefix].
    - destruct (IH Hc) as (part & Hin & Hpart). simpl.
      destruct (Py.isspace c).
      { exists part. split; [by right|done]. }
      destruct (Py.fields Py.isspace s) as [|f r]; [by apply elem_of_nil in Hin|].
      apply elem_of_cons in Hin as [->|Hin].
      + exists (String c f). split; [by left|].
        rewrite contains_unfold, Hpart. apply orb_true_r.
      + exists part. split; [by right|done]. }
  destruct Hfield as (part & Hin & Hpart). exists part. split; [|done].
  unfold Py.split_whitespace. apply list_elem_of_In, filter_In.
  split; [by apply list_elem_of_In|].
  destruct part; [by rewrite contains_empty in Hpart|done].
Qed.

Lemma forallb_app P s t :
  Str.forallb P (s +:+ t) = Str.forallb P s && Str.forallb P t.
Proof.
  induction s as [|c s IH]; [done|]. rewrite app_cons. simpl.
  by rewrite IH, andb_assoc.
Qed.

Lemma pretty_N_go_forallb P x s :
  (∀ d, P (pretty_N_char d) = true) → Str.forallb P s = true →
  Str.forallb P (pretty_N_go x s) = true.
Proof.
  intros Hdigit. revert s.
  induction (N.lt_wf_0 x) as [x _ IH]; intros s Hs.
  destruct (decide (x = 0)%N) as [->|Hx]; [by rewrite pretty_N_go_0|].
  rewrite pretty_N_go_step by lia. apply IH.
  - apply N.div_lt; lia.
  - simpl. by rewrite Hdigit, Hs.
Qed.

(** [str(n)] has no white space. *)
Lemma str_nospace n : nospace (Py.str n) = true.
Proof.
  assert (Hdigit : ∀ d, negb (Py.isspace (pretty_N_char d)) = true).
  { intros d. unfold pretty_N_char. by repeat case_match. }
  assert (Hpos : ∀ p, nospace (pretty (N.pos p)) = true).
  { intros p. unfold pretty, pretty_N. destruct (decide _); [done|].
    by apply pretty_N_go_forallb. }
  unfold Py.str, pretty, pretty_Z. destruct n as [|p|p]; [done|apply Hpos|].
  unfold nospace. rewrite forallb_app. apply andb_true_iff. split; [done|apply Hpos].
Qed.

End PyFacts.

(** ** The model of [int] accepts digits, signs, underscores and white space *)

Module IntFacts.

Lemma digits_numeric acc after_digit s n :
  Url.digits acc after_digit s = Some n → Str.forallb numeric s = true.
Proof.
  revert acc after_digit. induction s as [|c s IH]; intros acc after_digit; [done|].
  simpl. unfold numeric at 1. destruct (Str.is_digit c).
  { intros Hs%IH. by rewrite Hs. }
  destruct (decide (c = "_"%char)) as [->|]; [|done].
  destruct after_digit; [|done]. intros Hs%IH. by rewrite Hs.
Qed.

Lemma lstrip_numeric s :
  Str.forallb numeric (Url.lstrip s) = true → Str.forallb numeric s = true.
Proof.
  induction s as [|c s IH]; [done|]. simpl.
  destruct (Ascii.is_space c) eqn:Hc; [|done].
  intros Hs%IH. rewrite Hs. unfold numeric. rewrite Hc. by rewrite orb_true_r.
Qed.

Lemma rev_app_forallb P s t :
  Str.forallb P (String.rev_app s t) = Str.forallb P s && Str.forallb P t.
Proof.
  revert t. induction s as [|c s IH]; intros t; [done|]. simpl.
  rewrite IH. simpl. by destruct (P c), (Str.forallb P s).
Qed.

Lemma rev_forallb P s : Str.forallb P (String.rev s) = Str.forallb P s.
Proof. unfold String.rev. rewrite rev_app_forallb. simpl. apply andb_true_r. Qed.

Lemma strip_numeric s :
  Str.forallb numeric (Url.strip s) = true → Str.forallb numeric s = true.
Proof.
  unfold Url.strip. rewrite rev_forallb.
  intros Hs%lstrip_numeric. rewrite rev_forallb in Hs. by apply lstrip_numeric.
Qed.

Lemma int_numeric s n : Url.int s = Ok n → Str.forallb numeric s = true.
Proof.
  unfold Url.int. intros Hint. apply strip_numeric.
  destruct (Url.strip s) as [|c d]; [done|].
  assert (Hcases :
            (∃ m, Url.digits 0 false d = Some m ∧ numeric c = true)
            ∨ ∃ m, Url.digits 0 false (String c d) = Some m).
  { destruct (decide (c = "-"%char)) as [->|Hminus].
    { left. destruct (Url.digits 0 false d) as [m|]; [by exists m|done]. }
    destruct (decide (c = "+"%char)) as [->|Hplus].
    { left. destruct (Url.digits 0 false d) as [m|]; [by exists m|done]. }
    right.
    destruct c as [[] [] [] [] [] [] [] []];
      try (destruct (Url.digits 0 false _) as [m|]; [by exists m|done]);
      done. }
  destruct Hcases as [(m & Hd%digits_numeric & Hc)|(m & Hd%digits_numeric)]; [|done].
  simpl. by rewrite Hc, Hd.
Qed.

Lemma numeric_no_host s :
  Str.forallb numeric s = true → Str.contains "host=" s = false.
Proof.
  induction s as [|c s IH]; [done|]. simpl Str.forallb.
  intros [Hc Hs]%andb_true_iff. rewrite PyFacts.contains_unfold, (IH Hs).
  rewrite orb_false_r.
  destruct (String.prefix "host=" (String c s)) eqn:Hp; [|done].
  apply PyFacts.prefix_inv in Hp as [r Hr]. injection Hr as -> _.
  by vm_compute in Hc.
Qed.

(** [int] accepts no text in which [host=] occurs. *)
Lemma int_no_host s n : Url.int s = Ok n → Str.contains "host=" s = false.
Proof. intros Hint%int_numeric. by apply numeric_no_host. Qed.

End IntFacts.

(** * Properties of [dump.py] *)

(** Induction for a loop that moves by one or by two. *)
Lemma list_ind_two {A} (P : list A → Prop) :
  P [] →
  (∀ a l, P l → (∀ b l', l = b :: l' → P l') → P (a :: l)) →
  ∀ l, P l.
Proof.
  intros Hnil Hcons l.
  cut (P l ∧ ∀ b l', l = b :: l' → P l'); [by intros []|].
  induction l as [|a l [IH1 IH2]]; [by split|].
  split; [by apply Hcons|]. by intros b l' [= _ <-].
Qed.

(** ** [parse_connection_args] *)

Section ParseConnection.
Context `{PyLib}.

Lemma advances_refl st : advances [] st st.
Proof. unfold advances. by rewrite app_nil_r. Qed.

Lemma advances_trans args1 args2 st1 st2 st3 :
  advances args1 st1 st2 → advances args2 st2 st3 →
  advances (args1 ++ args2) st1 st3.
Proof.
  intros (Hr1 & Hh1 & Hp1 & Hhost1 & Hport1) (Hr2 & Hh2 & Hp2 & Hhost2 & Hport2).
  unfold advances. rewrite Hr2, Hr1, app_assoc.
  split; [done|]. split; [auto|]. split; [auto|]. split.
  - intros Hf. rewrite Hhost2 by done. apply Hhost1.
    destruct (c_has_host st2) eqn:Hb; [|done]. by rewrite Hh2 in Hf.
  - intros Hf. rewrite Hport2 by done. apply Hport1.
    destruct (c_has_port st2) eqn:Hb; [|done]. by rewrite Hp2 in Hf.
Qed.

Lemma connection_string_advances parts st st' :
  connection_string parts st = Ok st' → advances [] st st'.
Proof.
  revert st. induction parts as [|part parts IH]; intros st; simpl.
  - intros [= <-]. apply advances_refl.
  - destruct (String.prefix "host=" part).
    { intros Hrest%IH. apply (advances_trans [] [] _ (set_host (Py.after_equals part) st));
        [|done].
      unfold advances; simpl. by rewrite app_nil_r. }
    destruct (String.prefix "port=" part); [|apply IH].
    destruct (py_int _) as [port|]; [|done].
    intros Hrest%IH. apply (advances_trans [] [] _ (set_port port st)); [|done].
    unfold advances; simpl. by rewrite app_nil_r.
Qed.

Lemma connection_of_dbname_advances dbname st st' :
  connection_of_dbname dbname st = Ok st' → advances [] st st'.
Proof.
  unfold connection_of_dbname. destruct (Str.contains _ _).
  - apply connection_string_advances.
  - intros [= <-]. apply advances_refl.
Qed.

Lemma extend_advances args st st' :
  advances [] st st' → advances args st (extend args st').
Proof.
  intros Hst. apply (advances_trans [] args _ st'); [done|].
  by unfold advances.
Qed.

(** One turn appends the arguments that it moves over. *)
Lemma connection_body_advances arg next st st' two :
  connection_body arg next st = Ok (st', two) →
  if two then ∃ value, next = Some value ∧ advances [arg; value] st st'
  else advances [arg] st st'.
Proof.
  assert (Hset_host : ∀ value, advances [] st (set_host value st)).
  { intros value. unfold advances; simpl. by rewrite app_nil_r. }
  assert (Hset_port : ∀ port, advances [] st (set_port port st)).
  { intros port. unfold advances; simpl. by rewrite app_nil_r. }
  unfold connection_body. cbv zeta.
  set (dbname_option := if bool_decide (arg ∈ ["-d"; "--dbname"]) then _ else _).
  set (port_option := if bool_decide (arg ∈ ["-p"; "--port"]) then _ else _).
  assert (Hdb : dbname_option = Ok (st', two) →
                if two then ∃ value, next = Some value ∧ advances [arg; value] st st'
                else advances [arg] st st').
  { subst dbname_option. clear port_option.
    destruct (bool_decide (arg ∈ ["-d"; "--dbname"])).
    - destruct next as [dbname|].
      + destruct (connection_of_dbname dbname st) as [st1|] eqn:Hd; [|done].
        intros [= <- <-]. exists dbname. split; [done|].
        apply extend_advances. by eapply connection_of_dbname_advances.
      + intros [= <- <-]. apply extend_advances, advances_refl.
    - destruct (String.prefix "--dbname=" arg).
      + destruct (connection_of_dbname _ st) as [st1|] eqn:Hd; [|done].
        intros [= <- <-].
        apply extend_advances. by eapply connection_of_dbname_advances.
      + intros [= <- <-]. apply extend_advances, advances_refl. }
  assert (Hport : port_option = Ok (st', two) →
                  if two then ∃ value, next = Some value ∧ advances [arg; value] st st'
                  else advances [arg] st st').
  { subst port_option.
    destruct (bool_decide (arg ∈ ["-p"; "--port"])).
    - destruct next as [value|]; [|exact Hdb].
      destruct (py_int value) as [port|]; [|done].
      intros [= <- <-]. exists value. split; [done|].
      apply extend_advances, Hset_port.
    - destruct (String.prefix "--port=" arg); [|exact Hdb].
      destruct (py_int _) as [port|]; [|done].
      intros [= <- <-]. apply extend_advances, Hset_port. }
  clearbody port_option.
  destruct (bool_decide (arg ∈ ["-h"; "--host"])).
  - destruct next as [value|]; [|exact Hport].
    intros [= <- <-]. exists value. split; [done|].
    apply extend_advances, Hset_host.
  - destruct (String.prefix "--host=" arg); [|exact Hport].
    intros [= <- <-]. apply extend_advances, Hset_host.
Qed.

Lemma connection_loop_advances args st st' :
  connection_loop args st = Ok st' → advances args st st'.
Proof.
  revert st. induction args as [|arg rest IH1 IH2] using list_ind_two; intros st; simpl.
  { intros [= <-]. apply advances_refl. }
  destruct (connection_body arg (head rest) st) as [[st1 two]|] eqn:Hbody; [|done].
  apply connection_body_advances in Hbody. destruct two.
  - destruct Hbody as (value & Hnext & Hadv).
    destruct rest as [|value' rest']; [done|]. injection Hnext as ->.
    intros Hloop%(IH2 value rest' eq_refl).
    by apply (advances_trans [arg; value] rest' _ st1).
  - intros Hloop%IH1. by apply (advances_trans [arg] rest _ st1).
Qed.

End ParseConnection.

Lemma parse_connection_args_remaining `{PyLib} sys args host port remaining_args
    has_host has_port :
  parse_connection_args sys args = Ok (host, port, remaining_args, has_host, has_port) →
  remaining_args = args.
Proof.
  unfold parse_connection_args.
  destruct (match environ sys !! "PGPORT" with
            | Some value => py_int value
            | None => Ok 5432
            end) as [port0|]; [|done].
  destruct (connection_loop args _) as [st|] eqn:Hloop; [|done].
  intros [= <- <- <- <- <-].
  by apply connection_loop_advances in Hloop as (Hrem & _).
Qed.

(** X12: [parse_connection_args] removes nothing. When it returns, its
    [remaining_args] are the arguments it was given, connection options
    included. A host that no option gave is [PGHOST], or [localhost]; a
    port that no option gave is [int(PGPORT)], or 5432. *)
Theorem parse_connection_args_keeps_all `{PyLib} (sys : System) (args : list string)
    (host : string) (port : Z) (remaining_args : list string)
    (has_host has_port : bool) :
  parse_connection_args sys args = Ok (host, port, remaining_args, has_host, has_port) →
  remaining_args = args
  ∧ (has_host = false → host = default "localhost" (environ sys !! "PGHOST"))
  ∧ (has_port = false →
     match environ sys !! "PGPORT" with
     | Some value => py_int value = Ok port
     | None => port = 5432
     end).
Proof.
  unfold parse_connection_args.
  destruct (match environ sys !! "PGPORT" with
            | Some value => py_int value
            | None => Ok 5432
            end) as [port0|] eqn:Hport0; [|done].
  destruct (connection_loop args _) as [st|] eqn:Hloop; [|done].
  intros [= <- <- <- <- <-].
  apply connection_loop_advances in Hloop as (Hrem & _ & _ & Hhost & Hport).
  simpl in *. split; [done|]. split; [done|].
  intros Hf. rewrite (Hport Hf). destruct (environ sys !! "PGPORT"); [done|].
  by injection Hport0.
Qed.

Lemma parse_connection_args_keeps_all_witness :
  parse_connection_args (H:=python) DumpSample.bare
    ["-h"; "db.prod.com"; "--format=c"; "-d"; "shop"]
  = Ok ("db.prod.com"%string, 5432, ["-h"; "db.prod.com"; "--format=c"; "-d"; "shop"]%string,
        true, false).
Proof.
  destruct (parse_connection_args (H:=python) DumpSample.bare
              ["-h"; "db.prod.com"; "--format=c"; "-d"; "shop"])
    as [[[[[host port] remaining] has_host] has_port]|] eqn:Hparse;
    [|by vm_compute in Hparse].
  destruct (parse_connection_args_keeps_all (H:=python) _ _ _ _ _ _ _ Hparse)
    as (-> & _ & _).
  vm_compute in Hparse. by injection Hparse as <- <- <- <-.
Defined.

(** ** [build_tunneled_args] against [parse_connection_args] *)

Section RoundTrip.
Context `{PyLib}.
Variable tunnel_host : string.
Variable tunnel_port : Z.

(** [int(str(n)) == n] for the port of the tunnel. *)
Hypothesis int_str : py_int (Py.str tunnel_port) = Ok tunnel_port.
(** [int] accepts no text with an equals sign. *)
Hypothesis int_no_equals : ∀ s n, py_int s = Ok n → Str.contains "host=" s = false.
Hypothesis host_nospace : nospace tunnel_host = true.

Lemma retargeted_extend xs ys a b :
  retargeted tunnel_host tunnel_port a b →
  retargeted tunnel_host tunnel_port (extend xs a) (extend ys b).
Proof. by intros (? & ? & ? & ?). Qed.

Lemma retargeted_set_host v a b :
  retargeted tunnel_host tunnel_port a b →
  retargeted tunnel_host tunnel_port (set_host v a) (set_host tunnel_host b).
Proof. intros (? & ? & ? & ?). by repeat split. Qed.

Lemma retargeted_set_port n a b :
  retargeted tunnel_host tunnel_port a b →
  retargeted tunnel_host tunnel_port (set_port n a) (set_port tunnel_port b).
Proof. intros (? & ? & ? & ?). by repeat split. Qed.

Lemma retargeted_host a b :
  retargeted tunnel_host tunnel_port a b →
  retargeted tunnel_host tunnel_port a (set_host tunnel_host b).
Proof. intros (? & ? & ? & ?). by repeat split. Qed.

Lemma retargeted_port a b :
  retargeted tunnel_host tunnel_port a b →
  retargeted tunnel_host tunnel_port a (set_port tunnel_port b).
Proof. intros (? & ? & ? & ?). by repeat split. Qed.

Lemma after_equals_app key v :
  Str.contains "=" key = false → Py.after_equals (key +:+ "=" +:+ v) = v.
Proof.
  unfold Py.after_equals. induction key as [|c key IH]; [done|].
  rewrite PyFacts.contains_unfold. intros [Hc Hkey]%orb_false_iff.
  rewrite PyFacts.app_cons. simpl. destruct (decide (c = "="%char)) as [->|Hne].
  { simpl in Hc. by destruct key. }
  specialize (IH Hkey). by destruct (Str.partition "=" (key +:+ "=" +:+ v)) as [[? ?] ?].
Qed.

Lemma after_equals_host v : Py.after_equals ("host=" +:+ v) = v.
Proof. exact (after_equals_app "host" v eq_refl). Qed.

Lemma after_equals_port v : Py.after_equals ("port=" +:+ v) = v.
Proof. exact (after_equals_app "port" v eq_refl). Qed.

Lemma after_equals_host_option v : Py.after_equals ("--host=" +:+ v) = v.
Proof. exact (after_equals_app "--host" v eq_refl). Qed.

Lemma after_equals_port_option v : Py.after_equals ("--port=" +:+ v) = v.
Proof. exact (after_equals_app "--port" v eq_refl). Qed.

Lemma after_equals_dbname_option v : Py.after_equals ("--dbname=" +:+ v) = v.
Proof. exact (after_equals_app "--dbname" v eq_refl). Qed.

Lemma connection_string_retargeted parts a a' b :
  connection_string parts a = Ok a' → retargeted tunnel_host tunnel_port a b →
  ∃ b', connection_string (tunneled_parts parts tunnel_host (Some tunnel_port)) b = Ok b'
        ∧ retargeted tunnel_host tunnel_port a' b'.
Proof.
  revert a b. induction parts as [|part parts IH]; intros a b; simpl.
  { intros [= <-] Hab. by exists b. }
  destruct (String.prefix "host=" part) eqn:Hh.
  - intros Hrest Hab.
    rewrite (PyFacts.prefix_app "host=" tunnel_host).
    rewrite after_equals_host.
    apply (IH _ _ Hrest). by apply retargeted_set_host.
  - destruct (String.prefix "port=" part) eqn:Hp.
    + destruct (py_int (Py.after_equals part)) as [n|]; [|done].
      intros Hrest Hab.
      assert (Hnot : String.prefix "host=" ("port=" +:+ Py.str tunnel_port) = false)
        by done.
      rewrite Hnot.
      rewrite (PyFacts.prefix_app "port=" (Py.str tunnel_port)).
      rewrite after_equals_port.
      cbn [Py.str_optional]. rewrite int_str.
      apply (IH _ _ Hrest). by apply retargeted_set_port.
    + intros Hrest Hab. rewrite Hh, Hp. by apply (IH _ _ Hrest).
Qed.

Lemma port_part_int parts a a' part :
  connection_string parts a = Ok a' → part ∈ parts →
  String.prefix "host=" part = false → String.prefix "port=" part = true →
  ∃ n, py_int (Py.after_equals part) = Ok n.
Proof.
  revert a. induction parts as [|p parts IH]; intros a; simpl.
  { by intros _ ?%elem_of_nil. }
  intros Hrest [->|Hin]%elem_of_cons Hh Hp.
  - rewrite Hh, Hp in Hrest.
    destruct (py_int (Py.after_equals p)) as [n|]; [eauto|done].
  - destruct (String.prefix "host=" p); [by eapply IH|].
    destruct (String.prefix "port=" p); [|by eapply IH].
    destruct (py_int (Py.after_equals p)); [by eapply IH|done].
Qed.

Lemma tunneled_parts_words parts :
  Forall word parts →
  Forall word (tunneled_parts parts tunnel_host (Some tunnel_port)).
Proof.
  unfold tunneled_parts. intros Hall. apply Forall_fmap.
  eapply Forall_impl; [done|]. intros part Hpart. simpl.
  destruct (String.prefix "host=" part).
  { split; [done|]. unfold nospace in *. rewrite PyFacts.forallb_app.
    by rewrite host_nospace. }
  destruct (String.prefix "port=" part); [|done].
  split; [done|]. unfold nospace. rewrite PyFacts.forallb_app.
  apply andb_true_iff. split; [done|]. apply PyFacts.str_nospace.
Qed.

Lemma connection_of_dbname_retargeted dbname a a' b :
  Str.contains "host=" dbname = true →
  connection_of_dbname dbname a = Ok a' → retargeted tunnel_host tunnel_port a b →
  ∃ b',
    connection_of_dbname
      (Py.join " "
         (tunneled_parts (Py.split_whitespace dbname) tunnel_host (Some tunnel_port))) b
    = Ok b'
    ∧ retargeted tunnel_host tunnel_port a' b'.
Proof.
  intros Hc. unfold connection_of_dbname. rewrite Hc. intros Hparts Hab.
  set (parts := Py.split_whitespace dbname) in *.
  assert (Hcontains :
            Str.contains "host="
              (Py.join " " (tunneled_parts parts tunnel_host (Some tunnel_port)))
            = true).
  { destruct (PyFacts.contains_split_whitespace "host=" dbname) as (part & Hin & Hpart);
      [done..|].
    fold parts in Hin.
    apply (PyFacts.contains_join _ _ _
             (if String.prefix "host=" part then "host=" +:+ tunnel_host
              else if String.prefix "port=" part then "port=" +:+ Py.str tunnel_port
              else part)).
    { unfold tunneled_parts. apply list_elem_of_fmap. by exists part. }
    destruct (String.prefix "host=" part) eqn:Hh.
    { apply PyFacts.contains_prefix, PyFacts.prefix_app. }
    destruct (String.prefix "port=" part) eqn:Hp; [|done].
    exfalso.
    destruct (port_part_int _ _ _ _ Hparts Hin Hh Hp) as [n Hn].
    apply int_no_equals in Hn.
    apply PyFacts.prefix_inv in Hp as [rest ->].
    rewrite after_equals_port in Hn.
    assert (Hsame : Str.contains "host=" ("port=" +:+ rest) = Str.contains "host=" rest)
      by (by destruct rest).
    congruence. }
  rewrite Hcontains.
  rewrite PyFacts.split_whitespace_join
    by apply tunneled_parts_words, PyFacts.split_whitespace_words.
  by apply connection_string_retargeted with a.
Qed.

(** *** One turn of the loops, by the kind of argument *)

Lemma connection_loop_two arg value rest st st1 :
  connection_body arg (Some value) st = Ok (st1, true) →
  connection_loop (arg :: value :: rest) st = connection_loop rest st1.
Proof. intros Hbody. simpl. by rewrite Hbody. Qed.

Lemma connection_loop_one arg rest st st1 :
  connection_body arg (head rest) st = Ok (st1, false) →
  connection_loop (arg :: rest) st = connection_loop rest st1.
Proof. intros Hbody. simpl. by rewrite Hbody. Qed.

Lemma tunneled_loop_two arg rest new :
  tunneled_body arg (head rest) tunnel_host (Some tunnel_port) = (new, true) →
  tunneled_loop (arg :: rest) tunnel_host (Some tunnel_port)
  = new ++ tunneled_loop (tail rest) tunnel_host (Some tunnel_port).
Proof. intros Hbody. simpl. rewrite Hbody. by destruct rest. Qed.

Lemma tunneled_loop_one arg rest new :
  tunneled_body arg (head rest) tunnel_host (Some tunnel_port) = (new, false) →
  tunneled_loop (arg :: rest) tunnel_host (Some tunnel_port)
  = new ++ tunneled_loop rest tunnel_host (Some tunnel_port).
Proof. intros Hbody. simpl. by rewrite Hbody. Qed.

Lemma body_host arg value st :
  bool_decide (arg ∈ ["-h"; "--host"]) = true →
  connection_body arg (Some value) st
  = Ok (extend [arg; value] (set_host value st), true).
Proof. intros Hh. unfold connection_body. by rewrite Hh. Qed.

Lemma body_host_equals arg next st :
  bool_decide (arg ∈ ["-h"; "--host"]) = false →
  String.prefix "--host=" arg = true →
  connection_body arg next st
  = Ok (extend [arg] (set_host (Py.after_equals arg) st), false).
Proof. intros Hh Hhe. unfold connection_body. by rewrite Hh, Hhe. Qed.

Lemma body_port arg value st :
  bool_decide (arg ∈ ["-h"; "--host"]) = false →
  String.prefix "--host=" arg = false →
  bool_decide (arg ∈ ["-p"; "--port"]) = true →
  connection_body arg (Some value) st
  = match py_int value with
    | Ok port => Ok (extend [arg; value] (set_port port st), true)
    | Err e => Err e
    end.
Proof. intros Hh Hhe Hp. unfold connection_body. by rewrite Hh, Hhe, Hp. Qed.

Lemma body_port_equals arg next st :
  bool_decide (arg ∈ ["-h"; "--host"]) = false →
  String.prefix "--host=" arg = false →
  bool_decide (arg ∈ ["-p"; "--port"]) = false →
  String.prefix "--port=" arg = true →
  connection_body arg next st
  = match py_int (Py.after_equals arg) with
    | Ok port => Ok (extend [arg] (set_port port st), false)
    | Err e => Err e
    end.
Proof. intros Hh Hhe Hp Hpe. unfold connection_body. by rewrite Hh, Hhe, Hp, Hpe. Qed.

Lemma body_dbname arg dbname st :
  bool_decide (arg ∈ ["-h"; "--host"]) = false →
  String.prefix "--host=" arg = false →
  bool_decide (arg ∈ ["-p"; "--port"]) = false →
  String.prefix "--port=" arg = false →
  bool_decide (arg ∈ ["-d"; "--dbname"]) = true →
  connection_body arg (Some dbname) st
  = match connection_of_dbname dbname st with
    | Ok st' => Ok (extend [arg; dbname] st', true)
    | Err e => Err e
    end.
Proof.
  intros Hh Hhe Hp Hpe Hd. unfold connection_body. by rewrite Hh, Hhe, Hp, Hpe, Hd.
Qed.

Lemma body_dbname_equals arg next st :
  bool_decide (arg ∈ ["-h"; "--host"]) = false →
  String.prefix "--host=" arg = false →
  bool_decide (arg ∈ ["-p"; "--port"]) = false →
  String.prefix "--port=" arg = false →
  bool_decide (arg ∈ ["-d"; "--dbname"]) = false →
  String.prefix "--dbname=" arg = true →
  connection_body arg next st
  = match connection_of_dbname (Py.after_equals arg) st with
    | Ok st' => Ok (extend [arg] st', false)
    | Err e => Err e
    end.
Proof.
  intros Hh Hhe Hp Hpe Hd Hde. unfold connection_body.
  by rewrite Hh, Hhe, Hp, Hpe, Hd, Hde.
Qed.

Lemma body_other arg next st :
  bool_decide (arg ∈ ["-h"; "--host"]) = false →
  String.prefix "--host=" arg = false →
  bool_decide (arg ∈ ["-p"; "--port"]) = false →
  String.prefix "--port=" arg = false →
  bool_decide (arg ∈ ["-d"; "--dbname"]) = false →
  String.prefix "--dbname=" arg = false →
  connection_body arg next st = Ok (extend [arg] st, false).
Proof.
  intros Hh Hhe Hp Hpe Hd Hde. unfold connection_body.
  by rewrite Hh, Hhe, Hp, Hpe, Hd, Hde.
Qed.

(** An option at the end, without its value. *)
Lemma body_dangling arg st :
  arg ∈ ["-h"; "--host"; "-p"; "--port"; "-d"; "--dbname"] →
  connection_body arg None st = Ok (extend [arg] st, false).
Proof.
  intros Hin.
  repeat (apply elem_of_cons in Hin as [->|Hin]; [reflexivity|]).
  by apply elem_of_nil in Hin.
Qed.

Lemma tunneled_host arg next :
  bool_decide (arg ∈ ["-h"; "--host"]) = true →
  tunneled_body arg next tunnel_host (Some tunnel_port) = (["-h"; tunnel_host], true).
Proof. intros Hh. unfold tunneled_body. by rewrite Hh. Qed.

Lemma tunneled_host_equals arg next :
  bool_decide (arg ∈ ["-h"; "--host"]) = false →
  String.prefix "--host=" arg = true →
  tunneled_body arg next tunnel_host (Some tunnel_port)
  = (["--host=" +:+ tunnel_host], false).
Proof. intros Hh Hhe. unfold tunneled_body. by rewrite Hh, Hhe. Qed.

Lemma tunneled_port arg next :
  bool_decide (arg ∈ ["-h"; "--host"]) = false →
  String.prefix "--host=" arg = false →
  bool_decide (arg ∈ ["-p"; "--port"]) = true →
  tunneled_body arg next tunnel_host (Some tunnel_port)
  = (["-p"; Py.str tunnel_port], true).
Proof. intros Hh Hhe Hp. unfold tunneled_body. by rewrite Hh, Hhe, Hp. Qed.

Lemma tunneled_port_equals arg next :
  bool_decide (arg ∈ ["-h"; "--host"]) = false →
  String.prefix "--host=" arg = false →
  bool_decide (arg ∈ ["-p"; "--port"]) = false →
  String.prefix "--port=" arg = true →
  tunneled_body arg next tunnel_host (Some tunnel_port)
  = (["--port=" +:+ Py.str tunnel_port], false).
Proof. intros Hh Hhe Hp Hpe. unfold tunneled_body. by rewrite Hh, Hhe, Hp, Hpe. Qed.

Lemma tunneled_rest arg next :
  bool_decide (arg ∈ ["-h"; "--host"]) = false →
  String.prefix "--host=" arg = false →
  bool_decide (arg ∈ ["-p"; "--port"]) = false →
  String.prefix "--port=" arg = false →
  tunneled_body arg next tunnel_host (Some tunnel_port)
  = if bool_decide (arg ∈ ["-d"; "--dbname"]) then
      match next with
      | Some dbname =>
          if Str.contains "host=" dbname then
            (["-d";
              Py.join " " (tunneled_parts (Py.split_whitespace dbname)
                             tunnel_host (Some tunnel_port))], true)
          else (["-d"; dbname], true)
      | None => ([arg], false)
      end
    else if String.prefix "--dbname=" arg then
      if Str.contains "host=" (Py.after_equals arg) then
        (["--dbname=" +:+
          Py.join " " (tunneled_parts (Py.split_whitespace (Py.after_equals arg))
                         tunnel_host (Some tunnel_port))], false)
      else ([arg], false)
    else ([arg], false).
Proof. intros Hh Hhe Hp Hpe. unfold tunneled_body. by rewrite Hh, Hhe, Hp, Hpe. Qed.

(** The tests on the arguments that [build_tunneled_args] makes. *)
Lemma option_equals_tests key v :
  key ∈ ["--host"; "--port"; "--dbname"] →
  bool_decide (key +:+ "=" +:+ v ∈ ["-h"; "--host"]) = false
  ∧ bool_decide (key +:+ "=" +:+ v ∈ ["-p"; "--port"]) = false
  ∧ bool_decide (key +:+ "=" +:+ v ∈ ["-d"; "--dbname"]) = false
  ∧ String.prefix (key +:+ "=") (key +:+ "=" +:+ v) = true.
Proof.
  intros Hkey.
  assert (Hnot : ∀ option,
             option ∈ ["-h"; "--host"; "-p"; "--port"; "-d"; "--dbname"] →
             key +:+ "=" +:+ v ≠ option).
  { intros option Hin Heq.
    repeat (apply elem_of_cons in Hkey as [->|Hkey];
            [repeat (apply elem_of_cons in Hin as [->|Hin]; [discriminate Heq|]);
             by apply elem_of_nil in Hin|]).
    by apply elem_of_nil in Hkey. }
  assert (Hnone : ∀ o1 o2,
             o1 ∈ ["-h"; "--host"; "-p"; "--port"; "-d"; "--dbname"] →
             o2 ∈ ["-h"; "--host"; "-p"; "--port"; "-d"; "--dbname"] →
             bool_decide (key +:+ "=" +:+ v ∈ [o1; o2]) = false).
  { intros o1 o2 H1 H2. apply bool_decide_eq_false_2.
    intros [Heq|[Heq|Hin%elem_of_nil]%elem_of_cons]%elem_of_cons; [| |done].
    - by apply (Hnot o1).
    - by apply (Hnot o2). }
  rewrite !Hnone by (apply list_elem_of_In; simpl; tauto). repeat split.
  replace (key +:+ "=" +:+ v) with ((key +:+ "=") +:+ v); [apply PyFacts.prefix_app|].
  clear. induction key as [|c key IH]; [done|]. by rewrite !PyFacts.app_cons, IH.
Qed.

(** *** The loop of [parse_connection_args] over the new arguments *)

Lemma ends_with_dbname_cons arg x rest :
  ends_with_dbname (arg :: x :: rest) ↔ ends_with_dbname (x :: rest).
Proof. done. Qed.

Lemma not_ends_with_dbname_tail arg rest (suffix : list string) :
  ¬ ends_with_dbname (arg :: rest) ∨ suffix = [] →
  ¬ ends_with_dbname rest ∨ suffix = [].
Proof.
  intros [Hend | ->]; [|by right]. left. destruct rest as [|x rest].
  - by intros [?|?].
  - by rewrite <- (ends_with_dbname_cons arg).
Qed.

Lemma dbname_option_inv arg :
  bool_decide (arg ∈ ["-d"; "--dbname"]) = true → ends_with_dbname [arg].
Proof.
  intros [->|[->|?%elem_of_nil]%elem_of_cons]%bool_decide_eq_true%elem_of_cons;
    [by left|by right|done].
Qed.

Lemma connection_of_dbname_plain dbname st :
  Str.contains "host=" dbname = false → connection_of_dbname dbname st = Ok st.
Proof. intros Hc. unfold connection_of_dbname. by rewrite Hc. Qed.

Lemma tunneled_loop_parsed args :
  ∀ a a' b suffix,
    connection_loop args a = Ok a' →
    retargeted tunnel_host tunnel_port a b →
    ¬ ends_with_dbname args ∨ suffix = [] →
    ∃ b',
      connection_loop (tunneled_loop args tunnel_host (Some tunnel_port) ++ suffix) b
      = connection_loop suffix b'
      ∧ retargeted tunnel_host tunnel_port a' b'.
Proof.
  induction args as [|arg rest IH1 IH2] using list_ind_two;
    intros a a' b suffix Hloop Hab Hend.
  { injection Hloop as <-. by exists b. }
  pose proof (not_ends_with_dbname_tail _ _ _ Hend) as Hend1.
  assert (Hend2 : ∀ value rest', rest = value :: rest' →
                                 ¬ ends_with_dbname rest' ∨ suffix = []).
  { intros value rest' ->. by eapply not_ends_with_dbname_tail. }
  cbn [connection_loop] in Hloop.
  destruct (bool_decide (arg ∈ ["-h"; "--host"])) eqn:Hh.
  { (* -h, --host *)
    rewrite (tunneled_loop_two arg rest _ (tunneled_host arg (head rest) Hh)).
    rewrite <- app_assoc. cbn [app].
    rewrite (connection_loop_two "-h" tunnel_host _ b _ (body_host "-h" tunnel_host b eq_refl)).
    destruct rest as [|value rest'].
    - rewrite body_dangling in Hloop.
      2:{ apply bool_decide_eq_true in Hh. apply list_elem_of_In.
          apply list_elem_of_In in Hh. simpl in *. tauto. }
      injection Hloop as <-. eexists. split; [done|].
      by apply retargeted_extend, retargeted_host.
    - cbn [head] in Hloop. rewrite (body_host arg value a Hh) in Hloop.
      apply (IH2 value rest' eq_refl _ _ _ _ Hloop); [|by eapply Hend2].
      by apply retargeted_extend, retargeted_set_host. }
  destruct (String.prefix "--host=" arg) eqn:Hhe.
  { (* --host=value *)
    rewrite (body_host_equals arg _ a Hh Hhe) in Hloop.
    rewrite (tunneled_loop_one arg rest _ (tunneled_host_equals arg (head rest) Hh Hhe)).
    rewrite <- app_assoc. cbn [app].
    destruct (option_equals_tests "--host" tunnel_host) as (T1 & _ & _ & T4);
      [apply list_elem_of_In; simpl; tauto|].
    change ("--host" +:+ "=" +:+ tunnel_host) with ("--host=" +:+ tunnel_host) in *.
    change ("--host" +:+ "=") with "--host=" in T4.
    rewrite (connection_loop_one _ _ b _ (body_host_equals _ _ b T1 T4)).
    rewrite after_equals_host_option.
    apply (IH1 _ _ _ _ Hloop); [|done].
    by apply retargeted_extend, retargeted_set_host. }
  destruct (bool_decide (arg ∈ ["-p"; "--port"])) eqn:Hp.
  { (* -p, --port *)
    rewrite (tunneled_loop_two arg rest _ (tunneled_port arg (head rest) Hh Hhe Hp)).
    rewrite <- app_assoc. cbn [app].
    assert (Hbody : connection_body "-p" (Some (Py.str tunnel_port)) b
                    = Ok (extend ["-p"; Py.str tunnel_port] (set_port tunnel_port b), true)).
    { rewrite body_port by done. by rewrite int_str. }
    rewrite (connection_loop_two "-p" _ _ b _ Hbody).
    destruct rest as [|value rest'].
    - rewrite body_dangling in Hloop.
      2:{ apply bool_decide_eq_true in Hp. apply list_elem_of_In.
          apply list_elem_of_In in Hp. simpl in *. tauto. }
      injection Hloop as <-. eexists. split; [done|].
      by apply retargeted_extend, retargeted_port.
    - cbn [head] in Hloop. rewrite (body_port arg value a Hh Hhe Hp) in Hloop.
      destruct (py_int value) as [n|] eqn:Hn; [|done].
      apply (IH2 value rest' eq_refl _ _ _ _ Hloop); [|by eapply Hend2].
      by apply retargeted_extend, retargeted_set_port. }
  destruct (String.prefix "--port=" arg) eqn:Hpe.
  { (* --port=value *)
    rewrite (body_port_equals arg _ a Hh Hhe Hp Hpe) in Hloop.
    destruct (py_int (Py.after_equals arg)) as [n|] eqn:Hn; [|done].
    rewrite (tunneled_loop_one arg rest _
               (tunneled_port_equals arg (head rest) Hh Hhe Hp Hpe)).
    rewrite <- app_assoc. cbn [app].
    destruct (option_equals_tests "--port" (Py.str tunnel_port)) as (T1 & T2 & _ & T4);
      [apply list_elem_of_In; simpl; tauto|].
    change ("--port" +:+ "=" +:+ Py.str tunnel_port)
      with ("--port=" +:+ Py.str tunnel_port) in *.
    change ("--port" +:+ "=") with "--port=" in T4.
    assert (Hbody : ∀ next,
              connection_body ("--port=" +:+ Py.str tunnel_port) next b
              = Ok (extend ["--port=" +:+ Py.str tunnel_port] (set_port tunnel_port b),
                    false)).
    { intros next. rewrite body_port_equals by done.
      by rewrite after_equals_port_option, int_str. }
    rewrite (connection_loop_one _ _ b _ (Hbody _)).
    apply (IH1 _ _ _ _ Hloop); [|done].
    by apply retargeted_extend, retargeted_set_port. }
  destruct (bool_decide (arg ∈ ["-d"; "--dbname"])) eqn:Hd.
  { (* -d, --dbname *)
    destruct rest as [|dbname rest'].
    - assert (suffix = []) as ->.
      { destruct Hend as [Hend|]; [|done]. destruct Hend. by apply dbname_option_inv. }
      assert (Hin : arg ∈ ["-h"; "--host"; "-p"; "--port"; "-d"; "--dbname"]).
      { apply bool_decide_eq_true in Hd. apply list_elem_of_In.
        apply list_elem_of_In in Hd. simpl in *. tauto. }
      rewrite body_dangling in Hloop by done. injection Hloop as <-.
      assert (Htb : tunneled_body arg (head []) tunnel_host (Some tunnel_port)
                    = ([arg], false)).
      { rewrite tunneled_rest by done. by rewrite Hd. }
      rewrite (tunneled_loop_one arg [] _ Htb). cbn [tunneled_loop app].
      rewrite (connection_loop_one arg [] b _ (body_dangling arg b Hin)).
      eexists. split; [done|]. by apply retargeted_extend.
    - cbn [head] in Hloop.
      rewrite (body_dbname arg dbname a Hh Hhe Hp Hpe Hd) in Hloop.
      destruct (connection_of_dbname dbname a) as [a1|] eqn:Ha1; [|done].
      destruct (Str.contains "host=" dbname) eqn:Hc.
      + assert (Htb : tunneled_body arg (head (dbname :: rest'))
                        tunnel_host (Some tunnel_port)
                      = (["-d";
                          Py.join " " (tunneled_parts (Py.split_whitespace dbname)
                                         tunnel_host (Some tunnel_port))], true)).
        { rewrite tunneled_rest by done. cbn [head]. by rewrite Hd, Hc. }
        rewrite (tunneled_loop_two _ _ _ Htb). rewrite <- app_assoc. cbn [app tail].
        destruct (connection_of_dbname_retargeted dbname a a1 b Hc Ha1 Hab)
          as (b1 & Hb1 & Hab1).
        set (v := Py.join " " _) in *.
        assert (Hbody : connection_body "-d" (Some v) b
                        = Ok (extend ["-d"; v] b1, true)).
        { rewrite body_dbname by done. by rewrite Hb1. }
        rewrite (connection_loop_two "-d" _ _ b _ Hbody).
        apply (IH2 dbname rest' eq_refl _ _ _ _ Hloop); [|by eapply Hend2].
        by apply retargeted_extend.
      + assert (Htb : tunneled_body arg (head (dbname :: rest'))
                        tunnel_host (Some tunnel_port)
                      = (["-d"; dbname], true)).
        { rewrite tunneled_rest by done. cbn [head]. by rewrite Hd, Hc. }
        rewrite (tunneled_loop_two _ _ _ Htb). rewrite <- app_assoc. cbn [app tail].
        rewrite connection_of_dbname_plain in Ha1 by done. injection Ha1 as <-.
        assert (Hbody : connection_body "-d" (Some dbname) b
                        = Ok (extend ["-d"; dbname] b, true)).
        { rewrite body_dbname by done. by rewrite connection_of_dbname_plain. }
        rewrite (connection_loop_two "-d" _ _ b _ Hbody).
        apply (IH2 dbname rest' eq_refl _ _ _ _ Hloop); [|by eapply Hend2].
        by apply retargeted_extend. }
  destruct (String.prefix "--dbname=" arg) eqn:Hde.
  { (* --dbname=value *)
    rewrite (body_dbname_equals arg _ a Hh Hhe Hp Hpe Hd Hde) in Hloop.
    destruct (connection_of_dbname (Py.after_equals arg) a) as [a1|] eqn:Ha1; [|done].
    destruct (Str.contains "host=" (Py.after_equals arg)) eqn:Hc.
    + assert (Htb : tunneled_body arg (head rest) tunnel_host (Some tunnel_port)
                    = (["--dbname=" +:+
                        Py.join " "
                          (tunneled_parts (Py.split_whitespace (Py.after_equals arg))
                             tunnel_host (Some tunnel_port))], false)).
      { rewrite tunneled_rest by done. by rewrite Hd, Hde, Hc. }
      rewrite (tunneled_loop_one _ _ _ Htb). rewrite <- app_assoc. cbn [app].
      destruct (connection_of_dbname_retargeted _ a a1 b Hc Ha1 Hab)
        as (b1 & Hb1 & Hab1).
      set (v := Py.join " " _) in *.
      destruct (option_equals_tests "--dbname" v) as (T1 & T2 & T3 & T4);
        [apply list_elem_of_In; simpl; tauto|].
      change ("--dbname" +:+ "=" +:+ v) with ("--dbname=" +:+ v) in *.
      change ("--dbname" +:+ "=") with "--dbname=" in T4.
      assert (Hbody : ∀ next,
                connection_body ("--dbname=" +:+ v) next b
                = Ok (extend ["--dbname=" +:+ v] b1, false)).
      { intros next. rewrite body_dbname_equals by done.
        by rewrite after_equals_dbname_option, Hb1. }
      rewrite (connection_loop_one _ _ b _ (Hbody _)).
      apply (IH1 _ _ _ _ Hloop); [|done]. by apply retargeted_extend.
    + assert (Htb : tunneled_body arg (head rest) tunnel_host (Some tunnel_port)
                    = ([arg], false)).
      { rewrite tunneled_rest by done. by rewrite Hd, Hde, Hc. }
      rewrite (tunneled_loop_one _ _ _ Htb). rewrite <- app_assoc. cbn [app].
      rewrite connection_of_dbname_plain in Ha1 by done. injection Ha1 as <-.
      assert (Hbody : ∀ next, connection_body arg next b = Ok (extend [arg] b, false)).
      { intros next. rewrite body_dbname_equals by done.
        by rewrite connection_of_dbname_plain. }
      rewrite (connection_loop_one _ _ b _ (Hbody _)).
      apply (IH1 _ _ _ _ Hloop); [|done]. by apply retargeted_extend. }
  (* any other argument *)
  rewrite (body_other arg _ a Hh Hhe Hp Hpe Hd Hde) in Hloop.
  assert (Htb : tunneled_body arg (head rest) tunnel_host (Some tunnel_port)
                = ([arg], false)).
  { rewrite tunneled_rest by done. by rewrite Hd, Hde. }
  rewrite (tunneled_loop_one _ _ _ Htb). rewrite <- app_assoc. cbn [app].
  rewrite (connection_loop_one arg _ b _ (body_other arg _ b Hh Hhe Hp Hpe Hd Hde)).
  apply (IH1 _ _ _ _ Hloop); [|done]. by apply retargeted_extend.
Qed.


End RoundTrip.

(** The loop of [parse_connection_args] over the arguments of
    [build_tunneled_args]. *)
Lemma build_then_loop `{PyLib} (args : list string) (a0 a' : connection)
    (original_host : string) (original_port : Z)
    (tunnel_host : string) (tunnel_port : Z) :
  py_int (Py.str tunnel_port) = Ok tunnel_port →
  (∀ s n, py_int s = Ok n → Str.contains "host=" s = false) →
  nospace tunnel_host = true →
  connection_loop args a0 = Ok a' →
  c_has_host a0 = false → c_has_port a0 = false →
  ¬ ends_with_dbname args →
  ∃ bf,
    connection_loop
      (build_tunneled_args args tunnel_host (Some tunnel_port)
         original_host original_port (c_has_host a') (c_has_port a')) a0
    = Ok bf
    ∧ c_host bf = tunnel_host ∧ c_port bf = tunnel_port
    ∧ c_has_host bf = true ∧ c_has_port bf = true.
Proof.
  intros Hint Hno Hth Hloop Hhost0 Hport0 Hend.
  unfold build_tunneled_args.
  set (suffix := (if c_has_host a' then [] else ["-h"; tunnel_host])
                 ++ (if c_has_port a' then [] else ["-p"; Py.str_optional (Some tunnel_port)])).
  destruct (tunneled_loop_parsed tunnel_host tunnel_port Hint Hno Hth args a0 a' a0 suffix
              Hloop) as (b' & Hout & (Hh1 & Hp1 & Hh2 & Hp2)); [|by left|].
  { unfold retargeted. rewrite Hhost0, Hport0. by repeat split. }
  rewrite Hout.
  assert (Hport : ∀ st, connection_body "-p" (Some (Py.str tunnel_port)) st
                        = Ok (extend ["-p"; Py.str tunnel_port]
                                (set_port tunnel_port st), true)).
  { intros st. rewrite body_port by done. by rewrite Hint. }
  subst suffix. cbn [Py.str_optional].
  destruct (c_has_host a') eqn:Ha, (c_has_port a') eqn:Hb; cbn [app].
  - exists b'. split; [done|]. auto.
  - rewrite (connection_loop_two "-p" _ [] b' _ (Hport b')).
    eexists. split; [done|]. simpl. auto.
  - rewrite (connection_loop_two "-h" _ [] b' _ (body_host "-h" tunnel_host b' eq_refl)).
    eexists. split; [done|]. simpl. auto.
  - rewrite (connection_loop_two "-h" _ _ b' _ (body_host "-h" tunnel_host b' eq_refl)).
    rewrite (connection_loop_two "-p" _ [] _ _ (Hport _)).
    eexists. split; [done|]. simpl. auto.
Qed.

(** X13: the arguments that [build_tunneled_args] makes lead to the
    tunnel. For arguments that [parse_connection_args] accepts and that do
    not end with [-d] or [--dbname], [parse_connection_args] of the new
    arguments returns the host and the port of the tunnel, with both flags
    set, whatever the environment holds, and whether the original host and
    port came from options, from a connection string or from neither. The
    host of the tunnel has no white space, [int(str(port))] is the port of
    the tunnel, and [int] accepts no text in which [host=] occurs. *)
Theorem tunneled_args_parse_to_tunnel `{PyLib} (sys : System) (args : list string)
    (host : string) (port : Z) (remaining_args : list string)
    (has_host has_port : bool) (tunnel_host : string) (tunnel_port : Z) :
  py_int (Py.str tunnel_port) = Ok tunnel_port →
  (∀ s n, py_int s = Ok n → Str.contains "host=" s = false) →
  nospace tunnel_host = true →
  parse_connection_args sys args = Ok (host, port, remaining_args, has_host, has_port) →
  ¬ ends_with_dbname args →
  parse_connection_args sys
    (build_tunneled_args remaining_args tunnel_host (Some tunnel_port)
       host port has_host has_port)
  = Ok (tunnel_host, tunnel_port,
        build_tunneled_args remaining_args tunnel_host (Some tunnel_port)
          host port has_host has_port,
        true, true).
Proof.
  intros Hint Hno Hth Hparse Hend. unfold parse_connection_args in *.
  destruct (match environ sys !! "PGPORT" with
            | Some value => py_int value
            | None => Ok 5432
            end) as [port0|]; [|done].
  destruct (connection_loop args _) as [a'|] eqn:Hloop; [|done].
  injection Hparse as <- <- <- <- <-.
  destruct (connection_loop_advances _ _ _ Hloop) as (-> & _).
  cbn [c_remaining_args app].
  destruct (build_then_loop args _ a' (c_host a') (c_port a') tunnel_host tunnel_port
              Hint Hno Hth Hloop eq_refl eq_refl Hend)
    as (bf & Hbf & <- & <- & Hfh & Hfp).
  rewrite Hbf, Hfh, Hfp. by apply connection_loop_advances in Hbf as (-> & _).
Qed.

(** A connection string and a port option, rewritten for a tunnel that
    listens on port 40001. *)
Lemma tunneled_args_parse_to_tunnel_witness :
  parse_connection_args (H:=python) DumpSample.bare
    (build_tunneled_args
       ["-d"; "host=db.prod.com dbname=shop"; "--port=5433"; "--format=c"]
       "127.0.0.1" (Some 40001) "db.prod.com" 5433 true true)
  = Ok ("127.0.0.1"%string, 40001,
        build_tunneled_args
          ["-d"; "host=db.prod.com dbname=shop"; "--port=5433"; "--format=c"]
          "127.0.0.1" (Some 40001) "db.prod.com" 5433 true true,
        true, true)
  ∧ build_tunneled_args
      ["-d"; "host=db.prod.com dbname=shop"; "--port=5433"; "--format=c"]
      "127.0.0.1" (Some 40001) "db.prod.com" 5433 true true
    = ["-d"; "host=127.0.0.1 dbname=shop"; "--port=40001"; "--format=c"]%string.
Proof.
  split; [|vm_compute; reflexivity].
  apply (tunneled_args_parse_to_tunnel (H:=python) DumpSample.bare
           ["-d"; "host=db.prod.com dbname=shop"; "--port=5433"; "--format=c"]).
  - vm_compute; reflexivity.
  - exact IntFacts.int_no_host.
  - reflexivity.
  - vm_compute; reflexivity.
  - intros [Hlast|Hlast]; discriminate Hlast.
Defined.

(** ** Arguments without connection options *)

(** X14: arguments that hold no connection option pass through
    [build_tunneled_args] unchanged and in order, and the host and the
    port of the tunnel come after them, as [-h] and [-p]. *)
Theorem build_tunneled_args_appends (args : list string) (tunnel_host : string)
    (tunnel_port : option Z) (original_host : string) (original_port : Z) :
  Forall (λ arg,
            (arg ∉ ["-h"; "--host"; "-p"; "--port"; "-d"; "--dbname"])
            ∧ String.prefix "--host=" arg = false
            ∧ String.prefix "--port=" arg = false
            ∧ String.prefix "--dbname=" arg = false) args →
  build_tunneled_args args tunnel_host tunnel_port original_host original_port
    false false
  = args ++ ["-h"; tunnel_host; "-p"; Py.str_optional tunnel_port].
Proof.
  intros Hall. unfold build_tunneled_args.
  change (args ++ ["-h"; tunnel_host; "-p"; Py.str_optional tunnel_port])
    with (args ++ ["-h"; tunnel_host] ++ ["-p"; Py.str_optional tunnel_port]).
  f_equal.
  induction Hall as [|arg rest (Hnot & Hh & Hp & Hd) _ IH]; [done|].
  assert (Htest : ∀ o1 o2,
             o1 ∈ ["-h"; "--host"; "-p"; "--port"; "-d"; "--dbname"] →
             o2 ∈ ["-h"; "--host"; "-p"; "--port"; "-d"; "--dbname"] →
             bool_decide (arg ∈ [o1; o2]) = false).
  { intros o1 o2 H1 H2. apply bool_decide_eq_false_2.
    intros [->|[->|Hin%elem_of_nil]%elem_of_cons]%elem_of_cons; done. }
  cbn [tunneled_loop]. unfold tunneled_body.
  rewrite !Htest by (apply list_elem_of_In; simpl; tauto).
  rewrite Hh, Hp, Hd. cbn [app]. by rewrite IH.
Qed.

Lemma build_tunneled_args_appends_witness :
  build_tunneled_args ["--format=c"; "-f"; "out.dump"; "shop"] "127.0.0.1" (Some 40001)
    "localhost" 5432 false false
  = ["--format=c"; "-f"; "out.dump"; "shop"; "-h"; "127.0.0.1"; "-p"; "40001"]%string.
Proof.
  apply (build_tunneled_args_appends
           ["--format=c"; "-f"; "out.dump"; "shop"] "127.0.0.1" (Some 40001)).
  repeat (constructor;
          [split; [apply (bool_decide_unpack _); vm_compute; exact I|done]|]).
  constructor.
Defined.

(** ** [parse_user_and_database] *)

Section UserAndDatabase.
Variable db : string.
Hypothesis db_positional : String.prefix "-" db = false.

Lemma positional_tests :
  bool_decide (db ∈ ["-U"; "--username"]) = false
  ∧ bool_decide (db ∈ ["-d"; "--dbname"]) = false
  ∧ String.prefix "--username=" db = false
  ∧ String.prefix "--dbname=" db = false.
Proof.
  assert (Hnot : ∀ option, String.prefix "-" option = true → db ≠ option)
    by (intros option Ho <-; congruence).
  assert (Hnone : ∀ o1 o2, String.prefix "-" o1 = true → String.prefix "-" o2 = true →
                           bool_decide (db ∈ [o1; o2]) = false).
  { intros o1 o2 H1 H2. apply bool_decide_eq_false_2.
    intros [Heq|[Heq|Hin%elem_of_nil]%elem_of_cons]%elem_of_cons; [| |done].
    - by apply (Hnot o1).
    - by apply (Hnot o2). }
  assert (Hdash : ∀ t, String.prefix (String "-" t) db = false).
  { intros t. destruct (String.prefix (String "-" t) db) eqn:Hp; [|done].
    apply PyFacts.prefix_inv in Hp as [r Hr].
    pose proof (PyFacts.prefix_app "-" (t +:+ r)) as Ht.
    change ("-" +:+ (t +:+ r)) with (String "-" t +:+ r) in Ht. congruence. }
  rewrite !Hnone by done. repeat split; apply Hdash.
Qed.

(** The last argument, when no option takes it as its value. *)
Lemma user_and_database_last prev user database :
  (∀ p, prev = Some p → p ∉ value_options) →
  user_and_database_loop prev [db] (user, database) = (user, db).
Proof.
  intros Hprev. destruct positional_tests as (T1 & T2 & T3 & T4).
  cbn [user_and_database_loop head]. unfold user_and_database_body.
  rewrite T1, T2, T3, T4, db_positional. cbn [negb andb].
  rewrite bool_decide_eq_true_2 by done.
  destruct prev as [p|]; [|done].
  by rewrite bool_decide_eq_false_2 by by apply Hprev.
Qed.

(** An argument that is no option with a value, before the last one. *)
Lemma user_and_database_before_last prev arg user database :
  arg ∉ value_options →
  ∃ user' database1 database2,
    user_and_database_body prev arg (Some db) (user, database)
    = ((user', database1), false)
    ∧ user_and_database_body prev arg None (user, database)
      = ((user', database2), false).
Proof.
  intros Hnot.
  assert (Hnone : ∀ o1 o2, o1 ∈ value_options → o2 ∈ value_options →
                           bool_decide (arg ∈ [o1; o2]) = false).
  { intros o1 o2 H1 H2. apply bool_decide_eq_false_2.
    intros [->|[->|Hin%elem_of_nil]%elem_of_cons]%elem_of_cons; done. }
  unfold user_and_database_body.
  rewrite !Hnone by (apply list_elem_of_In; simpl; tauto).
  destruct (String.prefix "--username=" arg); [by eexists _, _, _|].
  destruct (String.prefix "--dbname=" arg).
  { destruct (negb (Str.contains "=" (Py.after_equals arg))); by eexists _, _, _. }
  replace (bool_decide (Some db = None)) with false by done.
  rewrite andb_false_r.
  destruct (negb (String.prefix "-" arg) && bool_decide (None = None));
    [|by eexists _, _, _].
  destruct prev as [p|]; [|by eexists _, _, _].
  destruct (bool_decide (p ∈ value_options)); by eexists _, _, _.
Qed.

Lemma user_and_database_loop_one prev arg rest st st1 :
  user_and_database_body prev arg (head rest) st = (st1, false) →
  user_and_database_loop prev (arg :: rest) st
  = user_and_database_loop (Some arg) rest st1.
Proof. intros Hbody. simpl. by rewrite Hbody. Qed.

Lemma user_and_database_positional args :
  ∀ prev st,
    (∀ p, match last args with Some q => Some q | None => prev end = Some p →
          p ∉ value_options) →
    user_and_database_loop prev (args ++ [db]) st
    = ((user_and_database_loop prev args st).1, db).
Proof.
  induction args as [|arg rest IH1 IH2] using list_ind_two; intros prev [user database] Hlast.
  { by apply user_and_database_last. }
  destruct rest as [|value rest'].
  - destruct (user_and_database_before_last prev arg user database)
      as (user' & d1 & d2 & Hsome & Hnone); [by apply Hlast|].
    cbn [app].
    rewrite (user_and_database_loop_one prev arg [db] _ _ Hsome).
    rewrite (user_and_database_loop_one prev arg [] _ _ Hnone).
    rewrite user_and_database_last; [done|].
    intros p [= <-]. by apply Hlast.
  - cbn [app user_and_database_loop head].
    destruct (user_and_database_body prev arg (Some value) (user, database))
      as [st1 two].
    destruct two.
    + apply (IH2 value rest' eq_refl). intros p Hp. apply Hlast.
      change (last (arg :: value :: rest')) with (last (value :: rest')).
      rewrite last_cons. by destruct (last rest').
    + apply (IH1 (Some arg)). intros p Hp. apply Hlast.
      change (last (arg :: value :: rest')) with (last (value :: rest')).
      rewrite last_cons in *. by destruct (last rest').
Qed.

End UserAndDatabase.

(** X15: a last argument that does not begin with a dash is the database
    for the password lookup, unless the argument before it is one of the
    options that take a value; it wins over [-d] and [--dbname] before it
    and over [PGDATABASE]. The user is the one of the arguments before
    it. *)
Theorem positional_database (sys : System) (args : list string) (db : string) :
  String.prefix "-" db = false →
  (∀ p, last args = Some p → p ∉ value_options) →
  parse_user_and_database sys (args ++ [db])
  = ((parse_user_and_database sys args).1, db).
Proof.
  intros Hdb Hlast. unfold parse_user_and_database.
  apply user_and_database_positional; [done|].
  intros p Hp. apply Hlast. by destruct (last args).
Qed.

Lemma positional_database_witness :
  parse_user_and_database DumpSample.bare (["-d"; "postgres"; "-U"; "bob"; "-v"] ++ ["shop"])
  = ("bob"%string, "shop"%string).
Proof.
  rewrite (positional_database DumpSample.bare ["-d"; "postgres"; "-U"; "bob"; "-v"] "shop").
  - vm_compute; reflexivity.
  - reflexivity.
  - intros p [= <-]. apply (bool_decide_unpack _). vm_compute; exact I.
Defined.

(** ** [get_password_from_pgpass] *)

Lemma split_field_cons a rest :
  nocolon a = true → Py.split ":" (a +:+ String ":" rest) = a :: Py.split ":" rest.
Proof.
  unfold Py.split. induction a as [|c a IH]; [done|]. unfold nocolon. simpl.
  intros [Hc Ha]%andb_true_iff. apply negb_true_iff in Hc.
  rewrite Hc. by rewrite IH.
Qed.

Lemma split_field a rest :
  nocolon a = true → Py.split ":" (a +:+ ":" +:+ rest) = a :: Py.split ":" rest.
Proof. exact (split_field_cons a rest). Qed.

(** [":".join(s.split(":"))] is [s]. *)
Lemma join_split s : Py.join ":" (Py.split ":" s) = s.
Proof.
  unfold Py.join, Py.split. induction s as [|c s IH]; [done|]. simpl.
  destruct (PyFacts.fields_cons (λ c, bool_decide (c = ":"%char)) s)
    as (field & rest & Hf).
  rewrite Hf in *. destruct (bool_decide (c = ":"%char)) eqn:Hc.
  - apply bool_decide_eq_true in Hc as ->.
    change (String.concat ":" ("" :: field :: rest))
      with (String ":" (String.concat ":" (field :: rest))).
    by rewrite IH.
  - destruct rest as [|r rest]; simpl in *; by rewrite <- IH.
Qed.

Lemma pgpass_lookup_skip sys skipped rest host port database user :
  Forall no_entry skipped →
  pgpass_lookup sys (skipped ++ rest) host port database user
  = pgpass_lookup sys rest host port database user.
Proof.
  induction 1 as [|line skipped Hline _ IH]; [done|].
  cbn [app pgpass_lookup]. destruct Hline as [Hblank|[Hcomment|Hshort]].
  - by rewrite Hblank.
  - rewrite Hcomment. by rewrite orb_true_r.
  - destruct (negb (Str.truthy (Py.strip line)) || String.prefix "#" (Py.strip line));
      [done|].
    by destruct (Py.split ":" (Py.strip line)) as [|? [|? [|? [|? [|? ?]]]]];
      simpl in Hshort; try lia.
Qed.

(** X16: a line of [~/.pgpass] that is blank, that is a comment or that
    has fewer than five fields changes nothing, wherever it stands: the
    password is the one that the other lines give. *)
Theorem pgpass_ignores_other_lines (sys : System) (skipped : list string)
    (line : string) (rest : list string) (host : string) (port : Z)
    (database user : string) :
  pgpass sys = PgpassLines (skipped ++ line :: rest) →
  no_entry line →
  get_password_from_pgpass sys host port database user
  = pgpass_lookup sys (skipped ++ rest) host port database user.
Proof.
  intros Hfile Hline. unfold get_password_from_pgpass.
  rewrite Hfile. clear Hfile.
  induction skipped as [|first skipped IH].
  - by apply (pgpass_lookup_skip sys [line]), Forall_singleton.
  - cbn [app pgpass_lookup]. by rewrite IH.
Qed.

Lemma pgpass_ignores_other_lines_witness :
  get_password_from_pgpass
    (DumpSample.system [] ∅
       (PgpassLines ["db.prod.com:5432:shop:app:first"; "db.prod.com:5432:shop";
                     "db.prod.com:5432:shop:app:second"])
       (Completed 0))
    "db.prod.com" 5432 "shop" "app"
  = Some "first"%string.
Proof.
  rewrite (pgpass_ignores_other_lines _ ["db.prod.com:5432:shop:app:first"]
             "db.prod.com:5432:shop" ["db.prod.com:5432:shop:app:second"]).
  - vm_compute; reflexivity.
  - reflexivity.
  - right. right. vm_compute. lia.
Defined.

(** X17: an entry [host:port:database:user:password] whose first four
    fields hold no colon gives the whole rest of the line as password,
    further colons included, when each of the four fields is [*] or
    matches (the port as the text of [str(port)]); otherwise the lookup
    goes on with the next line. White space around the line is not part
    of it. *)
Theorem pgpass_entry (sys : System) (pg_host pg_port pg_db pg_user password : string)
    (line : string) (rest : list string) (host : string) (port : Z)
    (database user : string) :
  nocolon pg_host = true → nocolon pg_port = true →
  nocolon pg_db = true → nocolon pg_user = true →
  Py.strip line = pgpass_line pg_host pg_port pg_db pg_user password →
  String.prefix "#" pg_host = false →
  pgpass_lookup sys (line :: rest) host port database user
  = if pgpass_field sys pg_host host
       && (bool_decide (pg_port = "*") || bool_decide (Py.str port = pg_port))
       && pgpass_field sys pg_db database
       && pgpass_field sys pg_user user
    then Some password
    else pgpass_lookup sys rest host port database user.
Proof.
  intros Hh Hp Hd Hu Hline Hcomment. cbn [pgpass_lookup]. rewrite Hline.
  unfold pgpass_line.
  assert (Htruthy : Str.truthy
                      (pg_host +:+ ":" +:+ pg_port +:+ ":" +:+ pg_db +:+ ":" +:+
                       pg_user +:+ ":" +:+ password) = true).
  { destruct pg_host; by apply bool_decide_eq_true_2. }
  assert (Hnot : String.prefix "#"
                   (pg_host +:+ ":" +:+ pg_port +:+ ":" +:+ pg_db +:+ ":" +:+
                    pg_user +:+ ":" +:+ password) = false).
  { match goal with |- ?test = false => destruct test eqn:Htest; [|done] end.
    apply PyFacts.prefix_inv in Htest as [r Hr].
    destruct pg_host as [|c h]; [discriminate Hr|].
    rewrite PyFacts.app_cons in Hr. injection Hr as -> _.
    pose proof (PyFacts.prefix_app "#" h) as Hh'.
    change ("#" +:+ h) with (String "#" h) in Hh'. congruence. }
  rewrite Htruthy, Hnot. cbn [negb orb].
  rewrite !split_field by done.
  destruct (PyFacts.fields_cons (λ c, bool_decide (c = ":"%char)) password)
    as (field & more & Hf).
  pose proof (join_split password) as Hjoin.
  unfold Py.split in *. rewrite Hf in *. by rewrite Hjoin.
Qed.

Lemma pgpass_entry_witness :
  pgpass_lookup DumpSample.bare
    ["  db.prod.com:5432:*:app:pa:ss:word  "; "*:*:*:*:other"]
    "db.prod.com" 5432 "shop" "app"
  = Some "pa:ss:word"%string.
Proof.
  rewrite (pgpass_entry DumpSample.bare "db.prod.com" "5432" "*" "app" "pa:ss:word");
    try reflexivity.
Defined.

(** ** [find_pg_dump] *)

(** X18: [find_pg_dump] returns a file that can be executed, or the bare
    name [pg_dump] when none of the places it tries holds one. A
    [pg_dump] in a directory of [PATH] wins over the well-known places:
    the result is then the one of the first such directory. *)
Theorem find_pg_dump_result (env : Env) (sys : System) :
  (executable env sys (find_pg_dump env sys) = true
   ∨ (find_pg_dump env sys = "pg_dump"%string
      ∧ ∀ path, path ∈ path_candidates sys ++ paths_to_check →
                executable env sys path = false))
  ∧ (∀ before path after,
       path_candidates sys = before ++ path :: after →
       Forall (λ p, executable env sys p = false) before →
       executable env sys path = true →
       find_pg_dump env sys = path).
Proof.
  unfold find_pg_dump. fold (path_candidates sys). split.
  - destruct (find (executable env sys) (path_candidates sys)) as [p|] eqn:Hpath.
    { left. by apply find_some in Hpath as [_ ?]. }
    destruct (find (executable env sys) paths_to_check) as [p|] eqn:Hknown.
    { left. by apply find_some in Hknown as [_ ?]. }
    right. split; [done|]. intros path [Hin|Hin]%elem_of_app.
    + by apply (find_none _ _ Hpath), list_elem_of_In.
    + by apply (find_none _ _ Hknown), list_elem_of_In.
  - intros before path after -> Hbefore Hpath.
    induction Hbefore as [|p before Hp _ IH]; simpl.
    + by rewrite Hpath.
    + by rewrite Hp.
Qed.

Lemma find_pg_dump_result_witness :
  find_pg_dump
    (Examples.machine ["/usr/bin/pg_dump"; "/opt/pg/bin/pg_dump"] Examples.no_config)
    (DumpSample.system [("PATH", "/usr/local/bin:/opt/pg/bin/:/usr/bin")] ∅
       PgpassMissing (Completed 0))
  = "/opt/pg/bin/pg_dump"%string.
Proof.
  apply (find_pg_dump_result
           (Examples.machine ["/usr/bin/pg_dump"; "/opt/pg/bin/pg_dump"] Examples.no_config)
           (DumpSample.system [("PATH", "/usr/local/bin:/opt/pg/bin/:/usr/bin")] ∅
              PgpassMissing (Completed 0)))
    with (before := ["/usr/local/bin/pg_dump"%string]) (after := ["/usr/bin/pg_dump"%string]).
  - vm_compute; reflexivity.
  - constructor; [vm_compute; reflexivity|constructor].
  - vm_compute; reflexivity.
Defined.

(** ** [cli] *)

Lemma runs_app xs ys : runs (xs ++ ys) = runs xs ++ runs ys.
Proof. apply omap_app. Qed.

Lemma runs_effects evs : runs (Effect <$> evs) = [].
Proof. by induction evs. Qed.

Lemma stop_tunnel_returns s : ∃ s', stop_tunnel s = (Return (), s').
Proof.
  destruct (tunnel (mgr s)) as [l|] eqn:Hl.
  - destruct (is_active (heap s !!! l)) eqn:Hactive.
    + rewrite (stop_tunnel_active s l Hl Hactive). eauto.
    + rewrite stop_tunnel_idle; [eauto|]. intros l' Hl'. congruence.
  - rewrite stop_tunnel_idle; [eauto|]. intros l' Hl'. congruence.
Qed.

Lemma run_pg_dump_status sys pg_dump_path cmd child_env :
  (run_pg_dump sys pg_dump_path cmd child_env).1 = exit_status (run sys cmd child_env)
  ∧ runs (run_pg_dump sys pg_dump_path cmd child_env).2 = [].
Proof. unfold run_pg_dump. by destruct (run sys cmd child_env). Qed.

(** [cli] once [start_tunnel] has returned. *)
Lemma cli_run `{PyLib} env sys args ssh_tunnel dsn_alias host port remaining_args
    has_host has_port tunnel_host tunnel_port s :
  parse_connection_args sys args = Ok (host, port, remaining_args, has_host, has_port) →
  start_tunnel env host port dsn_alias (cli_start sys ssh_tunnel)
  = (Return (tunnel_host, tunnel_port), s) →
  ∃ errors,
    (∀ ev, ev ∈ errors → ∃ text, ev = EvSecho text true "red")
    ∧ cli env sys args ssh_tunnel dsn_alias
      = (exit_status
           (run sys
              (find_pg_dump env sys
               :: if bool_decide (tunnel_host ≠ host)
                     || bool_decide (tunnel_port ≠ Some port)
                  then build_tunneled_args remaining_args tunnel_host tunnel_port
                         host port has_host has_port
                  else args)
              (if bool_decide (tunnel_host ≠ host)
                  || bool_decide (tunnel_port ≠ Some port)
               then tunneled_environ sys args host port
               else environ sys)),
         (Effect <$> trace s)
         ++ [Run (find_pg_dump env sys
                  :: if bool_decide (tunnel_host ≠ host)
                        || bool_decide (tunnel_port ≠ Some port)
                     then build_tunneled_args remaining_args tunnel_host tunnel_port
                            host port has_host has_port
                     else args)
               (if bool_decide (tunnel_host ≠ host)
                   || bool_decide (tunnel_port ≠ Some port)
                then tunneled_environ sys args host port
                else environ sys)]
         ++ (Effect <$> errors)
         ++ (Effect <$> new_events s (stop_tunnel s).2),
         Some (stop_tunnel s).2).
Proof.
  intros Hparse Hstart. unfold cli. rewrite Hparse.
  fold (cli_start sys ssh_tunnel). rewrite Hstart. cbv zeta.
  destruct (stop_tunnel_returns s) as [s' Hs']. rewrite Hs'. cbn [snd].
  unfold run_pg_dump.
  destruct (run sys _ _) eqn:Hrun; cbn [exit_status].
  - exists []. split; [by intros ev ?%elem_of_nil|done].
  - eexists [EvSecho _ true "red"]. split; [|done].
    intros ev ->%list_elem_of_singleton. eauto.
  - exists []. split; [by intros ev ?%elem_of_nil|done].
  - exists []. split; [by intros ev ?%elem_of_nil|done].
Qed.

(** X19: [cli] never returns: it ends in [SystemExit] or in an exception.
    It runs at most one command. When it runs none, an exception
    propagates or the exit status is 1. When it runs one, the command is
    that of [find_pg_dump] and the exit status is the return code of the
    command, 1 when the command is not found, and 130 on a keyboard
    interrupt; any other exception of the run propagates. *)
Theorem cli_exit_status `{PyLib} (env : Env) (sys : System) (args : list string)
    (ssh_tunnel dsn_alias : option string) :
  match runs (cli env sys args ssh_tunnel dsn_alias).1.2 with
  | [] =>
      (∃ e, (cli env sys args ssh_tunnel dsn_alias).1.1 = Raised e)
      ∨ (cli env sys args ssh_tunnel dsn_alias).1.1 = SystemExit 1
  | [(cmd, child_env)] =>
      head cmd = Some (find_pg_dump env sys)
      ∧ (cli env sys args ssh_tunnel dsn_alias).1.1 = exit_status (run sys cmd child_env)
  | _ => False
  end.
Proof.
  destruct (parse_connection_args sys args)
    as [[[[[host port] remaining_args] has_host] has_port]|e] eqn:Hparse.
  2:{ unfold cli. rewrite Hparse. simpl. eauto. }
  destruct (start_tunnel env host port dsn_alias (cli_start sys ssh_tunnel))
    as [[[tunnel_host tunnel_port]|e|code] s] eqn:Hstart.
  - destruct (cli_run env sys args ssh_tunnel dsn_alias _ _ _ _ _ _ _ _ Hparse Hstart)
      as (errors & _ & ->).
    cbn [fst snd]. rewrite !runs_app, !runs_effects. by cbn.
  - unfold cli. rewrite Hparse. fold (cli_start sys ssh_tunnel). rewrite Hstart.
    cbn [fst snd]. rewrite runs_effects. eauto.
  - unfold cli. rewrite Hparse. fold (cli_start sys ssh_tunnel). rewrite Hstart.
    cbn [fst snd]. rewrite runs_effects. right. f_equal.
    pose proof (start_tunnel_cases env host port dsn_alias (cli_start sys ssh_tunnel))
      as Hpath.
    rewrite Hstart in Hpath. by inversion Hpath.
Qed.


Lemma effect_elem_of ev (evs : list event) : Effect ev ∈ Effect <$> evs ↔ ev ∈ evs.
Proof.
  split.
  - intros (ev' & [= ->] & Hin)%list_elem_of_fmap. done.
  - intros Hin. apply list_elem_of_fmap. eauto.
Qed.











(** X24: a [PGPORT] that [int] rejects stops [cli] at once. The
    conversion of the environment variable comes before the arguments are
    read: [parse_connection_args] raises whatever the arguments are, a
    [-p] option included, and [cli] raises with it before it makes a
    tunnel manager or runs a command. *)
Theorem cli_invalid_pgport `{PyLib} (env : Env) (sys : System) (args : list string)
    (ssh_tunnel dsn_alias : option string) (value : string) (e : exn) :
  environ sys !! "PGPORT" = Some value →
  py_int value = Err e →
  parse_connection_args sys args = Err e
  ∧ cli env sys args ssh_tunnel dsn_alias = (Raised e, [], None).
Proof.
  intros Hvalue Hint.
  assert (Hparse : parse_connection_args sys args = Err e).
  { unfold parse_connection_args. by rewrite Hvalue, Hint. }
  split; [done|]. unfold cli. by rewrite Hparse.
Qed.

Lemma cli_invalid_pgport_witness :
  ∃ e,
    cli (H:=python) DumpSample.machine
      (DumpSample.system [("PGPORT", "")] DumpSample.tunnels PgpassMissing (Completed 0))
      ["-h"; "db.prod.com"; "-p"; "5432"; "shop"] None None
    = (Raised e, [], None).
Proof.
  destruct (Url.int "") as [n|e] eqn:Hint; [by vm_compute in Hint|].
  exists e.
  apply (cli_invalid_pgport (H:=python) DumpSample.machine
           (DumpSample.system [("PGPORT", "")] DumpSample.tunnels PgpassMissing
              (Completed 0))
           ["-h"; "db.prod.com"; "-p"; "5432"; "shop"] None None "" e);
    [reflexivity|exact Hint].
Defined.
